(** * sociallens: the Lambda-to-Lambda invocation layer

    A shallow embedding of the two [DataServiceLambdaClient] classes
    (services/summarizer_service/app/infrastructure/lambda_client.py and
    services/reddit_service/app/infrastructure/lambda_client.py), of
    [SummarizerService] (services/summarizer_service/app/services/
    summarizer_service.py) and of the [GET /summary/{post_id}] route
    (services/summarizer_service/app/api/v1/endpoints/summarizer.py).

    Python values that travel through [json.dumps] / [json.loads] are the
    inductive type [json]; exceptions are values of [exn]; a Python call
    either returns or raises ([outcome]); the invocation substrate and the
    clock are an explicit world threaded through a state monad.  Logging
    calls have no effect on results and are left out. *)

From Stdlib Require Import ZArith List String Ascii Bool Lia DecimalString.
From Stdlib Require DecimalZ DecimalPos DecimalN DecimalFacts.
Import ListNotations.
Local Open Scope string_scope.
Local Open Scope Z_scope.
Set Warnings "-register-all".

(* ================================================================== *)
(** ** Python values                                                    *)
(* ================================================================== *)

Module Py.

(** The values [json.loads] produces and [json.dumps] accepts.  [JNull] is
    Python's [None]; a dict keeps insertion order and has unique keys.
    Text is over the code points 0..255.  A float is carried as its number
    token ([JFloat "0.8"]): the modelled code does no arithmetic on floats,
    a float is compared with an int by its decimal value and printed as
    its token. *)
Inductive json : Type :=
| JNull
| JBool (b : bool)
| JInt (n : Z)
| JFloat (lit : string)
| JStr (s : string)
| JList (l : list json)
| JDict (d : list (string * json)).

Definition dict := list (string * json).

(** [d.get(k)] on the association list of a dict. *)
Fixpoint dict_get (k : string) (d : dict) : option json :=
  match d with
  | [] => None
  | (k', v) :: d' => if String.eqb k k' then Some v else dict_get k d'
  end.

(** [d[k] = v]: overwrite in place, or append a new key. *)
Fixpoint dict_set (k : string) (v : json) (d : dict) : dict :=
  match d with
  | [] => [(k, v)]
  | (k', v') :: d' =>
      if String.eqb k k' then (k', v) :: d' else (k', v') :: dict_set k v d'
  end.

(** Exception classes that occur in the modelled code. *)
Inductive exn_class : Type :=
| TimeoutError        (* asyncio.TimeoutError *)
| Exception_          (* plain Exception(...) *)
| AttributeError
| TypeError
| KeyError
| ValueError
| JSONDecodeError
| ValidationError     (* pydantic *)
| EndpointConnectionError (* botocore: the substrate is unreachable *)
| ClientError.        (* botocore: the substrate rejected the request *)

(** An exception is a class with the text [str(e)] gives, or FastAPI's
    [HTTPException(status_code, detail)]. *)
Inductive exn : Type :=
| PyExc (cls : exn_class) (msg : string)
| HTTPException (status_code : Z) (detail : string).

(** The result of running a Python call. *)
Inductive outcome (A : Type) : Type :=
| Return (a : A)
| Raise (e : exn).
Arguments Return {A} a.
Arguments Raise {A} e.

Definition is_timeout_error (e : exn) : bool :=
  match e with
  | PyExc TimeoutError _ => true
  | _ => false
  end.

(** [str(n)] for an int. *)
Definition str_of_int (n : Z) : string := NilZero.string_of_int (Z.to_int n).

(** [str(e)].  For [HTTPException] this is Starlette's
    [f"{status_code}: {detail}"]. *)
Definition str_of_exn (e : exn) : string :=
  match e with
  | PyExc _ msg => msg
  | HTTPException sc d => str_of_int sc ++ ": " ++ d
  end.

End Py.
Export Py.

(* ================================================================== *)
(** ** Characters and strings                                           *)
(* ================================================================== *)

Module Chars.

Definition dquote : ascii := ascii_of_nat 34.
Definition squote : ascii := ascii_of_nat 39.
Definition backslash : ascii := ascii_of_nat 92.

Definition chr (c : ascii) : string := String c EmptyString.

Definition code (c : ascii) : N := N_of_ascii c.

Definition is_digit (c : ascii) : bool :=
  ((48 <=? code c) && (code c <=? 57))%N.

Definition hex_char (n : N) : ascii :=
  if (n <? 10)%N then ascii_of_N (48 + n) else ascii_of_N (87 + n).

Definition hex_value (c : ascii) : option N :=
  let n := code c in
  if ((48 <=? n) && (n <=? 57))%N then Some (n - 48)%N
  else if ((97 <=? n) && (n <=? 102))%N then Some (n - 87)%N
  else if ((65 <=? n) && (n <=? 70))%N then Some (n - 55)%N
  else None.

(** Two lower-case hex digits of a code point below 256. *)
Definition hex2 (c : ascii) : string :=
  String (hex_char (code c / 16)) (String (hex_char (code c mod 16)) EmptyString).

Fixpoint contains_char (c : ascii) (s : string) : bool :=
  match s with
  | EmptyString => false
  | String c' s' => Ascii.eqb c c' || contains_char c s'
  end.

(** The longest prefix of digits, and the rest. *)
Fixpoint span_digits (s : string) : string * string :=
  match s with
  | String c r =>
      if is_digit c then let (ds, r') := span_digits r in (String c ds, r')
      else (EmptyString, s)
  | EmptyString => (EmptyString, EmptyString)
  end.

(** The value of a string of decimal digits, most significant first. *)
Fixpoint digits_value_from (acc : Z) (s : string) : Z :=
  match s with
  | String c r => digits_value_from (10 * acc + Z.of_N (code c - 48)) r
  | EmptyString => acc
  end.

Definition digits_value (s : string) : Z := digits_value_from 0 s.

(** [s.startswith(p)], returning what follows the prefix. *)
Fixpoint strip_prefix (p s : string) : option string :=
  match p, s with
  | EmptyString, _ => Some s
  | String a p', String b s' => if Ascii.eqb a b then strip_prefix p' s' else None
  | String _ _, EmptyString => None
  end.

(** [sep.join(l)]. *)
Fixpoint join (sep : string) (l : list string) : string :=
  match l with
  | [] => EmptyString
  | [x] => x
  | x :: l' => x ++ sep ++ join sep l'
  end.

End Chars.
Export Chars.

(* ================================================================== *)
(** ** The [json] module of the Python standard library                *)
(* ================================================================== *)

Module Json.

(** *** [json.dumps] with its default separators and [ensure_ascii]. *)

(** One character inside a JSON string literal. *)
Definition escape_char (c : ascii) : string :=
  let n := code c in
  if (n =? 34)%N then String backslash (chr dquote)
  else if (n =? 92)%N then String backslash (chr backslash)
  else if (n =? 10)%N then String backslash "n"
  else if (n =? 13)%N then String backslash "r"
  else if (n =? 9)%N then String backslash "t"
  else if (n =? 8)%N then String backslash "b"
  else if (n =? 12)%N then String backslash "f"
  else if ((n <? 32) || (126 <? n))%N then String backslash ("u00" ++ hex2 c)
  else chr c.

Fixpoint escape (s : string) : string :=
  match s with
  | EmptyString => EmptyString
  | String c r => escape_char c ++ escape r
  end.

Definition quote (s : string) : string := chr dquote ++ escape s ++ chr dquote.

(** [float.__repr__] as [json.dumps] prints it. *)
Definition dumps_float (lit : string) : string :=
  if String.eqb lit "nan" then "NaN"
  else if String.eqb lit "inf" then "Infinity"
  else if String.eqb lit "-inf" then "-Infinity"
  else lit.

Fixpoint dumps (v : json) : string :=
  match v with
  | JNull => "null"
  | JBool true => "true"
  | JBool false => "false"
  | JInt n => str_of_int n
  | JFloat lit => dumps_float lit
  | JStr s => quote s
  | JList l => "[" ++ join ", " (map dumps l) ++ "]"
  | JDict d =>
      "{" ++ join ", " (map (fun kv => quote (fst kv) ++ ": " ++ dumps (snd kv)) d) ++ "}"
  end.

(** *** [json.loads]: a recursive-descent decoder. *)

Definition is_ws (c : ascii) : bool :=
  let n := code c in ((n =? 32) || (n =? 9) || (n =? 10) || (n =? 13))%N.

Fixpoint skip_ws (s : string) : string :=
  match s with
  | String c r => if is_ws c then skip_ws r else s
  | EmptyString => s
  end.

(** The four hex digits of a [\uXXXX] escape.  Text is modelled over the
    code points 0..255, so an escape above that is refused. *)
Definition hex4 (a b c d : ascii) : option ascii :=
  match hex_value a, hex_value b, hex_value c, hex_value d with
  | Some x, Some y, Some z, Some w =>
      let n := (((x * 16 + y) * 16 + z) * 16 + w)%N in
      if (n <? 256)%N then Some (ascii_of_N n) else None
  | _, _, _, _ => None
  end.

Definition simple_escape (e : ascii) : option ascii :=
  let n := code e in
  if (n =? 34)%N then Some dquote
  else if (n =? 92)%N then Some backslash
  else if (n =? 47)%N then Some (ascii_of_nat 47)
  else if (n =? 98)%N then Some (ascii_of_nat 8)
  else if (n =? 102)%N then Some (ascii_of_nat 12)
  else if (n =? 110)%N then Some (ascii_of_nat 10)
  else if (n =? 114)%N then Some (ascii_of_nat 13)
  else if (n =? 116)%N then Some (ascii_of_nat 9)
  else None.

(** The body of a string literal after its opening quote: the decoded
    text and what follows the closing quote.  Control characters are
    refused, as in the decoder's strict mode. *)
Fixpoint scan_string (s : string) : option (string * string) :=
  match s with
  | EmptyString => None
  | String c r =>
      if Ascii.eqb c dquote then Some (EmptyString, r)
      else if Ascii.eqb c backslash then
        match r with
        | String e r' =>
            if Ascii.eqb e "u" then
              match r' with
              | String h1 (String h2 (String h3 (String h4 r''))) =>
                  match hex4 h1 h2 h3 h4, scan_string r'' with
                  | Some x, Some (t, rest) => Some (String x t, rest)
                  | _, _ => None
                  end
              | _ => None
              end
            else
              match simple_escape e, scan_string r' with
              | Some x, Some (t, rest) => Some (String x t, rest)
              | _, _ => None
              end
        | EmptyString => None
        end
      else if (code c <? 32)%N then None
      else
        match scan_string r with
        | Some (t, rest) => Some (String c t, rest)
        | None => None
        end
  end.

(** A number token.  Without fraction and exponent it is an int;
    otherwise the token is kept as the float's literal. *)
Definition scan_number (s : string) : option (json * string) :=
  let (neg, s1) :=
    match s with
    | String c r => if Ascii.eqb c "-" then (true, r) else (false, s)
    | EmptyString => (false, s)
    end in
  let (ip, s2) :=
    (* the integer part is a single 0 or starts with a non-zero digit *)
    match span_digits s1 with
    | (String c (String c' r'), rest) =>
        if Ascii.eqb c "0" then (chr c, String c' r' ++ rest)
        else (String c (String c' r'), rest)
    | other => other
    end in
  match ip with
  | EmptyString => None
  | _ =>
      let (frac, s3) :=
        match s2 with
        | String c r =>
            if Ascii.eqb c "." then
              let (fp, r') := span_digits r in
              match fp with
              | EmptyString => (EmptyString, s2)
              | _ => (String c fp, r')
              end
            else (EmptyString, s2)
        | EmptyString => (EmptyString, s2)
        end in
      let (ex, s4) :=
        match s3 with
        | String c r =>
            if Ascii.eqb c "e" || Ascii.eqb c "E" then
              let (sg, r1) :=
                match r with
                | String g r0 =>
                    if Ascii.eqb g "+" || Ascii.eqb g "-" then (chr g, r0)
                    else (EmptyString, r)
                | EmptyString => (EmptyString, r)
                end in
              let (ep, r2) := span_digits r1 in
              match ep with
              | EmptyString => (EmptyString, s3)
              | _ => (String c (sg ++ ep), r2)
              end
            else (EmptyString, s3)
        | EmptyString => (EmptyString, s3)
        end in
      let sign := if neg then "-" else EmptyString in
      match frac, ex with
      | EmptyString, EmptyString =>
          Some (JInt (if neg then - digits_value ip else digits_value ip), s4)
      | _, _ => Some (JFloat (sign ++ ip ++ frac ++ ex), s4)
      end
  end.

(** A value, the elements of an array after its bracket and the members
    of an object after its brace.  Every call spends one unit of fuel. *)
Fixpoint scan_value (fuel : nat) (s : string) : option (json * string) :=
  match fuel with
  | O => None
  | S f =>
      let s := skip_ws s in
      match strip_prefix "null" s with
      | Some r => Some (JNull, r)
      | None =>
      match strip_prefix "true" s with
      | Some r => Some (JBool true, r)
      | None =>
      match strip_prefix "false" s with
      | Some r => Some (JBool false, r)
      | None =>
      match strip_prefix "NaN" s with
      | Some r => Some (JFloat "nan", r)
      | None =>
      match strip_prefix "Infinity" s with
      | Some r => Some (JFloat "inf", r)
      | None =>
      match strip_prefix "-Infinity" s with
      | Some r => Some (JFloat "-inf", r)
      | None =>
      match s with
      | EmptyString => None
      | String c r =>
          if Ascii.eqb c dquote then
            match scan_string r with
            | Some (t, rest) => Some (JStr t, rest)
            | None => None
            end
          else if Ascii.eqb c "[" then
            match skip_ws r with
            | String c' r' =>
                if Ascii.eqb c' "]" then Some (JList [], r')
                else
                  match scan_elements f r with
                  | Some (l, rest) => Some (JList l, rest)
                  | None => None
                  end
            | EmptyString => None
            end
          else if Ascii.eqb c "{" then
            match skip_ws r with
            | String c' r' =>
                if Ascii.eqb c' "}" then Some (JDict [], r')
                else
                  match scan_members f [] r with
                  | Some (d, rest) => Some (JDict d, rest)
                  | None => None
                  end
            | EmptyString => None
            end
          else scan_number s
      end end end end end end end
  end

with scan_elements (fuel : nat) (s : string) : option (list json * string) :=
  match fuel with
  | O => None
  | S f =>
      match scan_value f s with
      | Some (v, r) =>
          match skip_ws r with
          | String c r' =>
              if Ascii.eqb c "," then
                match scan_elements f r' with
                | Some (l, rest) => Some (v :: l, rest)
                | None => None
                end
              else if Ascii.eqb c "]" then Some ([v], r')
              else None
          | EmptyString => None
          end
      | None => None
      end
  end

with scan_members (fuel : nat) (acc : dict) (s : string) : option (dict * string) :=
  match fuel with
  | O => None
  | S f =>
      match skip_ws s with
      | String q r0 =>
          if Ascii.eqb q dquote then
            match scan_string r0 with
            | Some (k, r1) =>
                match skip_ws r1 with
                | String c r2 =>
                    if Ascii.eqb c ":" then
                      match scan_value f r2 with
                      | Some (v, r3) =>
                          let acc' := dict_set k v acc in
                          match skip_ws r3 with
                          | String c' r4 =>
                              if Ascii.eqb c' "," then scan_members f acc' r4
                              else if Ascii.eqb c' "}" then Some (acc', r4)
                              else None
                          | EmptyString => None
                          end
                      | None => None
                      end
                    else None
                | EmptyString => None
                end
            | None => None
            end
          else None
      | EmptyString => None
      end
  end.

(** [json.loads(s)]: one value, surrounded by optional white space, with
    nothing after it.  A text that is no JSON document raises
    [JSONDecodeError]. *)
Definition loads (s : string) : outcome json :=
  match scan_value (2 * String.length s + 2) s with
  | Some (v, r) =>
      match skip_ws r with
      | EmptyString => Return v
      | String _ _ => Raise (PyExc JSONDecodeError "Extra data")
      end
  | None => Raise (PyExc JSONDecodeError "Expecting value")
  end.

End Json.

(* ================================================================== *)
(** ** Python operators on decoded values                              *)
(* ================================================================== *)

Module PyOps.

(** The decimal value of a float token equals the int [n]. *)
Definition float_lit_eq_int (lit : string) (n : Z) : bool :=
  let (neg, s1) :=
    match lit with
    | String c r => if Ascii.eqb c "-" then (true, r) else (false, lit)
    | EmptyString => (false, lit)
    end in
  let (ip, s2) := span_digits s1 in
  let (fp, s3) :=
    match s2 with
    | String c r => if Ascii.eqb c "." then span_digits r else (EmptyString, s2)
    | EmptyString => (EmptyString, s2)
    end in
  let ex :=
    match s3 with
    | String c r =>
        if Ascii.eqb c "e" || Ascii.eqb c "E" then
          match r with
          | String g r0 =>
              if Ascii.eqb g "-" then - digits_value (fst (span_digits r0))
              else if Ascii.eqb g "+" then digits_value (fst (span_digits r0))
              else digits_value (fst (span_digits r))
          | EmptyString => 0
          end
        else 0
    | EmptyString => 0
    end in
  match ip with
  | EmptyString => false          (* nan, inf, -inf *)
  | _ =>
      let m := digits_value (ip ++ fp) in
      let m := if neg then - m else m in
      let sc := ex - Z.of_nat (String.length fp) in
      if 0 <=? sc then m * 10 ^ sc =? n else m =? n * 10 ^ (- sc)
  end.

(** [v == n] for an int literal [n]. *)
Definition py_eq_int (v : json) (n : Z) : bool :=
  match v with
  | JInt m => m =? n
  | JBool b => (if b then 1 else 0) =? n
  | JFloat lit => float_lit_eq_int lit n
  | _ => false
  end.

(** [bool(v)]. *)
Definition py_truthy (v : json) : bool :=
  match v with
  | JNull => false
  | JBool b => b
  | JInt n => negb (n =? 0)
  | JFloat lit => negb (float_lit_eq_int lit 0)
  | JStr s => negb (String.eqb s EmptyString)
  | JList l => match l with [] => false | _ => true end
  | JDict d => match d with [] => false | _ => true end
  end.

(** [repr] of a str. *)
Definition repr_char (q c : ascii) : string :=
  let n := code c in
  if Ascii.eqb c q || Ascii.eqb c backslash then String backslash (chr c)
  else if (n =? 10)%N then String backslash "n"
  else if (n =? 13)%N then String backslash "r"
  else if (n =? 9)%N then String backslash "t"
  else if ((n <? 32) || (n =? 127) || ((128 <=? n) && (n <=? 160)) || (n =? 173))%N
       then String backslash ("x" ++ hex2 c)
  else chr c.

Fixpoint repr_chars (q : ascii) (s : string) : string :=
  match s with
  | EmptyString => EmptyString
  | String c r => repr_char q c ++ repr_chars q r
  end.

Definition repr_str (s : string) : string :=
  let q := if contains_char squote s && negb (contains_char dquote s)
           then dquote else squote in
  chr q ++ repr_chars q s ++ chr q.

(** [repr(v)].  A float is carried as the literal it was read from and
    is printed as that literal; Python prints the shortest literal of the
    parsed number, which is the same text only when the literal already has
    that form. *)
Fixpoint py_repr (v : json) : string :=
  match v with
  | JNull => "None"
  | JBool true => "True"
  | JBool false => "False"
  | JInt n => str_of_int n
  | JFloat lit => lit
  | JStr s => repr_str s
  | JList l => "[" ++ join ", " (map py_repr l) ++ "]"
  | JDict d =>
      "{" ++ join ", " (map (fun kv => repr_str (fst kv) ++ ": " ++ py_repr (snd kv)) d) ++ "}"
  end.

(** [str(v)], which is what an f-string field prints. *)
Definition py_str (v : json) : string :=
  match v with
  | JStr s => s
  | _ => py_repr v
  end.

(** [v.get(k, default)]: only a dict has the method. *)
Definition py_get (v : json) (k : string) (default : json) : outcome json :=
  match v with
  | JDict d =>
      Return (match dict_get k d with Some x => x | None => default end)
  | _ => Raise (PyExc AttributeError "object has no attribute 'get'")
  end.

(** [json.loads(v)] on a value taken out of a decoded document. *)
Definition json_loads (v : json) : outcome json :=
  match v with
  | JStr s => Json.loads s
  | _ => Raise (PyExc TypeError "the JSON object must be str, bytes or bytearray")
  end.

End PyOps.
Export PyOps.

(** Sequencing of calls that may raise. *)
Definition obind {A B : Type} (x : outcome A) (f : A -> outcome B) : outcome B :=
  match x with
  | Return a => f a
  | Raise e => Raise e
  end.

Notation "x <- c ;; k" := (obind c (fun x => k))
  (at level 61, c at next level, right associativity).

(* ================================================================== *)
(** ** Domain models                                                    *)
(* ================================================================== *)

(** [datetime.datetime], naive or with a UTC offset in minutes. *)
Module Datetime.

Record datetime : Type := mk_datetime {
  year : Z; month : Z; day : Z;
  hour : Z; minute : Z; second : Z; microsecond : Z;
  utcoffset : option Z
}.

(** [s.zfill(w)] for a string of digits. *)
Definition zfill (w : nat) (s : string) : string :=
  String.concat EmptyString (repeat "0" (w - String.length s)) ++ s.

Definition isoformat (d : datetime) : string :=
  zfill 4 (str_of_int (year d)) ++ "-" ++ zfill 2 (str_of_int (month d)) ++ "-"
  ++ zfill 2 (str_of_int (day d)) ++ "T" ++ zfill 2 (str_of_int (hour d)) ++ ":"
  ++ zfill 2 (str_of_int (minute d)) ++ ":" ++ zfill 2 (str_of_int (second d))
  ++ (if microsecond d =? 0 then EmptyString
      else "." ++ zfill 6 (str_of_int (microsecond d)))
  ++ match utcoffset d with
     | None => EmptyString
     | Some m =>
         (if m <? 0 then "-" else "+")
         ++ zfill 2 (str_of_int (Z.abs m / 60)) ++ ":"
         ++ zfill 2 (str_of_int (Z.abs m mod 60))
     end.

End Datetime.
Export Datetime.

(** summarizer_service/app/domain/models/story_summary.py *)
Module StorySummaryCreate.
Record t : Type := mk {
  post_id : Z;
  title : string;
  summary : string;
  generated_story : string;
  model_used : string;
  generation_metadata : option dict
}.
End StorySummaryCreate.

Module StorySummary.
Record t : Type := mk {
  post_id : Z;
  title : string;
  summary : string;
  generated_story : string;
  model_used : string;
  generation_metadata : option dict;
  id : Z;
  created_at : datetime
}.

(** The record's fields as the JSON object the data service sends back. *)
Definition fields (s : t) : dict :=
  [("post_id", JInt (post_id s));
   ("title", JStr (title s));
   ("summary", JStr (summary s));
   ("generated_story", JStr (generated_story s));
   ("model_used", JStr (model_used s));
   ("generation_metadata",
    match generation_metadata s with Some d => JDict d | None => JNull end);
   ("id", JInt (id s));
   ("created_at", JStr (isoformat (created_at s)))].

Definition to_json (s : t) : json := JDict (fields s).

Section Validation.

(** pydantic's reading of a [datetime] field, and the clock behind the
    field's [default_factory=datetime.utcnow]. *)
Variable pydantic_datetime : json -> option datetime.
Variable utcnow : datetime.

Definition invalid {A : Type} : outcome A :=
  Raise (PyExc ValidationError "validation error for StorySummary").

Definition int_field (d : dict) (k : string) : outcome Z :=
  match dict_get k d with
  | Some (JInt n) => Return n
  | _ => invalid
  end.

Definition str_field (d : dict) (k : string) : outcome string :=
  match dict_get k d with
  | Some (JStr s) => Return s
  | _ => invalid
  end.

Definition optional_dict_field (d : dict) (k : string) : outcome (option dict) :=
  match dict_get k d with
  | None | Some JNull => Return None
  | Some (JDict m) => Return (Some m)
  | Some _ => invalid
  end.

Definition datetime_field_default (d : dict) (k : string) : outcome datetime :=
  match dict_get k d with
  | None => Return utcnow
  | Some v =>
      match pydantic_datetime v with
      | Some t => Return t
      | None => invalid
      end
  end.

(** The constructor call on the unpacked dict, [StorySummary] of [body].
    Fields of the declared JSON type are taken as
    they are and unknown keys are ignored; a required field that is missing
    or of another type is a [ValidationError] (pydantic's conversions
    between types are not modelled). *)
Definition init (body : json) : outcome t :=
  match body with
  | JDict d =>
      p <- int_field d "post_id" ;;
      ti <- str_field d "title" ;;
      su <- str_field d "summary" ;;
      gs <- str_field d "generated_story" ;;
      mu <- str_field d "model_used" ;;
      gm <- optional_dict_field d "generation_metadata" ;;
      i <- int_field d "id" ;;
      ca <- datetime_field_default d "created_at" ;;
      Return (mk p ti su gs mu gm i ca)
  | _ => Raise (PyExc TypeError "argument after ** must be a mapping")
  end.

End Validation.
End StorySummary.

(** reddit_service/app/domain/models/reddit_comment.py *)
Module RedditComment.
Record t : Type := mk {
  id : string;
  author : string;
  body : string;
  score : Z;
  created_at : datetime;
  is_submitter : bool
}.
End RedditComment.

(** reddit_service/app/domain/models/filtered_post.py.  [url] holds
    [str(post.url)] and [normalized_score] the float's [repr]. *)
Module FilteredPost.
Record t : Type := mk {
  source : string;
  subreddit : string;
  title : string;
  url : string;
  author : string;
  score : Z;
  comments : Z;
  top_comments : list RedditComment.t;
  created_at : datetime;
  normalized_score : string;
  fetched_at : option datetime;
  post_text : string
}.
End FilteredPost.

(* ================================================================== *)
(** ** Request envelopes                                               *)
(* ================================================================== *)

Module Envelope.

(** The [identity] block every payload literal repeats. *)
Definition identity (user_agent : string) : json :=
  JDict [("cognitoIdentityPoolId", JNull);
         ("accountId", JNull);
         ("cognitoIdentityId", JNull);
         ("caller", JNull);
         ("sourceIp", JStr "127.0.0.1");
         ("principalOrgId", JNull);
         ("accessKey", JNull);
         ("cognitoAuthenticationType", JNull);
         ("cognitoAuthenticationProvider", JNull);
         ("userArn", JNull);
         ("userAgent", JStr user_agent);
         ("user", JNull)].

Definition requestContext (user_agent resource path httpMethod : string) : json :=
  JDict [("resourceId", JStr "test");
         ("resourcePath", JStr resource);
         ("httpMethod", JStr httpMethod);
         ("extendedRequestId", JStr "test");
         ("requestTime", JStr "01/Jan/2024:00:00:00 +0000");
         ("path", JStr path);
         ("accountId", JStr "565393069809");
         ("protocol", JStr "HTTP/1.1");
         ("stage", JStr "test");
         ("domainPrefix", JStr "test");
         ("requestTimeEpoch", JInt 1704067200000);
         ("requestId", JStr "test");
         ("identity", identity user_agent);
         ("domainName", JStr "test.execute-api.us-east-1.amazonaws.com");
         ("apiId", JStr "test")].

(** The payload dict literal of every client method: the methods differ in
    the values given here and in nothing else. *)
Definition payload (user_agent resource path httpMethod : string)
    (queryStringParameters pathParameters body : json) : json :=
  JDict [("resource", JStr resource);
         ("path", JStr path);
         ("httpMethod", JStr httpMethod);
         ("headers", JDict [("Accept", JStr "application/json");
                            ("Content-Type", JStr "application/json")]);
         ("multiValueHeaders", JDict []);
         ("queryStringParameters", queryStringParameters);
         ("multiValueQueryStringParameters", JNull);
         ("pathParameters", pathParameters);
         ("stageVariables", JNull);
         ("requestContext", requestContext user_agent resource path httpMethod);
         ("body", body);
         ("isBase64Encoded", JBool false)].

(** [v[k1][k2]...] where every step is a dict lookup. *)
Fixpoint lookup_path (ks : list string) (v : json) : option json :=
  match ks with
  | [] => Some v
  | k :: ks' =>
      match v with
      | JDict d =>
          match dict_get k d with
          | Some x => lookup_path ks' x
          | None => None
          end
      | _ => None
      end
  end.

Definition request_id (p : json) : option json :=
  lookup_path ["requestContext"; "requestId"] p.

Definition path_of (p : json) : option json := lookup_path ["path"] p.

Definition query_of (p : json) : option json :=
  lookup_path ["queryStringParameters"] p.

End Envelope.

(* ================================================================== *)
(** ** The invocation substrate                                         *)
(* ================================================================== *)

Module Substrate.

(** What [lambda_client.invoke(...)] followed by
    [response['Payload'].read()] gives: the bytes the target answered, or
    an exception raised before any answer (target unreachable, request
    rejected). *)
Inductive invoke_result : Type :=
| Responded (payload : string)
| InvokeRaised (e : exn).

(** One synchronous invocation: how long it takes, in seconds, and what
    it ends with. *)
Record reply : Type := mk_reply {
  latency : Z;
  result : invoke_result
}.

Definition settle (r : invoke_result) : outcome string :=
  match r with
  | Responded p => Return p
  | InvokeRaised e => Raise e
  end.

(** [await asyncio.wait_for(loop.run_in_executor(None, call), timeout)]:
    the caller stops waiting once [timeout] seconds have passed, whatever
    the call would have returned. *)
Definition wait_for (timeout : Z) (r : reply) : outcome string :=
  if timeout <=? latency r then Raise (PyExc TimeoutError EmptyString)
  else settle (result r).

(** A direct call [self.lambda_client.invoke(...)]: the caller blocks for
    as long as the call takes. *)
Definition blocking (r : reply) : outcome string := settle (result r).

End Substrate.
Export Substrate.

(* ================================================================== *)
(** ** summarizer_service/app/infrastructure/lambda_client.py          *)
(* ================================================================== *)

Module SummarizerLambdaClient.

Definition data_service_function_name : string := "data-service-lambda".
Definition timeout_seconds : Z := 30.
Definition user_agent : string := "summarizer-lambda".

Definition summary_data (summary : StorySummaryCreate.t) : json :=
  JDict [("post_id", JInt (StorySummaryCreate.post_id summary));
         ("title", JStr (StorySummaryCreate.title summary));
         ("summary", JStr (StorySummaryCreate.summary summary));
         ("generated_story", JStr (StorySummaryCreate.generated_story summary));
         ("model_used", JStr (StorySummaryCreate.model_used summary));
         ("generation_metadata",
          match StorySummaryCreate.generation_metadata summary with
          | Some d => JDict d
          | None => JNull
          end)].

Definition create_story_summary_payload (summary : StorySummaryCreate.t) : json :=
  Envelope.payload user_agent
    "/api/v1/story-summaries" "/api/v1/story-summaries" "POST"
    JNull JNull (JStr (Json.dumps (summary_data summary))).

Definition get_story_summary_by_id_payload (summary_id : Z) : json :=
  Envelope.payload user_agent
    "/api/v1/story-summaries/{summary_id}"
    ("/api/v1/story-summaries/" ++ str_of_int summary_id) "GET"
    JNull (JDict [("summary_id", JStr (str_of_int summary_id))]) JNull.

Definition get_story_summary_by_post_id_payload (post_id : Z) : json :=
  Envelope.payload user_agent
    "/api/v1/story-summaries/by-post/{post_id}"
    ("/api/v1/story-summaries/by-post/" ++ str_of_int post_id) "GET"
    JNull (JDict [("post_id", JStr (str_of_int post_id))]) JNull.

Definition health_check_payload : json :=
  Envelope.payload user_agent "/health" "/health" "GET" JNull JNull JNull.

Section Client.

Variable W : Type.
(** [self.lambda_client.invoke(FunctionName, 'RequestResponse', Payload)]. *)
Variable lambda_invoke : string -> string -> W -> reply * W.
Variable utcnow : W -> datetime.
Variable pydantic_datetime : json -> option datetime.

(** The statements of [create_story_summary]'s [try] block that follow
    the [await]. *)
Definition create_story_summary_try (now : datetime) (response : outcome string)
  : outcome StorySummary.t :=
  raw <- response ;;
  response_payload <- Json.loads raw ;;
  status <- py_get response_payload "statusCode" JNull ;;
  if py_eq_int status 200 then
    b <- py_get response_payload "body" (JStr "{}") ;;
    body <- json_loads b ;;
    StorySummary.init pydantic_datetime now body
  else
    b <- py_get response_payload "body" (JStr "Unknown error") ;;
    Raise (PyExc Exception_ ("Failed to create story summary: " ++ py_str b)).

(** Its two [except] clauses. *)
Definition create_story_summary_except (r : outcome StorySummary.t)
  : outcome StorySummary.t :=
  match r with
  | Return s => Return s
  | Raise e =>
      if is_timeout_error e
      then Raise (PyExc Exception_ "Timeout calling Data Service Lambda")
      else Raise e
  end.

Definition create_story_summary (summary : StorySummaryCreate.t) (w : W)
  : outcome StorySummary.t * W :=
  let (r, w') := lambda_invoke data_service_function_name
                   (Json.dumps (create_story_summary_payload summary)) w in
  (create_story_summary_except
     (create_story_summary_try (utcnow w') (wait_for timeout_seconds r)), w').

(** The [try] block shared, statement for statement, by
    [get_story_summary_by_id] and [get_story_summary_by_post_id]. *)
Definition get_story_summary_try (now : datetime) (response : outcome string)
  : outcome (option StorySummary.t) :=
  raw <- response ;;
  response_payload <- Json.loads raw ;;
  status <- py_get response_payload "statusCode" JNull ;;
  if py_eq_int status 200 then
    b <- py_get response_payload "body" (JStr "{}") ;;
    body <- json_loads b ;;
    s <- StorySummary.init pydantic_datetime now body ;;
    Return (Some s)
  else
    status' <- py_get response_payload "statusCode" JNull ;;
    if py_eq_int status' 404 then Return None
    else Return None.

Definition get_story_summary_except (r : outcome (option StorySummary.t))
  : outcome (option StorySummary.t) :=
  match r with
  | Return s => Return s
  | Raise e => if is_timeout_error e then Return None else Return None
  end.

Definition get_story_summary_by_id (summary_id : Z) (w : W)
  : outcome (option StorySummary.t) * W :=
  let (r, w') := lambda_invoke data_service_function_name
                   (Json.dumps (get_story_summary_by_id_payload summary_id)) w in
  (get_story_summary_except
     (get_story_summary_try (utcnow w') (wait_for timeout_seconds r)), w').

Definition get_story_summary_by_post_id (post_id : Z) (w : W)
  : outcome (option StorySummary.t) * W :=
  let (r, w') := lambda_invoke data_service_function_name
                   (Json.dumps (get_story_summary_by_post_id_payload post_id)) w in
  (get_story_summary_except
     (get_story_summary_try (utcnow w') (wait_for timeout_seconds r)), w').

Definition health_check_try (response : outcome string) : outcome json :=
  raw <- response ;;
  response_payload <- Json.loads raw ;;
  status <- py_get response_payload "statusCode" JNull ;;
  if py_eq_int status 200 then
    Return (JDict [("success", JBool true);
                   ("message", JStr "Data Service Lambda is healthy")])
  else
    b <- py_get response_payload "body" (JStr "Unknown error") ;;
    Return (JDict [("success", JBool false); ("error", b)]).

Definition health_check_except (r : outcome json) : outcome json :=
  match r with
  | Return v => Return v
  | Raise e =>
      if is_timeout_error e
      then Return (JDict [("success", JBool false);
                          ("error", JStr "Timeout calling Data Service Lambda")])
      else Return (JDict [("success", JBool false); ("error", JStr (str_of_exn e))])
  end.

Definition health_check (w : W) : outcome json * W :=
  let (r, w') := lambda_invoke data_service_function_name
                   (Json.dumps health_check_payload) w in
  (health_check_except (health_check_try (wait_for timeout_seconds r)), w').

End Client.
End SummarizerLambdaClient.

(* ================================================================== *)
(** ** reddit_service/app/infrastructure/lambda_client.py              *)
(* ================================================================== *)

Module RedditLambdaClient.

Definition data_service_function_name : string := "data-service-lambda".
Definition user_agent : string := "reddit-fetcher-lambda".

Definition comment_dict (comment : RedditComment.t) : json :=
  JDict [("author", JStr (RedditComment.author comment));
         ("body", JStr (RedditComment.body comment));
         ("score", JInt (RedditComment.score comment));
         ("created_at", JStr (isoformat (RedditComment.created_at comment)))].

Definition post_dict (post : FilteredPost.t) : json :=
  let fields :=
    [("source", JStr (FilteredPost.source post));
     ("subreddit", JStr (FilteredPost.subreddit post));
     ("title", JStr (FilteredPost.title post));
     ("url", JStr (FilteredPost.url post));
     ("author", JStr (FilteredPost.author post));
     ("score", JInt (FilteredPost.score post));
     ("comments", JInt (FilteredPost.comments post));
     ("normalized_score", JFloat (FilteredPost.normalized_score post));
     ("created_at", JStr (isoformat (FilteredPost.created_at post)));
     ("post_text", JStr (FilteredPost.post_text post))] in
  match FilteredPost.top_comments post with
  | [] => JDict fields
  | cs => JDict (dict_set "top_comments" (JList (map comment_dict cs)) fields)
  end.

Definition save_reddit_posts_payload (posts : list FilteredPost.t) : json :=
  Envelope.payload user_agent
    "/api/v1/reddit/posts" "/api/v1/reddit/posts" "POST"
    JNull JNull
    (JStr (Json.dumps (JDict [("posts", JList (map post_dict posts))]))).

(** [if subreddit:] on an [Optional[str]]. *)
Definition given (subreddit : option string) : option string :=
  match subreddit with
  | Some s => if String.eqb s EmptyString then None else Some s
  | None => None
  end.

Definition query_params (limit : Z) (subreddit : option string) : string :=
  match given subreddit with
  | Some s => "?limit=" ++ str_of_int limit ++ "&subreddit=" ++ s
  | None => "?limit=" ++ str_of_int limit
  end.

Definition get_reddit_posts_payload (limit : Z) (subreddit : option string) : json :=
  Envelope.payload user_agent
    "/api/v1/reddit/posts"
    ("/api/v1/reddit/posts" ++ query_params limit subreddit) "GET"
    match given subreddit with
    | Some s => JDict [("limit", JStr (str_of_int limit)); ("subreddit", JStr s)]
    | None => JDict [("limit", JStr (str_of_int limit))]
    end
    JNull JNull.

(** [v[k]] for a str key. *)
Definition py_getitem (v : json) (k : string) : outcome json :=
  match v with
  | JDict d =>
      match dict_get k d with
      | Some x => Return x
      | None => Raise (PyExc KeyError (repr_str k))
      end
  | JStr _ | JList _ => Raise (PyExc TypeError "indices must be integers")
  | _ => Raise (PyExc TypeError "object is not subscriptable")
  end.

Fixpoint chars (s : string) : list json :=
  match s with
  | EmptyString => []
  | String c r => JStr (chr c) :: chars r
  end.

(** The items a [for] loop visits. *)
Definition py_iter (v : json) : outcome (list json) :=
  match v with
  | JList l => Return l
  | JDict d => Return (map (fun kv => JStr (fst kv)) d)
  | JStr s => Return (chars s)
  | _ => Raise (PyExc TypeError "object is not iterable")
  end.

(** A loop body run on every item, stopping at the first exception. *)
Fixpoint for_each {A B : Type} (f : A -> outcome B) (l : list A) : outcome (list B) :=
  match l with
  | [] => Return []
  | x :: l' => y <- f x ;; ys <- for_each f l' ;; Return (y :: ys)
  end.

Section Client.

Variable W : Type.
Variable lambda_invoke : string -> string -> W -> reply * W.

(** Library calls of the decoding loop: [datetime.fromisoformat] and the
    two pydantic constructors, each applied to the dict once its
    [created_at] (and, for a post with comments, [top_comments]) has been
    replaced by the value given next to it. *)
Variable fromisoformat : string -> option datetime.
Variable RedditComment_init : json -> datetime -> outcome RedditComment.t.
Variable FilteredPost_init :
  json -> datetime -> option (list RedditComment.t) -> outcome FilteredPost.t.

Definition save_reddit_posts_try (response : outcome string) : outcome json :=
  raw <- response ;;
  response_payload <- Json.loads raw ;;
  status <- py_get response_payload "statusCode" JNull ;;
  if py_eq_int status 200 then
    b <- py_get response_payload "body" (JStr EmptyString) ;;
    Return (JDict [("success", JBool true); ("message", b)])
  else
    b <- py_get response_payload "body" (JStr "Unknown error") ;;
    Return (JDict [("success", JBool false); ("error", b)]).

Definition save_reddit_posts_except (r : outcome json) : outcome json :=
  match r with
  | Return v => Return v
  | Raise e => Return (JDict [("success", JBool false); ("error", JStr (str_of_exn e))])
  end.

Definition save_reddit_posts (posts : list FilteredPost.t) (w : W) : outcome json * W :=
  let (r, w') := lambda_invoke data_service_function_name
                   (Json.dumps (save_reddit_posts_payload posts)) w in
  (save_reddit_posts_except (save_reddit_posts_try (blocking r)), w').

Definition datetime_fromisoformat (v : json) : outcome datetime :=
  match v with
  | JStr s =>
      match fromisoformat s with
      | Some t => Return t
      | None => Raise (PyExc ValueError "Invalid isoformat string")
      end
  | _ => Raise (PyExc TypeError "fromisoformat: argument must be str")
  end.

Definition hydrate_comment (comment_data : json) : outcome RedditComment.t :=
  c <- py_getitem comment_data "created_at" ;;
  t <- datetime_fromisoformat c ;;
  RedditComment_init comment_data t.

Definition hydrate_post (post_data : json) : outcome FilteredPost.t :=
  c <- py_getitem post_data "created_at" ;;
  t <- datetime_fromisoformat c ;;
  tc <- py_get post_data "top_comments" JNull ;;
  if py_truthy tc then
    items <- py_iter tc ;;
    comments <- for_each hydrate_comment items ;;
    FilteredPost_init post_data t (Some comments)
  else FilteredPost_init post_data t None.

Definition get_reddit_posts_try (response : outcome string)
  : outcome (list FilteredPost.t) :=
  raw <- response ;;
  response_payload <- Json.loads raw ;;
  status <- py_get response_payload "statusCode" JNull ;;
  if py_eq_int status 200 then
    b <- py_get response_payload "body" (JStr "[]") ;;
    posts_data <- json_loads b ;;
    items <- py_iter posts_data ;;
    for_each hydrate_post items
  else Return [].

Definition get_reddit_posts_except (r : outcome (list FilteredPost.t))
  : outcome (list FilteredPost.t) :=
  match r with
  | Return posts => Return posts
  | Raise e => Return []
  end.

Definition get_reddit_posts (limit : Z) (subreddit : option string) (w : W)
  : outcome (list FilteredPost.t) * W :=
  let (r, w') := lambda_invoke data_service_function_name
                   (Json.dumps (get_reddit_posts_payload limit subreddit)) w in
  (get_reddit_posts_except (get_reddit_posts_try (blocking r)), w').

End Client.
End RedditLambdaClient.

(* ================================================================== *)
(** ** Calls that read and change the world                            *)
(* ================================================================== *)

Definition M (W A : Type) : Type := W -> outcome A * W.

Definition mret {W A : Type} (a : A) : M W A := fun w => (Return a, w).

Definition mraise {W A : Type} (e : exn) : M W A := fun w => (Raise e, w).

Definition mbind {W A B : Type} (c : M W A) (k : A -> M W B) : M W B :=
  fun w =>
    match c w with
    | (Return a, w') => k a w'
    | (Raise e, w') => (Raise e, w')
    end.

Notation "x <~ c ;; k" := (mbind c (fun x => k))
  (at level 61, c at next level, right associativity).

(* ================================================================== *)
(** ** summarizer_service/app/api/v1/endpoints/summarizer.py           *)
(* ================================================================== *)

Module SummarizerApi.

Section Routes.

Variable W : Type.
Variable lambda_invoke : string -> string -> W -> reply * W.
Variable utcnow : W -> datetime.
Variable pydantic_datetime : json -> option datetime.

(** The [try] block of [get_summary]: a fresh client, the lookup, and the
    404 raised when the lookup gave nothing. *)
Definition get_summary_try (post_id : Z) : M W StorySummary.t :=
  summary <~ SummarizerLambdaClient.get_story_summary_by_post_id
               W lambda_invoke utcnow pydantic_datetime post_id ;;
  match summary with
  | None => mraise (HTTPException 404 "Summary not found")
  | Some s => mret s
  end.

(** [GET /summary/{post_id}].  The handler's single [except Exception]
    clause encloses the [raise HTTPException(status_code=404, ...)]. *)
Definition get_summary (post_id : Z) : M W StorySummary.t :=
  fun w =>
    match get_summary_try post_id w with
    | (Return s, w') => (Return s, w')
    | (Raise e, w') =>
        (Raise (HTTPException 500 ("Failed to get summary: " ++ str_of_exn e)), w')
    end.

End Routes.

(** The status FastAPI answers with: 200 for a returned value, the
    exception's own status for an [HTTPException], 500 otherwise. *)
Definition response_status {A : Type} (r : outcome A) : Z :=
  match r with
  | Return _ => 200
  | Raise (HTTPException sc _) => sc
  | Raise (PyExc _ _) => 500
  end.

End SummarizerApi.

(* ================================================================== *)
(** ** summarizer_service/app/services/summarizer_service.py           *)
(* ================================================================== *)

(** summarizer_service/app/domain/summarizer/config.py: the class has
    these two attributes and no method. *)
Module SummarizerConfig.

Definition DEFAULT_MODEL : string := "google/pegasus-large".

Definition MODEL_PARAMS : dict :=
  [("google/pegasus-large",
    JDict [("max_length", JInt 150);
           ("min_length", JInt 30);
           ("do_sample", JBool true);
           ("temperature", JFloat "0.8");
           ("top_p", JFloat "0.95");
           ("num_beams", JInt 4);
           ("no_repeat_ngram_size", JInt 2)])].

End SummarizerConfig.

Module SummarizerService.

Definition nl : string := chr (ascii_of_nat 10).

(** [_prepare_comments_text]. *)
Definition _prepare_comments_text (comments : list json) : outcome string :=
  match comments with
  | [] => Return "No comments available."
  | top_comment :: _ =>
      b <- py_get top_comment "body" (JStr EmptyString) ;;
      Return ("Top comment: " ++ py_str b)
  end.

(** The mock post [generate_summary_by_id] builds: the fields it reads. *)
Definition mock_title (post_id : Z) : string := "Mock Post " ++ str_of_int post_id.
Definition mock_url : string := "https://example.com".
Definition mock_subreddit : string := "test".
Definition mock_score : Z := 100.
Definition mock_top_comments : list json :=
  [JDict [("body", JStr "Mock comment for testing");
          ("author", JStr "test_user");
          ("score", JInt 10)]].

Definition story_prompt (post_id : Z) (comments_text : string) : string :=
  "Title: " ++ mock_title post_id ++ nl ++ nl
  ++ "The developer of Apollo, a popular Reddit app, has released their backend code "
  ++ "on GitHub (" ++ mock_url ++ ") to counter Reddit's claims. A top community member stated: "
  ++ comments_text ++ nl ++ nl
  ++ "Write a short news article about this situation, focusing on what happened "
  ++ "and the community's reaction.".

Definition story_parameters : json :=
  JDict [("max_length", JInt 300);
         ("min_length", JInt 100);
         ("temperature", JFloat "0.8");
         ("top_p", JFloat "0.95");
         ("num_beams", JInt 4);
         ("no_repeat_ngram_size", JInt 2)].

Definition summary_prompt : string :=
  "Write a brief, clear summary of this situation:" ++ nl ++ nl
  ++ "The Apollo app developer published their code to prove their app's efficiency, "
  ++ "countering Reddit's claims. The community reacted strongly, with users expressing "
  ++ "disappointment in Reddit's accusations about API abuse and poor programming.".

Definition summary_parameters : json :=
  JDict [("max_length", JInt 150);
         ("min_length", JInt 30);
         ("temperature", JFloat "0.7");
         ("top_p", JFloat "0.9");
         ("num_beams", JInt 4);
         ("no_repeat_ngram_size", JInt 2)].

Section Service.

Variable W : Type.

(** The two collaborators given to [__init__], and the clock. *)
Variable get_story_summary_by_post_id : Z -> M W (option StorySummary.t).
Variable create_story_summary : StorySummaryCreate.t -> M W StorySummary.t.
Variable generate_text : string -> option string -> json -> M W string.
Variable utcnow : W -> datetime.

Definition lift {A : Type} (r : outcome A) : M W A := fun w => (r, w).

Definition now : M W datetime := fun w => (Return (utcnow w), w).

(** [generate_summary_by_id]; its [except Exception] clause re-raises. *)
Definition generate_summary_by_id (post_id : Z) : M W StorySummary.t :=
  existing_summary <~ get_story_summary_by_post_id post_id ;;
  match existing_summary with
  | Some s => mret s
  | None =>
      _created_at <~ now ;;
      comments_text <~ lift (_prepare_comments_text mock_top_comments) ;;
      generated_story <~ generate_text (story_prompt post_id comments_text)
                           None story_parameters ;;
      summary_text <~ generate_text summary_prompt None summary_parameters ;;
      generation_timestamp <~ now ;;
      let summary_data :=
        StorySummaryCreate.mk post_id
          ("Summary: " ++ mock_title post_id)
          summary_text
          generated_story
          SummarizerConfig.DEFAULT_MODEL
          (Some [("original_title", JStr (mock_title post_id));
                 ("subreddit", JStr mock_subreddit);
                 ("comment_count", JInt (Z.of_nat (List.length mock_top_comments)));
                 ("post_score", JInt mock_score);
                 ("generation_timestamp", JStr (isoformat generation_timestamp))]) in
      saved_summary <~ create_story_summary summary_data ;;
      mret saved_summary
  end.

(** [generate_summary].  [SummarizerConfig] has no [get_story_prompt], so
    the attribute lookup that follows [_prepare_comments_text] raises. *)
Definition generate_summary (post_id : Z) (title content : string)
    (comments : list json) (model_id : option string) : M W StorySummary.t :=
  existing_summary <~ get_story_summary_by_post_id post_id ;;
  match existing_summary with
  | Some s => mret s
  | None =>
      comments_text <~ lift (_prepare_comments_text comments) ;;
      mraise (PyExc AttributeError
                "'SummarizerConfig' object has no attribute 'get_story_prompt'")
  end.

(** [get_summary]. *)
Definition get_summary (post_id : Z) : M W (option StorySummary.t) :=
  get_story_summary_by_post_id post_id.

End Service.

(** *** Observing the calls a service method makes *)

Inductive call : Type :=
| CallGetByPostId (post_id : Z)
| CallCreate (summary : StorySummaryCreate.t)
| CallGenerateText (prompt : string).

(** A collaborator's method wrapped so that each call is appended to a
    log kept next to the world. *)
Definition spy {W A : Type} (c : call) (m : M W A) : M (W * list call) A :=
  fun st =>
    let (r, w') := m (fst st) in
    (r, (w', (snd st ++ [c])%list)).

Section Observed.

Variable W : Type.
Variable get_story_summary_by_post_id : Z -> M W (option StorySummary.t).
Variable create_story_summary : StorySummaryCreate.t -> M W StorySummary.t.
Variable generate_text : string -> option string -> json -> M W string.
Variable utcnow : W -> datetime.

Definition observed_generate_summary_by_id (post_id : Z)
  : M (W * list call) StorySummary.t :=
  generate_summary_by_id (W * list call)
    (fun p => spy (CallGetByPostId p) (get_story_summary_by_post_id p))
    (fun s => spy (CallCreate s) (create_story_summary s))
    (fun p m ps => spy (CallGenerateText p) (generate_text p m ps))
    (fun st => utcnow (fst st))
    post_id.

Definition observed_generate_summary (post_id : Z) (title content : string)
    (comments : list json) (model_id : option string)
  : M (W * list call) StorySummary.t :=
  generate_summary (W * list call)
    (fun p => spy (CallGetByPostId p) (get_story_summary_by_post_id p))
    post_id title content comments model_id.

End Observed.

End SummarizerService.

(* ================================================================== *)
(** ** The six client methods as one function of an operation          *)
(* ================================================================== *)

Module Operations.

(** One constructor per method of the two clients, with its arguments. *)
Inductive operation : Type :=
| CreateStorySummary (summary : StorySummaryCreate.t)
| GetStorySummaryById (summary_id : Z)
| GetStorySummaryByPostId (post_id : Z)
| HealthCheck
| SaveRedditPosts (posts : list FilteredPost.t)
| GetRedditPosts (limit : Z) (subreddit : option string).

(** The payload dict the method builds. *)
Definition build_envelope (op : operation) : json :=
  match op with
  | CreateStorySummary s => SummarizerLambdaClient.create_story_summary_payload s
  | GetStorySummaryById i => SummarizerLambdaClient.get_story_summary_by_id_payload i
  | GetStorySummaryByPostId p =>
      SummarizerLambdaClient.get_story_summary_by_post_id_payload p
  | HealthCheck => SummarizerLambdaClient.health_check_payload
  | SaveRedditPosts ps => RedditLambdaClient.save_reddit_posts_payload ps
  | GetRedditPosts l s => RedditLambdaClient.get_reddit_posts_payload l s
  end.

(** The [Payload] argument of the method's [invoke]. *)
Definition request (op : operation) : string := Json.dumps (build_envelope op).

Definition function_name : string := "data-service-lambda".

(** The summarizer's methods await with a timeout; the reddit service's
    call the substrate directly. *)
Definition uses_wait_for (op : operation) : bool :=
  match op with
  | SaveRedditPosts _ | GetRedditPosts _ _ => false
  | _ => true
  end.

(** The methods whose HTTP method is GET and that return stored data. *)
Definition is_read (op : operation) : bool :=
  match op with
  | GetStorySummaryById _ | GetStorySummaryByPostId _ | GetRedditPosts _ _ => true
  | _ => false
  end.

Definition result_type (op : operation) : Type :=
  match op with
  | CreateStorySummary _ => StorySummary.t
  | GetStorySummaryById _ | GetStorySummaryByPostId _ => option StorySummary.t
  | HealthCheck | SaveRedditPosts _ => json
  | GetRedditPosts _ _ => list FilteredPost.t
  end.

Section Call.

Variable W : Type.
Variable lambda_invoke : string -> string -> W -> reply * W.
Variable utcnow : W -> datetime.
Variable pydantic_datetime : json -> option datetime.
Variable fromisoformat : string -> option datetime.
Variable RedditComment_init : json -> datetime -> outcome RedditComment.t.
Variable FilteredPost_init :
  json -> datetime -> option (list RedditComment.t) -> outcome FilteredPost.t.

Definition call (op : operation) : M W (result_type op) :=
  match op return M W (result_type op) with
  | CreateStorySummary s =>
      SummarizerLambdaClient.create_story_summary
        W lambda_invoke utcnow pydantic_datetime s
  | GetStorySummaryById i =>
      SummarizerLambdaClient.get_story_summary_by_id
        W lambda_invoke utcnow pydantic_datetime i
  | GetStorySummaryByPostId p =>
      SummarizerLambdaClient.get_story_summary_by_post_id
        W lambda_invoke utcnow pydantic_datetime p
  | HealthCheck => SummarizerLambdaClient.health_check W lambda_invoke
  | SaveRedditPosts ps => RedditLambdaClient.save_reddit_posts W lambda_invoke ps
  | GetRedditPosts l s =>
      RedditLambdaClient.get_reddit_posts
        W lambda_invoke fromisoformat RedditComment_init FilteredPost_init l s
  end.

(** The substrate's reply to the method's request in world [w]. *)
Definition reply_to (op : operation) (w : W) : reply :=
  fst (lambda_invoke function_name (request op) w).

End Call.

(** The same substrate with every reply arriving at once. *)
Definition instantly {W : Type} (invoke : string -> string -> W -> reply * W)
  : string -> string -> W -> reply * W :=
  fun fn p w => let (r, w') := invoke fn p w in (mk_reply 0 (result r), w').

(** The reply carries a response envelope whose [statusCode] is the int
    [n]; [body] is the envelope's body, if it has one. *)
Definition answers (r : reply) (n : Z) (body : option json) : Prop :=
  exists raw env,
    result r = Responded raw /\
    Json.loads raw = Return (JDict env) /\
    dict_get "statusCode" env = Some (JInt n) /\
    dict_get "body" env = body.

Definition or_default (v : option json) (default : json) : json :=
  match v with
  | Some x => x
  | None => default
  end.

(** What makes a call fail: a status other than 200, an exception raised
    by the substrate, or (for a method that waits with a timeout) the wait
    running out. *)
Inductive failed (op : operation) (r : reply) : Prop :=
| failed_status (n : Z) (b : option json) :
    answers r n b -> n <> 200 -> failed op r
| failed_transport (e : exn) :
    result r = InvokeRaised e -> failed op r
| failed_timeout :
    uses_wait_for op = true -> SummarizerLambdaClient.timeout_seconds < latency r -> failed op r.

(** The reply came before the method stopped waiting for it. *)
Definition in_time (op : operation) (r : reply) : Prop :=
  uses_wait_for op = true -> latency r < SummarizerLambdaClient.timeout_seconds.

End Operations.
Export Operations.

(* ================================================================== *)
(** ** Percent-encoding, as the specification asks of query values     *)
(* ================================================================== *)

Module UrlEncoding.

(** RFC 3986 unreserved characters: letters, digits, [-], [.], [_], [~]. *)
Definition unreserved (c : ascii) : bool :=
  let n := code c in
  (((48 <=? n) && (n <=? 57)) || ((65 <=? n) && (n <=? 90))
   || ((97 <=? n) && (n <=? 122))
   || (n =? 45) || (n =? 46) || (n =? 95) || (n =? 126))%N.

Definition upper_hex_char (n : N) : ascii :=
  if (n <? 10)%N then ascii_of_N (48 + n) else ascii_of_N (55 + n).

Definition percent (c : ascii) : string :=
  String "%" (String (upper_hex_char (code c / 16))
                (String (upper_hex_char (code c mod 16)) EmptyString)).

(** A query value URL-encoded: every character outside the unreserved
    set becomes [%XX]. *)
Fixpoint url_encode (s : string) : string :=
  match s with
  | EmptyString => EmptyString
  | String c r => (if unreserved c then chr c else percent c) ++ url_encode r
  end.

End UrlEncoding.

(* ================================================================== *)
(** ** Stub substrates and reference library instances for concrete runs *)
(* ================================================================== *)

Module Stub.

(** A target that gives the same reply to every invocation. *)
Definition always (r : reply) : string -> string -> unit -> reply * unit :=
  fun _ _ w => (r, w).

(** A target that records every payload it is sent. *)
Definition recording (r : reply) : string -> string -> list string -> reply * list string :=
  fun _ p log => (r, (log ++ [p])%list).

(** A response envelope [{statusCode, body}] as the bytes of a reply that
    arrives after one second. *)
Definition responds (statusCode : Z) (body : json) : reply :=
  mk_reply 1 (Responded (Json.dumps (JDict [("statusCode", JInt statusCode);
                                            ("body", JStr (Json.dumps body))]))).

(** The same envelope without a body. *)
Definition responds_status (statusCode : Z) : reply :=
  mk_reply 1 (Responded (Json.dumps (JDict [("statusCode", JInt statusCode)]))).

Definition epoch : datetime := mk_datetime 2024 1 1 0 0 0 0 None.

Definition clock {W : Type} : W -> datetime := fun _ => epoch.

Fixpoint take_digits (n : nat) (acc : Z) (s : string) : option (Z * string) :=
  match n with
  | O => Some (acc, s)
  | S n' =>
      match s with
      | String c r =>
          if is_digit c then take_digits n' (10 * acc + Z.of_N (code c - 48)) r
          else None
      | EmptyString => None
      end
  end.

Definition expect (c : ascii) (s : string) : option string :=
  match s with
  | String c' r => if Ascii.eqb c c' then Some r else None
  | EmptyString => None
  end.

Definition obind' {A B : Type} (x : option A) (f : A -> option B) : option B :=
  match x with
  | Some a => f a
  | None => None
  end.

(** A reader of naive timestamps [YYYY-MM-DDTHH:MM:SS]. *)
Definition iso_parse (s : string) : option datetime :=
  obind' (take_digits 4 0 s) (fun '(y, s) =>
  obind' (expect "-" s) (fun s =>
  obind' (take_digits 2 0 s) (fun '(mo, s) =>
  obind' (expect "-" s) (fun s =>
  obind' (take_digits 2 0 s) (fun '(d, s) =>
  obind' (expect "T" s) (fun s =>
  obind' (take_digits 2 0 s) (fun '(h, s) =>
  obind' (expect ":" s) (fun s =>
  obind' (take_digits 2 0 s) (fun '(mi, s) =>
  obind' (expect ":" s) (fun s =>
  obind' (take_digits 2 0 s) (fun '(se, s) =>
  match s with
  | EmptyString =>
      if (1 <=? mo) && (mo <=? 12) && (1 <=? d) && (d <=? 31)
         && (h <? 24) && (mi <? 60) && (se <? 60)
      then Some (mk_datetime y mo d h mi se 0 None)
      else None
  | String _ _ => None
  end))))))))))).

Definition datetime_of_json (v : json) : option datetime :=
  match v with
  | JStr s => iso_parse s
  | _ => None
  end.

(** Constructors that refuse everything: enough for runs that never reach
    the decoding loop. *)
Definition no_comment : json -> datetime -> outcome RedditComment.t :=
  fun _ _ => Raise (PyExc ValidationError "validation error for RedditComment").

Definition no_post : json -> datetime -> option (list RedditComment.t) -> outcome FilteredPost.t :=
  fun _ _ _ => Raise (PyExc ValidationError "validation error for FilteredPost").

(** [call] against one fixed reply. *)
Definition run (r : reply) (op : operation) : outcome (result_type op) :=
  fst (call unit (always r) clock datetime_of_json iso_parse no_comment no_post op tt).

(** *** Inputs and replies of the scenarios *)

(** The input [{post_id: 7, title: "t", ...}]. *)
Definition summary7 : StorySummaryCreate.t :=
  StorySummaryCreate.mk 7 "t" "s" "g" "m" None.

(** The record the data service echoes for it, with [id = 101]. *)
Definition stored7 : StorySummary.t :=
  StorySummary.mk 7 "t" "s" "g" "m" None 101 epoch.

Definition stored42 : StorySummary.t :=
  StorySummary.mk 42 "t" "s" "g" "m" None 5 epoch.

(** [{statusCode: 500, body: json({error: "boom"})}]. *)
Definition boom : reply := responds 500 (JDict [("error", JStr "boom")]).

(** A 200 answer with [stored42] that takes 45 seconds, and the same
    answer after one second. *)
Definition found42 : reply := responds 200 (StorySummary.to_json stored42).
Definition found42_late : reply := mk_reply 45 (result found42).

Definition unreachable : exn :=
  PyExc EndpointConnectionError "Could not connect to the endpoint URL".

Definition connection_error : reply := mk_reply 1 (InvokeRaised unreachable).

(** An error response whose body is the text of [unreachable]. *)
Definition error_response : reply :=
  mk_reply 1 (Responded (Json.dumps
    (JDict [("statusCode", JInt 500); ("body", JStr (str_of_exn unreachable))]))).

(** A batch of one post with one comment. *)
Definition comment1 : RedditComment.t :=
  RedditComment.mk "c1" "bob" "nice" 3 epoch false.

Definition post1 : FilteredPost.t :=
  FilteredPost.mk "reddit" "python" "Hello" "https://reddit.com/r/python/1"
    "alice" 10 2 [comment1] epoch "11.0" None "text".

(** The payloads a recording target has been sent after the same
    operation was called twice. *)
Definition sent_twice (r : reply) (op : operation) : list string :=
  let once :=
    snd (call (list string) (recording r) clock datetime_of_json iso_parse
           no_comment no_post op []) in
  snd (call (list string) (recording r) clock datetime_of_json iso_parse
         no_comment no_post op once).

(** A target that answers the invocations it gets with the replies of a
    script, in order, and is unreachable once the script is used up. *)
Definition scripted : string -> string -> list reply -> reply * list reply :=
  fun _ _ script =>
    match script with
    | r :: rest => (r, rest)
    | [] => (connection_error, [])
    end.

(** A text generator that always returns the same text. *)
Definition canned_text : string -> option string -> json -> M (list reply) string :=
  fun _ _ _ w => (Return "generated", w).

(** [SummarizerService] over the summarizer's client and a scripted
    target, with its calls observed. *)
Definition service_by_id (post_id : Z) (script : list reply)
  : outcome StorySummary.t * (list reply * list SummarizerService.call) :=
  SummarizerService.observed_generate_summary_by_id (list reply)
    (SummarizerLambdaClient.get_story_summary_by_post_id
       (list reply) scripted clock datetime_of_json)
    (SummarizerLambdaClient.create_story_summary
       (list reply) scripted clock datetime_of_json)
    canned_text clock post_id (script, []).

Definition service_full (post_id : Z) (script : list reply)
  : outcome StorySummary.t * (list reply * list SummarizerService.call) :=
  SummarizerService.observed_generate_summary (list reply)
    (SummarizerLambdaClient.get_story_summary_by_post_id
       (list reply) scripted clock datetime_of_json)
    post_id "title" "content" [] None (script, []).


(** A target that counts the invocations it gets. *)
Definition counting (r : reply) : string -> string -> nat -> reply * nat :=
  fun _ _ n => (r, S n).

End Stub.

(* ================================================================== *)
(** ** The shape of JSON text                                          *)
(* ================================================================== *)

(** What the round trip through [json.dumps] and [json.loads] needs of a
    value, and the pieces of the decoder named for the proofs. *)
Module JsonShape.

(** A dict's keys are pairwise different. *)
Fixpoint unique_keys (ks : list string) : bool :=
  match ks with
  | [] => true
  | k :: r => negb (existsb (String.eqb k) r) && unique_keys r
  end.

(** A float's token is [nan], [inf], [-inf] or a JSON number with a
    fraction or an exponent. *)
Definition is_float_token (lit : string) : bool :=
  String.eqb lit "nan" || String.eqb lit "inf" || String.eqb lit "-inf"
  || match Json.scan_number lit with
     | Some (JFloat l, EmptyString) => String.eqb l lit
     | _ => false
     end.

(** A value as Python builds it: dicts with distinct keys, floats that
    print as number tokens. *)
Fixpoint well_formed (v : json) : bool :=
  match v with
  | JFloat lit => is_float_token lit
  | JList l => forallb well_formed l
  | JDict d => unique_keys (map fst d) && forallb (fun kv => well_formed (snd kv)) d
  | _ => true
  end.

(** The characters that may follow a number token's end. *)
Definition ends_number (rest : string) : bool :=
  match rest with
  | EmptyString => true
  | String c _ =>
      negb (is_digit c || Ascii.eqb c "." || Ascii.eqb c "e" || Ascii.eqb c "E"
            || Ascii.eqb c "-" || Ascii.eqb c "+")
  end.

(** The four stages of [scan_number]: sign, integer part, fraction and
    exponent. *)
Definition sign_stage (s : string) : bool * string :=
  match s with
  | String c r => if Ascii.eqb c "-" then (true, r) else (false, s)
  | EmptyString => (false, s)
  end.

Definition int_stage (s1 : string) : string * string :=
  match span_digits s1 with
  | (String c (String c' r'), rest) =>
      if Ascii.eqb c "0" then (chr c, String c' r' ++ rest)
      else (String c (String c' r'), rest)
  | other => other
  end.

Definition frac_stage (s2 : string) : string * string :=
  match s2 with
  | String c r =>
      if Ascii.eqb c "." then
        let (fp, r') := span_digits r in
        match fp with
        | EmptyString => (EmptyString, s2)
        | _ => (String c fp, r')
        end
      else (EmptyString, s2)
  | EmptyString => (EmptyString, s2)
  end.

Definition exp_stage (s3 : string) : string * string :=
  match s3 with
  | String c r =>
      if Ascii.eqb c "e" || Ascii.eqb c "E" then
        let (sg, r1) :=
          match r with
          | String g r0 =>
              if Ascii.eqb g "+" || Ascii.eqb g "-" then (chr g, r0)
              else (EmptyString, r)
          | EmptyString => (EmptyString, r)
          end in
        let (ep, r2) := span_digits r1 in
        match ep with
        | EmptyString => (EmptyString, s3)
        | _ => (String c (sg ++ ep), r2)
        end
      else (EmptyString, s3)
  | EmptyString => (EmptyString, s3)
  end.

Definition number_of_stages (neg : bool) (ip frac ex : string) : json :=
  match frac, ex with
  | EmptyString, EmptyString =>
      JInt (if neg then - digits_value ip else digits_value ip)
  | _, _ => JFloat ((if neg then "-" else EmptyString) ++ ip ++ frac ++ ex)
  end.

(** The first character of a printed int is a digit or a minus sign
    followed by a digit. *)
Definition number_head (s : string) : bool :=
  match s with
  | String c r =>
      is_digit c
      || (Ascii.eqb c "-" && match r with String c' _ => is_digit c' | _ => false end)
  | EmptyString => false
  end.

(** Fuel that is enough to scan the text of a value. *)
Fixpoint cost (v : json) : nat :=
  match v with
  | JList l => S (fold_right (fun x n => S (cost x + n)) O l)
  | JDict d => S (fold_right (fun kv n => S (cost (snd kv) + n)) O d)
  | _ => 1%nat
  end.

(** The text of [v], followed by anything that ends a number, scans back
    to [v] with enough fuel. *)
Definition scans (v : json) : Prop :=
  forall (f : nat) (rest : string),
    (cost v <= f)%nat -> ends_number rest = true ->
    Json.scan_value f (Json.dumps v ++ rest) = Some (v, rest).

(** What a value's text starts with. *)
Definition value_head (s : string) : Prop :=
  exists c r, s = String c r /\ Json.is_ws c = false
              /\ Ascii.eqb c "]" = false /\ Ascii.eqb c "}" = false.

(** One [key: value] member of an object's text. *)
Definition member_text (kv : string * json) : string :=
  Json.quote (fst kv) ++ ": " ++ Json.dumps (snd kv).

(** The dict a member list builds by assignment. *)
Definition set_all (d acc : dict) : dict :=
  fold_left (fun a kv => dict_set (fst kv) (snd kv) a) d acc.

End JsonShape.
Export JsonShape.


(* ================================================================== *)
(** ** What a request carries                                          *)
(* ================================================================== *)

Module RequestData.

(** The dict whose JSON text a method puts into the envelope's [body]:
    [summary_data] for [create_story_summary], [{"posts": posts_data}] for
    [save_reddit_posts]; the other methods send no body. *)
Definition body_data (op : operation) : option json :=
  match op with
  | CreateStorySummary s => Some (SummarizerLambdaClient.summary_data s)
  | SaveRedditPosts ps =>
      Some (JDict [("posts", JList (map RedditLambdaClient.post_dict ps))])
  | _ => None
  end.

Definition body_of (p : json) : option json := Envelope.lookup_path ["body"] p.

End RequestData.
Export RequestData.


(* ================================================================== *)
(** ** summarizer_service: queueing a job and processing it            *)
(* ================================================================== *)

(** A [for] loop whose body changes the world, stopping at the first
    exception. *)
Fixpoint run_each {W A : Type} (body : A -> M W unit) (l : list A) : M W unit :=
  match l with
  | [] => mret tt
  | x :: rest => _ <~ body x ;; run_each body rest
  end.

Definition mlift {W A : Type} (r : outcome A) : M W A := fun w => (r, w).

(** [POST /generate/from-post/{post_id}] of
    summarizer_service/app/api/v1/endpoints/summarizer.py. *)
Module SummarizerJobs.

Definition queue_url : string :=
  "https://sqs.us-east-1.amazonaws.com/565393069809/summarizer-jobs".

(** The dict whose JSON text is the message body. *)
Definition job_message (job_id : string) (post_id : Z) (timestamp : string) : json :=
  JDict [("job_id", JStr job_id);
         ("post_id", JInt post_id);
         ("timestamp", JStr timestamp)].

Section Routes.

Variable W : Type.
(** [str(uuid.uuid4())] and [sqs.send_message(QueueUrl, MessageBody)]. *)
Variable uuid4 : W -> string * W.
Variable send_message : string -> string -> W -> outcome unit * W.
Variable utcnow : W -> datetime.

Definition generate_summary_from_post (post_id : Z) : M W json :=
  fun w =>
    let (job_id, w1) := uuid4 w in
    match send_message queue_url
            (Json.dumps (job_message job_id post_id (isoformat (utcnow w1)))) w1 with
    | (Return _, w2) =>
        (Return (JDict [("job_id", JStr job_id);
                        ("status", JStr "pending");
                        ("message", JStr "Summary generation started");
                        ("post_id", JInt post_id)]), w2)
    | (Raise e, w2) =>
        (Raise (HTTPException 500
                  ("Failed to start summary generation: " ++ str_of_exn e)), w2)
    end.

End Routes.

(** The event the queue delivers: one record per message, its [body] the
    message body. *)
Definition sqs_event (bodies : list string) : json :=
  JDict [("Records", JList (map (fun b => JDict [("body", JStr b)]) bodies))].

End SummarizerJobs.

(** summarizer_service/app/background_processor.py *)
Module BackgroundProcessor.

(** The text [call_huggingface_api] returns. *)
Definition generated_text (job_id post_id : json) : string :=
  "This is a generated summary for post " ++ py_str post_id ++ " in job "
  ++ py_str job_id
  ++ ". The actual HuggingFace API integration can be implemented here.".

(** The summary [store_summary_in_database] builds for an int [post_id]. *)
Definition job_summary (job_id : json) (post_id : Z) : StorySummaryCreate.t :=
  StorySummaryCreate.mk post_id
    ("Summary for Post " ++ str_of_int post_id)
    (String.substring 0 500 (generated_text job_id (JInt post_id)))
    (generated_text job_id (JInt post_id))
    "facebook/bart-large-cnn"
    (Some [("job_id", job_id)]).

Section Handler.

Variable W : Type.
Variable lambda_invoke : string -> string -> W -> reply * W.
Variable utcnow : W -> datetime.
Variable pydantic_datetime : json -> option datetime.
(** [os.getenv('HUGGINGFACE_API_TOKEN')]. *)
Variable HUGGINGFACE_API_TOKEN : option string.
(** What pydantic makes of a [post_id] that is not an int: the int it
    converts it to, or nothing where it refuses the value. *)
Variable pydantic_int : json -> option Z.

(** The constructor call [StorySummaryCreate(post_id=..., ...)], whose
    other arguments are a str or a dict by construction.  An int [post_id]
    is taken as it is. *)
Definition StorySummaryCreate_init (post_id : json)
    (title summary generated_story model_used : string)
    (generation_metadata : dict) : outcome StorySummaryCreate.t :=
  match match post_id with
        | JInt n => Some n
        | _ => pydantic_int post_id
        end with
  | Some n =>
      Return (StorySummaryCreate.mk n title summary generated_story model_used
                (Some generation_metadata))
  | None => Raise (PyExc ValidationError "validation error for StorySummaryCreate")
  end.

Definition call_huggingface_api (job_id post_id : json) : outcome string :=
  match RedditLambdaClient.given HUGGINGFACE_API_TOKEN with
  | None => Raise (PyExc Exception_ "HUGGINGFACE_API_TOKEN not found")
  | Some _ => Return (generated_text job_id post_id)
  end.

Definition store_summary_in_database (job_id post_id : json) (summary_text : string)
  : M W unit :=
  summary <~ mlift (StorySummaryCreate_init post_id
                      ("Summary for Post " ++ py_str post_id)
                      (String.substring 0 500 summary_text)
                      summary_text
                      "facebook/bart-large-cnn"
                      [("job_id", job_id)]) ;;
  _result <~ SummarizerLambdaClient.create_story_summary
               W lambda_invoke utcnow pydantic_datetime summary ;;
  mret tt.

Definition process_summary (job_id post_id : json) : M W unit :=
  summary_text <~ mlift (call_huggingface_api job_id post_id) ;;
  store_summary_in_database job_id post_id summary_text.

(** The body of [lambda_handler]'s loop. *)
Definition process_record (record : json) : M W unit :=
  b <~ mlift (RedditLambdaClient.py_getitem record "body") ;;
  body <~ mlift (json_loads b) ;;
  job_id <~ mlift (RedditLambdaClient.py_getitem body "job_id") ;;
  post_id <~ mlift (RedditLambdaClient.py_getitem body "post_id") ;;
  process_summary job_id post_id.

Definition completed : json :=
  JDict [("statusCode", JInt 200);
         ("body", JStr (Json.dumps (JDict [("message", JStr "Processing completed")])))].

Definition errored (e : exn) : json :=
  JDict [("statusCode", JInt 500);
         ("body", JStr (Json.dumps (JDict [("error", JStr (str_of_exn e))])))].

(** Whether a response of the handler reports completion. *)
Definition succeeded (response : json) : bool :=
  match py_get response "statusCode" JNull with
  | Return status => py_eq_int status 200
  | Raise _ => false
  end.

(** [lambda_handler(event, context)]: the loop over the records and the
    [except Exception] clause around it. *)
Definition lambda_handler (event : json) (w : W) : json * W :=
  match (records <- py_get event "Records" (JList []) ;;
         RedditLambdaClient.py_iter records) with
  | Raise e => (errored e, w)
  | Return items =>
      match run_each process_record items w with
      | (Return _, w') => (completed, w')
      | (Raise e, w') => (errored e, w')
      end
  end.

End Handler.
End BackgroundProcessor.

(** summarizer_service/app/infrastructure/database/repository.py *)
Module SummaryRepository.

Section Repository.

Variable W : Type.
Variable lambda_invoke : string -> string -> W -> reply * W.
Variable utcnow : W -> datetime.
Variable pydantic_datetime : json -> option datetime.

(** [except Exception: raise]. *)
Definition create (summary : StorySummaryCreate.t) : M W StorySummary.t :=
  fun w =>
    match SummarizerLambdaClient.create_story_summary W lambda_invoke utcnow
            pydantic_datetime summary w with
    | (Return result, w') => (Return result, w')
    | (Raise e, w') => (Raise e, w')
    end.

(** [except Exception: return None]. *)
Definition get_by_id (summary_id : Z) : M W (option StorySummary.t) :=
  fun w =>
    match SummarizerLambdaClient.get_story_summary_by_id W lambda_invoke utcnow
            pydantic_datetime summary_id w with
    | (Return result, w') => (Return result, w')
    | (Raise _, w') => (Return None, w')
    end.

Definition get_by_post_id (post_id : Z) : M W (option StorySummary.t) :=
  fun w =>
    match SummarizerLambdaClient.get_story_summary_by_post_id W lambda_invoke
            utcnow pydantic_datetime post_id w with
    | (Return result, w') => (Return result, w')
    | (Raise _, w') => (Return None, w')
    end.

Definition get_latest (limit : Z) : M W (list StorySummary.t) := mret [].

Definition delete (summary_id : Z) : M W bool := mret false.

End Repository.
End SummaryRepository.

(* ================================================================== *)
(** ** reddit_service: fetching, filtering and storing posts           *)
(* ================================================================== *)

(** reddit_service/app/core/exceptions.py: the service's own exception
    classes, next to the ones Python and the libraries raise. *)
Module ServiceExceptions.

Inductive service_exception : Type :=
| RedditFetchError
| DatabaseError
| FilterError.

Inductive raised : Type :=
| Builtin (e : exn)
| Service (cls : service_exception) (msg : string).

(** [str(e)]. *)
Definition str_of_raised (e : raised) : string :=
  match e with
  | Builtin e => str_of_exn e
  | Service _ msg => msg
  end.

(** The result of a call that may raise one of them. *)
Inductive answer (A : Type) : Type :=
| Gave (a : A)
| Threw (e : raised).
Arguments Gave {A} a.
Arguments Threw {A} e.

Definition of_outcome {A : Type} (r : outcome A) : answer A :=
  match r with
  | Return a => Gave a
  | Raise e => Threw (Builtin e)
  end.

(** A call that reads and changes the world. *)
Definition Svc (W A : Type) : Type := W -> answer A * W.

Definition sbind {W A B : Type} (c : Svc W A) (k : A -> Svc W B) : Svc W B :=
  fun w =>
    match c w with
    | (Gave a, w') => k a w'
    | (Threw e, w') => (Threw e, w')
    end.

(** [except Exception as e: raise cls(prefix + str(e))] around a call. *)
Definition rewrap {W A : Type} (cls : service_exception) (prefix : string)
    (c : Svc W A) : Svc W A :=
  fun w =>
    match c w with
    | (Gave a, w') => (Gave a, w')
    | (Threw e, w') => (Threw (Service cls (prefix ++ str_of_raised e)), w')
    end.

End ServiceExceptions.
Export ServiceExceptions.

(** reddit_service/app/infrastructure/database/repository.py *)
Module PostRepository.

Section Repository.

Variable W : Type.
Variable lambda_invoke : string -> string -> W -> reply * W.
Variable fromisoformat : string -> option datetime.
Variable RedditComment_init : json -> datetime -> outcome RedditComment.t.
Variable FilteredPost_init :
  json -> datetime -> option (list RedditComment.t) -> outcome FilteredPost.t.

(** The [try] block of [save_posts], from the client's result on. *)
Definition save_posts_try (result : outcome json) : answer unit :=
  match (r <- result ;; success <- py_get r "success" JNull ;; Return (r, success)) with
  | Raise e => Threw (Builtin e)
  | Return (r, success) =>
      if py_truthy success then Gave tt
      else
        match py_get r "error" JNull with
        | Raise e => Threw (Builtin e)
        | Return error =>
            Threw (Service DatabaseError
                     ("Failed to save posts via Data Service Lambda: "
                      ++ py_str error))
        end
  end.

Definition save_posts (posts : list FilteredPost.t) : Svc W unit :=
  rewrap DatabaseError "Failed to save posts: "
    (fun w =>
       let (result, w') :=
         RedditLambdaClient.save_reddit_posts W lambda_invoke posts w in
       (save_posts_try result, w')).

Definition get_recent_posts (limit : Z) (subreddit : option string)
  : Svc W (list FilteredPost.t) :=
  rewrap DatabaseError "Failed to get recent posts: "
    (fun w =>
       let (posts, w') :=
         RedditLambdaClient.get_reddit_posts W lambda_invoke fromisoformat
           RedditComment_init FilteredPost_init limit subreddit w in
       (of_outcome posts, w')).

(** [min_score] is accepted and not used. *)
Definition search_posts (subreddit : option string) (min_score : option string)
    (limit : Z) : Svc W (list FilteredPost.t) :=
  rewrap DatabaseError "Failed to search posts: "
    (get_recent_posts limit subreddit).

End Repository.
End PostRepository.

(** reddit_service/app/services/fetcher_service.py *)
Module FetcherService.

Definition valid_modes : list string := ["hot"; "new"; "top"].

Definition _validate_inputs (subreddit : string) (limit : Z) (mode : string)
  : outcome unit :=
  if String.eqb subreddit EmptyString then
    Raise (PyExc ValueError "Invalid subreddit name")
  else if (limit <? 1) || (100 <? limit) then
    Raise (PyExc ValueError "Limit must be between 1 and 100")
  else if existsb (String.eqb mode) valid_modes then Return tt
  else Raise (PyExc ValueError ("Mode must be one of: " ++ join ", " valid_modes)).

Section Service.

Variable W : Type.
Variable RedditPost : Type.
(** The methods of [RedditRepository] the service calls. *)
Variable check_subreddit_exists : string -> Svc W bool.
Variable repository_fetch_posts :
  string -> Z -> string -> option datetime -> Svc W (list RedditPost).
Variable fetch_subreddit_info : string -> Svc W json.

Definition fetch_posts_try (subreddit : string) (limit : Z) (mode : string)
    (before : option datetime) : Svc W (list RedditPost) :=
  sbind (fun w => (of_outcome (_validate_inputs subreddit limit mode), w))
    (fun _ =>
  sbind (check_subreddit_exists subreddit)
    (fun exists_ =>
       if exists_ then repository_fetch_posts subreddit limit mode before
       else fun w =>
         (Threw (Service RedditFetchError
                   ("Subreddit r/" ++ subreddit ++ " does not exist")), w))).

(** [except RedditFetchError: raise] and then [except Exception]. *)
Definition fetch_posts (subreddit : string) (limit : Z) (mode : string)
    (before : option datetime) : Svc W (list RedditPost) :=
  fun w =>
    match fetch_posts_try subreddit limit mode before w with
    | (Gave posts, w') => (Gave posts, w')
    | (Threw (Service RedditFetchError msg), w') =>
        (Threw (Service RedditFetchError msg), w')
    | (Threw e, w') =>
        (Threw (Service RedditFetchError
                  ("Failed to fetch posts: " ++ str_of_raised e)), w')
    end.

Definition get_subreddit_info (subreddit : string) : Svc W json :=
  rewrap RedditFetchError "Failed to get subreddit info: "
    (if String.eqb subreddit EmptyString then
       fun w => (Threw (Builtin (PyExc ValueError "Invalid subreddit name")), w)
     else fetch_subreddit_info subreddit).

Definition not_found : json :=
  JDict [("exists", JBool false);
         ("error", JStr "Subreddit not found or inaccessible")].

Definition check_subreddit_status (subreddit : string) (w : W) : json * W :=
  match get_subreddit_info subreddit w with
  | (Gave info, w') =>
      match (public <- RedditLambdaClient.py_getitem info "public" ;;
             over18 <- RedditLambdaClient.py_getitem info "over18" ;;
             subscribers <- RedditLambdaClient.py_getitem info "subscribers" ;;
             Return (JDict [("exists", JBool true);
                            ("public", public);
                            ("over18", over18);
                            ("subscribers", subscribers)])) with
      | Return status => (status, w')
      | Raise e =>
          (JDict [("exists", JBool false); ("error", JStr (str_of_exn e))], w')
      end
  | (Threw (Service RedditFetchError _), w') => (not_found, w')
  | (Threw e, w') =>
      (JDict [("exists", JBool false); ("error", JStr (str_of_raised e))], w')
  end.

End Service.
End FetcherService.

(** reddit_service/app/services/post_processor_services.py *)
Module PostProcessorService.

Section Service.

Variable W : Type.
Variable lambda_invoke : string -> string -> W -> reply * W.
Variable fromisoformat : string -> option datetime.
Variable RedditComment_init : json -> datetime -> outcome RedditComment.t.
Variable FilteredPost_init :
  json -> datetime -> option (list RedditComment.t) -> outcome FilteredPost.t.
Variable RedditPost : Type.
Variable check_subreddit_exists : string -> Svc W bool.
Variable repository_fetch_posts :
  string -> Z -> string -> option datetime -> Svc W (list RedditPost).
(** [FilteredPost.from_reddit_post], which reads the clock and validates,
    and [PostFilter.is_valid_post], which answers False where it fails. *)
Variable from_reddit_post : RedditPost -> W -> outcome FilteredPost.t.
Variable is_valid_post : FilteredPost.t -> bool.

(** The loop that converts and filters, skipping the posts that raise. *)
Fixpoint convert_and_filter (raw_posts : list RedditPost) (w : W)
  : list FilteredPost.t :=
  match raw_posts with
  | [] => []
  | raw_post :: rest =>
      match from_reddit_post raw_post w with
      | Return filtered_post =>
          if is_valid_post filtered_post
          then filtered_post :: convert_and_filter rest w
          else convert_and_filter rest w
      | Raise _ => convert_and_filter rest w
      end
  end.

(** Every [except] clause of the method raises again what it caught. *)
Definition fetch_and_process_posts (subreddit : string) (limit : Z) (mode : string)
  : Svc W (list FilteredPost.t) :=
  sbind (FetcherService.fetch_posts W RedditPost check_subreddit_exists
           repository_fetch_posts subreddit limit mode None)
    (fun raw_posts w =>
       let filtered_posts := convert_and_filter raw_posts w in
       match filtered_posts with
       | [] => (Gave filtered_posts, w)
       | _ :: _ =>
           sbind (PostRepository.save_posts W lambda_invoke filtered_posts)
             (fun _ w' => (Gave filtered_posts, w')) w
       end).

(** [except DatabaseError: raise] and then [except Exception]. *)
Definition get_processed_posts (subreddit : option string)
    (min_score : option string) (limit : Z) : Svc W (list FilteredPost.t) :=
  fun w =>
    match PostRepository.search_posts W lambda_invoke fromisoformat
            RedditComment_init FilteredPost_init subreddit min_score limit w with
    | (Gave posts, w') => (Gave posts, w')
    | (Threw (Service DatabaseError msg), w') =>
        (Threw (Service DatabaseError msg), w')
    | (Threw e, w') => (Threw (Service DatabaseError (str_of_raised e)), w')
    end.

(** The dict [process_batch] fills, one subreddit after the other. *)
Fixpoint process_batch_from (results : dict) (subreddits : list string)
    (posts_per_subreddit : Z) (mode : string) (w : W) : dict * W :=
  match subreddits with
  | [] => (results, w)
  | subreddit :: rest =>
      match fetch_and_process_posts subreddit posts_per_subreddit mode w with
      | (Gave filtered_posts, w') =>
          process_batch_from
            (dict_set subreddit
               (JDict [("success", JBool true);
                       ("processed_count",
                        JInt (Z.of_nat (List.length filtered_posts)))])
               results)
            rest posts_per_subreddit mode w'
      | (Threw e, w') =>
          process_batch_from
            (dict_set subreddit
               (JDict [("success", JBool false);
                       ("error", JStr (str_of_raised e))])
               results)
            rest posts_per_subreddit mode w'
      end
  end.

Definition process_batch (subreddits : list string) (posts_per_subreddit : Z)
    (mode : string) (w : W) : dict * W :=
  process_batch_from [] subreddits posts_per_subreddit mode w.

End Service.
End PostProcessorService.

(** reddit_service/app/api/v1/endpoints/fetcher.py *)
Module FetcherApi.

(** The [except] clauses of the route. *)
Definition fetch_and_process_posts_except {A : Type} (r : answer A) : outcome A :=
  match r with
  | Gave posts => Return posts
  | Threw (Service RedditFetchError msg) =>
      Raise (HTTPException 502 ("Failed to fetch from Reddit: " ++ msg))
  | Threw (Service FilterError msg) =>
      Raise (HTTPException 422 ("Post filtering failed: " ++ msg))
  | Threw e => Raise (HTTPException 500 (str_of_raised e))
  end.

Section Routes.

Variable W : Type.
Variable lambda_invoke : string -> string -> W -> reply * W.
Variable RedditPost : Type.
Variable check_subreddit_exists : string -> Svc W bool.
Variable repository_fetch_posts :
  string -> Z -> string -> option datetime -> Svc W (list RedditPost).
Variable from_reddit_post : RedditPost -> W -> outcome FilteredPost.t.
Variable is_valid_post : FilteredPost.t -> bool.

(** The handler function of [GET /posts/{subreddit}], as FastAPI calls
    it: with a [limit] and a [mode] that passed the [Query] constraints of
    its signature, and with the service that [get_post_processor] built.
    Requests FastAPI refuses before the call, and a dependency that fails,
    are not part of it. *)
Definition fetch_and_process_posts (subreddit : string) (limit : Z) (mode : string)
  : M W (list FilteredPost.t) :=
  fun w =>
    let (r, w') :=
      PostProcessorService.fetch_and_process_posts W lambda_invoke RedditPost
        check_subreddit_exists repository_fetch_posts from_reddit_post
        is_valid_post subreddit limit mode w in
    (fetch_and_process_posts_except r, w').

End Routes.
End FetcherApi.

(** Stand-ins for Reddit and for the filter in concrete runs of the
    reddit service. *)
Module RedditStub.

(** A Reddit on which every subreddit exists and lists the same posts. *)
Definition subreddit_exists {W : Type} : string -> Svc W bool :=
  fun _ w => (Gave true, w).

Definition listing {W A : Type} (posts : list A)
  : string -> Z -> string -> option datetime -> Svc W (list A) :=
  fun _ _ _ _ w => (Gave posts, w).

(** A Reddit that cannot be reached. *)
Definition offline {W A : Type} : string -> Svc W A :=
  fun _ w => (Threw (Builtin Stub.unreachable), w).

(** Posts that need no conversion, and a filter that accepts them all. *)
Definition as_it_is {W : Type} : FilteredPost.t -> W -> outcome FilteredPost.t :=
  fun post _ => Return post.

Definition accept_all : FilteredPost.t -> bool := fun _ => true.

(** The [RedditComment] constructor on a dict of well-typed fields:
    [id], [author], [body] and [score] are required, [is_submitter]
    defaults to False, and [created_at] is the datetime put in its place. *)
Definition comment_init (comment_data : json) (created_at : datetime)
  : outcome RedditComment.t :=
  match comment_data with
  | JDict d =>
      match dict_get "id" d, dict_get "author" d, dict_get "body" d,
            dict_get "score" d with
      | Some (JStr id), Some (JStr author), Some (JStr body), Some (JInt score) =>
          Return (RedditComment.mk id author body score created_at
                    match dict_get "is_submitter" d with
                    | Some (JBool b) => b
                    | _ => false
                    end)
      | _, _, _, _ =>
          Raise (PyExc ValidationError "validation error for RedditComment")
      end
  | _ => Raise (PyExc TypeError "argument after ** must be a mapping")
  end.

End RedditStub.

(* ================================================================== *)
(** ** Properties of the invocation layer                              *)
(* ================================================================== *)

Import SummarizerLambdaClient RedditLambdaClient.

(** *** How each [try] block reads a reply *)

Lemma wait_for_late (r : reply) :
  timeout_seconds < latency r ->
  wait_for timeout_seconds r = Raise (PyExc TimeoutError EmptyString).
Proof.
  intros H. unfold wait_for.
  destruct (Z.leb_spec timeout_seconds (latency r)); [reflexivity | lia].
Qed.

Lemma wait_for_in_time (r : reply) :
  latency r < timeout_seconds ->
  wait_for timeout_seconds r = settle (result r).
Proof.
  intros H. unfold wait_for.
  destruct (Z.leb_spec timeout_seconds (latency r)); [lia | reflexivity].
Qed.

(** Either the wait ran out or the reply was settled. *)
Lemma wait_for_cases (r : reply) :
  wait_for timeout_seconds r = Raise (PyExc TimeoutError EmptyString) \/
  wait_for timeout_seconds r = settle (result r).
Proof.
  unfold wait_for. destruct (timeout_seconds <=? latency r); auto.
Qed.

Lemma answers_settle (r : reply) (n : Z) (b : option json) :
  answers r n b ->
  exists raw env,
    settle (result r) = Return raw /\
    Json.loads raw = Return (JDict env) /\
    dict_get "statusCode" env = Some (JInt n) /\
    dict_get "body" env = b.
Proof.
  intros (raw & env & Hr & Hl & Hs & Hb).
  exists raw, env. rewrite Hr. auto.
Qed.

(** Rewrites a [try] block along the facts of [answers_settle]. *)
Ltac read_reply H :=
  let raw := fresh "raw" in
  let env := fresh "env" in
  let Hr := fresh "Hsettle" in
  let Hl := fresh "Hloads" in
  let Hs := fresh "Hstatus" in
  let Hb := fresh "Hbody" in
  destruct (answers_settle _ _ _ H) as (raw & env & Hr & Hl & Hs & Hb);
  cbn [obind]; rewrite ?Hr; cbn [obind]; rewrite ?Hl; cbn [obind py_get];
  rewrite ?Hs; cbn [obind py_eq_int].

Lemma eqb_200_false (n : Z) : n <> 200 -> (n =? 200) = false.
Proof. intros H. apply Z.eqb_neq. exact H. Qed.

Section TryBlocks.

Variable pydantic_datetime : json -> option datetime.
Variable fromisoformat : string -> option datetime.
Variable RedditComment_init : json -> datetime -> outcome RedditComment.t.
Variable FilteredPost_init :
  json -> datetime -> option (list RedditComment.t) -> outcome FilteredPost.t.

Lemma create_try_not_200 now r n b :
  answers r n b -> n <> 200 ->
  create_story_summary_try pydantic_datetime now (settle (result r)) =
  Raise (PyExc Exception_
           ("Failed to create story summary: "
            ++ py_str (or_default b (JStr "Unknown error")))).
Proof.
  intros H Hn. unfold create_story_summary_try. read_reply H.
  rewrite (eqb_200_false n Hn). cbn [obind]. rewrite Hbody.
  destruct b; reflexivity.
Qed.

Lemma get_summary_try_not_200 now r n b :
  answers r n b -> n <> 200 ->
  get_story_summary_try pydantic_datetime now (settle (result r)) = Return None.
Proof.
  intros H Hn. unfold get_story_summary_try. read_reply H.
  rewrite (eqb_200_false n Hn). cbn [obind py_eq_int].
  destruct (n =? 404); reflexivity.
Qed.

Lemma health_try_not_200 r n b :
  answers r n b -> n <> 200 ->
  health_check_try (settle (result r)) =
  Return (JDict [("success", JBool false);
                 ("error", or_default b (JStr "Unknown error"))]).
Proof.
  intros H Hn. unfold health_check_try. read_reply H.
  rewrite (eqb_200_false n Hn). cbn [obind]. rewrite Hbody.
  destruct b; reflexivity.
Qed.

Lemma save_try_not_200 r n b :
  answers r n b -> n <> 200 ->
  save_reddit_posts_try (settle (result r)) =
  Return (JDict [("success", JBool false);
                 ("error", or_default b (JStr "Unknown error"))]).
Proof.
  intros H Hn. unfold save_reddit_posts_try. read_reply H.
  rewrite (eqb_200_false n Hn). cbn [obind]. rewrite Hbody.
  destruct b; reflexivity.
Qed.

Lemma posts_try_not_200 r n b :
  answers r n b -> n <> 200 ->
  get_reddit_posts_try fromisoformat RedditComment_init FilteredPost_init
    (settle (result r)) = Return [].
Proof.
  intros H Hn. unfold get_reddit_posts_try. read_reply H.
  rewrite (eqb_200_false n Hn). reflexivity.
Qed.

(** The readers' [except] clauses turn every exception into the empty
    result, so a reader never raises. *)
Lemma get_summary_except_raise e :
  get_story_summary_except (Raise e) = Return None.
Proof. unfold get_story_summary_except. destruct (is_timeout_error e); reflexivity. Qed.

Lemma get_summary_never_raises now response :
  exists v,
    get_story_summary_except
      (get_story_summary_try pydantic_datetime now response) = Return v.
Proof.
  destruct (get_story_summary_try pydantic_datetime now response) as [v | e].
  - exists v. reflexivity.
  - exists None. apply get_summary_except_raise.
Qed.

Lemma posts_never_raises response :
  exists v,
    get_reddit_posts_except
      (get_reddit_posts_try fromisoformat RedditComment_init FilteredPost_init
         response) = Return v.
Proof.
  destruct (get_reddit_posts_try _ _ _ response) as [v | e].
  - exists v. reflexivity.
  - exists []. reflexivity.
Qed.

End TryBlocks.

(** Unfolds [call] at one operation and names the substrate's reply. *)
Ltac open_call r w' :=
  cbn [call fst]; unfold reply_to in *;
  unfold create_story_summary, get_story_summary_by_id,
    get_story_summary_by_post_id, health_check, save_reddit_posts,
    get_reddit_posts, blocking;
  change SummarizerLambdaClient.data_service_function_name with function_name in *;
  change RedditLambdaClient.data_service_function_name with function_name in *;
  unfold request, build_envelope in *;
  match goal with
  | |- context [?inv function_name ?p ?w] =>
      destruct (inv function_name p w) as [r w']
  end;
  cbn [fst snd] in *.

Section Outcomes.

Variable W : Type.
Variable lambda_invoke : string -> string -> W -> reply * W.
Variable utcnow : W -> datetime.
Variable pydantic_datetime : json -> option datetime.
Variable fromisoformat : string -> option datetime.
Variable RedditComment_init : json -> datetime -> outcome RedditComment.t.
Variable FilteredPost_init :
  json -> datetime -> option (list RedditComment.t) -> outcome FilteredPost.t.

Let run (op : operation) (w : W) : outcome (result_type op) :=
  fst (call W lambda_invoke utcnow pydantic_datetime fromisoformat
         RedditComment_init FilteredPost_init op w).

Let reply_of (op : operation) (w : W) : reply := reply_to W lambda_invoke op w.

(** C1, as the code has it.  When the 30-second wait of a summarizer
    method runs out before the substrate answers, [create_story_summary]
    raises [Exception("Timeout calling Data Service Lambda")], the two
    readers return [None] and [health_check] returns a failure dict with
    that text.  The reddit client's two methods do not wait with a
    timeout: however late the reply is, their result is the one the same
    reply gives when it arrives at once. *)
Theorem timeout_outcome_per_operation (op : operation) (w : W) :
  timeout_seconds < latency (reply_of op w) ->
  match op as o return outcome (result_type o) -> Prop with
  | CreateStorySummary _ => fun res =>
      res = Raise (PyExc Exception_ "Timeout calling Data Service Lambda")
  | GetStorySummaryById _ | GetStorySummaryByPostId _ => fun res =>
      res = Return None
  | HealthCheck => fun res =>
      res = Return (JDict [("success", JBool false);
                           ("error", JStr "Timeout calling Data Service Lambda")])
  | SaveRedditPosts _ as o | GetRedditPosts _ _ as o => fun res =>
      res = fst (call W (instantly lambda_invoke) utcnow pydantic_datetime
                   fromisoformat RedditComment_init FilteredPost_init o w)
  end (run op w).
Proof.
  subst run reply_of. intros Hlate.
  destruct op;
    try (cbn [call fst];
         unfold save_reddit_posts, get_reddit_posts, instantly;
         match goal with
         | |- context [lambda_invoke ?f ?p w] => destruct (lambda_invoke f p w)
         end; reflexivity);
    open_call r w'; rewrite (wait_for_late r Hlate); reflexivity.
Qed.

(** Every failed read ends in the method's empty result. *)
Lemma failed_read_is_empty (op : operation) (w : W) :
  is_read op = true ->
  failed op (reply_of op w) ->
  match op as o return outcome (result_type o) -> Prop with
  | GetStorySummaryById _ | GetStorySummaryByPostId _ => fun res => res = Return None
  | GetRedditPosts _ _ => fun res => res = Return []
  | _ => fun _ => False
  end (run op w).
Proof.
  subst run reply_of. intros Hread Hf.
  destruct op; try discriminate Hread; open_call r w'.
  1, 2:
    destruct (Z.leb_spec timeout_seconds (latency r)) as [Hlate | Hin];
    [ unfold wait_for; rewrite (proj2 (Z.leb_le _ _) Hlate); reflexivity
    | rewrite (wait_for_in_time r Hin);
      destruct Hf as [n b Ha Hn | e He | _ Hlate];
      [ rewrite (get_summary_try_not_200 _ _ _ _ _ Ha Hn); reflexivity
      | rewrite He; cbn; apply get_summary_except_raise
      | lia ] ].
  destruct Hf as [n b Ha Hn | e He | Hw _].
  - rewrite (posts_try_not_200 _ _ _ _ _ _ Ha Hn). reflexivity.
  - rewrite He. reflexivity.
  - discriminate Hw.
Qed.

(** A read method returns; it never raises. *)
Lemma read_never_raises (op : operation) (w : W) :
  is_read op = true -> exists v, run op w = Return v.
Proof.
  subst run. intros Hread.
  destruct op; try discriminate Hread; open_call r w'.
  - apply get_summary_never_raises.
  - apply get_summary_never_raises.
  - apply posts_never_raises.
Qed.

(** C2, as the code has it.  A read method never raises, and every failed
    call ends in its empty result: [get_reddit_posts] returns [[]] and the
    summary readers return [None], as they do for an empty table and for a
    404. *)
Theorem read_failure_is_empty_result (op : operation) (w : W) :
  is_read op = true ->
  (exists v, run op w = Return v) /\
  (failed op (reply_of op w) ->
   match op as o return outcome (result_type o) -> Prop with
   | GetStorySummaryById _ | GetStorySummaryByPostId _ => fun res => res = Return None
   | GetRedditPosts _ _ => fun res => res = Return []
   | _ => fun _ => False
   end (run op w)).
Proof.
  intros Hread. split.
  - apply read_never_raises. exact Hread.
  - apply failed_read_is_empty. exact Hread.
Qed.

(** C3.  A read method whose response envelope carries statusCode 404
    returns its absent result and does not raise: [None] for
    [get_story_summary_by_id] and [get_story_summary_by_post_id], the
    empty list for [get_reddit_posts]. *)
Theorem read_404_is_absent (op : operation) (w : W) (b : option json) :
  is_read op = true ->
  answers (reply_of op w) 404 b ->
  match op as o return outcome (result_type o) -> Prop with
  | GetStorySummaryById _ | GetStorySummaryByPostId _ => fun res => res = Return None
  | GetRedditPosts _ _ => fun res => res = Return []
  | _ => fun _ => False
  end (run op w).
Proof.
  intros Hread Ha.
  apply (failed_read_is_empty op w Hread).
  apply (failed_status op _ 404 b Ha). lia.
Qed.

End Outcomes.

Section ErrorOutcomes.

Variable W : Type.
Variable lambda_invoke : string -> string -> W -> reply * W.
Variable utcnow : W -> datetime.
Variable pydantic_datetime : json -> option datetime.
Variable fromisoformat : string -> option datetime.
Variable RedditComment_init : json -> datetime -> outcome RedditComment.t.
Variable FilteredPost_init :
  json -> datetime -> option (list RedditComment.t) -> outcome FilteredPost.t.

Let run (op : operation) (w : W) : outcome (result_type op) :=
  fst (call W lambda_invoke utcnow pydantic_datetime fromisoformat
         RedditComment_init FilteredPost_init op w).

Let reply_of (op : operation) (w : W) : reply := reply_to W lambda_invoke op w.

(** C4, as the code has it.  On a response with a 500-599 statusCode only
    [create_story_summary] raises, and what it raises is a plain
    [Exception].  When the body is a str, as the body of a response
    envelope is, its message is ["Failed to create story summary: "]
    followed by that text as it stands, and without a body by
    ["Unknown error"]: no error text is extracted from the body.  For a
    body of another type the message is what the f-string makes of the
    value, which is not stated here.  The readers return [None] or [[]];
    [health_check] and [save_reddit_posts] return
    [{"success": False, "error": body}]. *)
Theorem server_error_outcome_per_operation
    (op : operation) (w : W) (n : Z) (b : option json) :
  500 <= n <= 599 ->
  in_time op (reply_of op w) ->
  answers (reply_of op w) n b ->
  match op as o return outcome (result_type o) -> Prop with
  | CreateStorySummary _ => fun res =>
      match b with
      | None =>
          res = Raise (PyExc Exception_
                         ("Failed to create story summary: " ++ "Unknown error"))
      | Some (JStr text) =>
          res = Raise (PyExc Exception_
                         ("Failed to create story summary: " ++ text))
      | Some _ => exists msg, res = Raise (PyExc Exception_ msg)
      end
  | GetStorySummaryById _ | GetStorySummaryByPostId _ => fun res =>
      res = Return None
  | HealthCheck | SaveRedditPosts _ => fun res =>
      res = Return (JDict [("success", JBool false);
                           ("error", or_default b (JStr "Unknown error"))])
  | GetRedditPosts _ _ => fun res => res = Return []
  end (run op w).
Proof.
  subst run reply_of. unfold in_time. intros Hn Hin Ha.
  assert (Hne : n <> 200) by lia.
  destruct op; open_call r w';
    try rewrite (wait_for_in_time r (Hin eq_refl)).
  - rewrite (create_try_not_200 _ _ _ _ _ Ha Hne).
    destruct b as [[] |]; cbn [or_default py_str];
      first [reflexivity | eexists; reflexivity].
  - rewrite (get_summary_try_not_200 _ _ _ _ _ Ha Hne). reflexivity.
  - rewrite (get_summary_try_not_200 _ _ _ _ _ Ha Hne). reflexivity.
  - rewrite (health_try_not_200 _ _ _ Ha Hne). reflexivity.
  - rewrite (save_try_not_200 _ _ _ Ha Hne). reflexivity.
  - rewrite (posts_try_not_200 _ _ _ _ _ _ Ha Hne). reflexivity.
Qed.

(** C5, as the code has it.  When the substrate raises before the target
    runs, [save_reddit_posts] does not raise: it returns the failure dict
    [{"success": False, "error": str(e)}], the shape it also returns for
    an error response.  [health_check] does the same, the readers return
    [None] or [[]], and only [create_story_summary] lets the exception
    through, unchanged. *)
Theorem transport_failure_outcome_per_operation
    (op : operation) (w : W) (e : exn) :
  is_timeout_error e = false ->
  in_time op (reply_of op w) ->
  result (reply_of op w) = InvokeRaised e ->
  match op as o return outcome (result_type o) -> Prop with
  | CreateStorySummary _ => fun res => res = Raise e
  | GetStorySummaryById _ | GetStorySummaryByPostId _ => fun res =>
      res = Return None
  | HealthCheck | SaveRedditPosts _ => fun res =>
      res = Return (JDict [("success", JBool false); ("error", JStr (str_of_exn e))])
  | GetRedditPosts _ _ => fun res => res = Return []
  end (run op w).
Proof.
  subst run reply_of. unfold in_time. intros He Hin Hr.
  destruct op; open_call r w';
    try rewrite (wait_for_in_time r (Hin eq_refl));
    rewrite Hr; cbn; rewrite ?He; reflexivity.
Qed.

End ErrorOutcomes.

(** *** Concrete runs *)

(** A summarizer create call whose reply takes 45 seconds. *)
Lemma timeout_outcome_witness :
  timeout_seconds < latency Stub.found42_late /\
  Stub.run Stub.found42_late (CreateStorySummary Stub.summary7) =
  Raise (PyExc Exception_ "Timeout calling Data Service Lambda").
Proof.
  split; [reflexivity |].
  exact (timeout_outcome_per_operation unit (Stub.always Stub.found42_late)
           Stub.clock Stub.datetime_of_json Stub.iso_parse Stub.no_comment
           Stub.no_post (CreateStorySummary Stub.summary7) tt eq_refl).
Defined.

(** C1 fails: the wait runs out on a reply that would have been a 200
    with the stored summary, and [get_story_summary_by_post_id(42)] returns
    [None] instead of raising; and [save_reddit_posts] takes a reply that
    comes after an hour as the success it is. *)
Lemma timeout_read_returns_none :
  timeout_seconds < latency Stub.found42_late /\
  Stub.run Stub.found42_late (GetStorySummaryByPostId 42) = Return None /\
  Stub.run Stub.found42 (GetStorySummaryByPostId 42) = Return (Some Stub.stored42) /\
  Stub.run (mk_reply 3600 (result (Stub.responds 200 (JStr "saved"))))
    (SaveRedditPosts [Stub.post1])
  = Return (JDict [("success", JBool true);
                   ("message", JStr (Json.dumps (JStr "saved")))]).
Proof. repeat split; vm_compute; reflexivity. Qed.

(** [get_reddit_posts] against the 500 answer. *)
Lemma read_failure_witness :
  is_read (GetRedditPosts 10 None) = true /\
  failed (GetRedditPosts 10 None) Stub.boom /\
  Stub.run Stub.boom (GetRedditPosts 10 None) = Return [].
Proof.
  assert (Hf : failed (GetRedditPosts 10 None) Stub.boom).
  { apply (failed_status _ _ 500 (Some (JStr (Json.dumps (JDict [("error", JStr "boom")]))))).
    - eexists. eexists. repeat split; vm_compute; reflexivity.
    - discriminate. }
  split; [reflexivity |]. split; [exact Hf |].
  exact (proj2 (read_failure_is_empty_result unit (Stub.always Stub.boom)
                  Stub.clock Stub.datetime_of_json Stub.iso_parse
                  Stub.no_comment Stub.no_post (GetRedditPosts 10 None) tt eq_refl) Hf).
Defined.

(** C2 fails: a 500 answer and an unreachable substrate both give the
    readers' empty success values, the very values an empty table and a
    404 give. *)
Lemma read_errors_coerced_to_empty :
  Stub.run Stub.boom (GetRedditPosts 10 None) = Return [] /\
  Stub.run (Stub.responds 200 (JList [])) (GetRedditPosts 10 None) = Return [] /\
  Stub.run Stub.boom (GetStorySummaryById 5) = Return None /\
  Stub.run Stub.connection_error (GetStorySummaryById 5) = Return None /\
  Stub.run (Stub.responds_status 404) (GetStorySummaryById 5) = Return None.
Proof. repeat split; vm_compute; reflexivity. Qed.

(** The scenario [get_story_summary_by_post_id(post_id=42)] against a
    404 stub. *)
Lemma read_404_witness :
  is_read (GetStorySummaryByPostId 42) = true /\
  answers (Stub.responds_status 404) 404 None /\
  Stub.run (Stub.responds_status 404) (GetStorySummaryByPostId 42) = Return None.
Proof.
  assert (Ha : answers (Stub.responds_status 404) 404 None).
  { eexists. eexists. repeat split; vm_compute; reflexivity. }
  split; [reflexivity |]. split; [exact Ha |].
  exact (read_404_is_absent unit (Stub.always (Stub.responds_status 404))
           Stub.clock Stub.datetime_of_json Stub.iso_parse Stub.no_comment
           Stub.no_post (GetStorySummaryByPostId 42) tt None eq_refl Ha).
Defined.

(** [create_story_summary] against the 500 answer. *)
Lemma server_error_witness :
  500 <= 500 <= 599 /\
  in_time (CreateStorySummary Stub.summary7) Stub.boom /\
  Stub.run Stub.boom (CreateStorySummary Stub.summary7) =
  Raise (PyExc Exception_
           ("Failed to create story summary: "
            ++ Json.dumps (JDict [("error", JStr "boom")]))).
Proof.
  assert (Hin : in_time (CreateStorySummary Stub.summary7) Stub.boom).
  { intros _. reflexivity. }
  assert (Ha : answers Stub.boom 500
                 (Some (JStr (Json.dumps (JDict [("error", JStr "boom")]))))).
  { eexists. eexists. repeat split; vm_compute; reflexivity. }
  assert (Hn : 500 <= 500 <= 599) by lia.
  split; [exact Hn |]. split; [exact Hin |].
  exact (server_error_outcome_per_operation unit (Stub.always Stub.boom)
           Stub.clock Stub.datetime_of_json Stub.iso_parse Stub.no_comment
           Stub.no_post (CreateStorySummary Stub.summary7) tt 500 _ Hn Hin Ha).
Defined.

(** C4 fails: against [{statusCode: 500, body: json({error: "boom"})}]
    the exception [create_story_summary] raises is a plain [Exception]
    whose message is the prefixed, undecoded body and not ["boom"]; a
    reader given the same answer raises nothing. *)
Lemma server_error_message_not_extracted :
  Stub.run Stub.boom (CreateStorySummary Stub.summary7) =
  Raise (PyExc Exception_
           ("Failed to create story summary: "
            ++ Json.dumps (JDict [("error", JStr "boom")]))) /\
  String.eqb ("Failed to create story summary: "
              ++ Json.dumps (JDict [("error", JStr "boom")])) "boom" = false /\
  Stub.run Stub.boom (GetStorySummaryByPostId 42) = Return None.
Proof. repeat split; vm_compute; reflexivity. Qed.

(** [save_reddit_posts] when the substrate cannot be reached. *)
Lemma transport_failure_witness :
  is_timeout_error Stub.unreachable = false /\
  in_time (SaveRedditPosts [Stub.post1]) Stub.connection_error /\
  result Stub.connection_error = InvokeRaised Stub.unreachable /\
  Stub.run Stub.connection_error (SaveRedditPosts [Stub.post1]) =
  Return (JDict [("success", JBool false);
                 ("error", JStr "Could not connect to the endpoint URL")]).
Proof.
  assert (Hin : in_time (SaveRedditPosts [Stub.post1]) Stub.connection_error).
  { intros H. discriminate H. }
  split; [reflexivity |]. split; [exact Hin |]. split; [reflexivity |].
  exact (transport_failure_outcome_per_operation unit
           (Stub.always Stub.connection_error) Stub.clock Stub.datetime_of_json
           Stub.iso_parse Stub.no_comment Stub.no_post
           (SaveRedditPosts [Stub.post1]) tt Stub.unreachable eq_refl Hin eq_refl).
Defined.

(** C5 fails: with the substrate unreachable [save_reddit_posts] returns
    a failure dict instead of raising, and the dict is the one an error
    response with the same text gives. *)
Lemma transport_failure_returned_as_value :
  Stub.run Stub.connection_error (SaveRedditPosts [Stub.post1]) =
  Return (JDict [("success", JBool false);
                 ("error", JStr "Could not connect to the endpoint URL")]) /\
  Stub.run Stub.error_response (SaveRedditPosts [Stub.post1]) =
  Stub.run Stub.connection_error (SaveRedditPosts [Stub.post1]).
Proof. repeat split; vm_compute; reflexivity. Qed.

(** *** Envelope building *)

(** Every payload is the same literal around the values given. *)
Lemma request_id_of_payload ua resource path method query params body :
  Envelope.request_id (Envelope.payload ua resource path method query params body)
  = Some (JStr "test").
Proof. reflexivity. Qed.

(** A call hands the substrate the method's request once, and the world
    it leaves is the one that invocation left. *)
Lemma call_invokes_once
    (W : Type) (lambda_invoke : string -> string -> W -> reply * W)
    utcnow pydantic_datetime fromisoformat RedditComment_init FilteredPost_init
    (op : operation) (w : W) :
  snd (call W lambda_invoke utcnow pydantic_datetime fromisoformat
         RedditComment_init FilteredPost_init op w)
  = snd (lambda_invoke function_name (request op) w).
Proof.
  destruct op; cbn [call];
    unfold create_story_summary, get_story_summary_by_id,
      get_story_summary_by_post_id, health_check, save_reddit_posts,
      get_reddit_posts;
    change SummarizerLambdaClient.data_service_function_name with function_name;
    change RedditLambdaClient.data_service_function_name with function_name;
    unfold request, build_envelope;
    match goal with
    | |- context [lambda_invoke function_name ?p w] =>
        destruct (lambda_invoke function_name p w)
    end; reflexivity.
Qed.

(** Whatever the reply (an answer, an error response, an exception, a
    reply that comes too late), a method invokes the target once: nothing
    is retried. *)
Theorem no_retries (op : operation) (r : reply) (n : nat) :
  snd (call nat (Stub.counting r) Stub.clock Stub.datetime_of_json Stub.iso_parse
         Stub.no_comment Stub.no_post op n) = S n.
Proof. rewrite call_invokes_once. reflexivity. Qed.

(** C6, as the code has it.  Envelope building is a function of the
    operation and its inputs alone: a target called twice with the same
    operation is sent the same payload twice, identical in every field.
    That includes [requestContext.requestId], which is the constant
    ["test"] in every payload of every method. *)
Theorem envelope_is_function_of_inputs (op : operation) (r : reply) :
  Stub.sent_twice r op = [request op; request op] /\
  Envelope.request_id (build_envelope op) = Some (JStr "test").
Proof.
  split.
  - unfold Stub.sent_twice. rewrite !call_invokes_once. reflexivity.
  - destruct op; apply request_id_of_payload.
Qed.

(** C6 fails in its second half: builds of different methods with
    different inputs all carry the request id ["test"]. *)
Lemma request_id_shared_across_builds :
  Envelope.request_id (build_envelope (GetStorySummaryByPostId 42))
    = Some (JStr "test") /\
  Envelope.request_id (build_envelope (CreateStorySummary Stub.summary7))
    = Some (JStr "test") /\
  Envelope.request_id (build_envelope (SaveRedditPosts [Stub.post1]))
    = Some (JStr "test").
Proof. repeat split. Qed.

(** C9, as the code has it.  [get_reddit_posts] puts a non-empty
    subreddit value into the path's query string exactly as given, with no
    encoding, and into [queryStringParameters] as given. *)
Theorem query_value_inserted_verbatim (limit : Z) (subreddit : string) :
  subreddit <> EmptyString ->
  Envelope.path_of (build_envelope (GetRedditPosts limit (Some subreddit)))
    = Some (JStr ("/api/v1/reddit/posts?limit=" ++ str_of_int limit
                  ++ "&subreddit=" ++ subreddit)) /\
  Envelope.query_of (build_envelope (GetRedditPosts limit (Some subreddit)))
    = Some (JDict [("limit", JStr (str_of_int limit));
                   ("subreddit", JStr subreddit)]).
Proof.
  intros Hne.
  assert (Hg : given (Some subreddit) = Some subreddit).
  { unfold given. destruct (String.eqb_spec subreddit EmptyString); [contradiction | reflexivity]. }
  unfold build_envelope, get_reddit_posts_payload, query_params.
  rewrite Hg. split; reflexivity.
Qed.

Lemma query_value_witness :
  "a b&c=d" <> EmptyString /\
  Envelope.path_of (build_envelope (GetRedditPosts 10 (Some "a b&c=d")))
    = Some (JStr "/api/v1/reddit/posts?limit=10&subreddit=a b&c=d").
Proof.
  assert (Hne : "a b&c=d" <> EmptyString) by discriminate.
  split; [exact Hne |].
  exact (proj1 (query_value_inserted_verbatim 10 "a b&c=d" Hne)).
Defined.

(** C9 fails: a subreddit value with a space, an ampersand and an equals
    sign reaches the path unchanged, which is not its URL-encoded form. *)
Lemma query_value_not_url_encoded :
  Envelope.path_of (build_envelope (GetRedditPosts 10 (Some "a b&c=d")))
    = Some (JStr "/api/v1/reddit/posts?limit=10&subreddit=a b&c=d") /\
  UrlEncoding.url_encode "a b&c=d" = "a%20b%26c%3Dd" /\
  String.eqb "/api/v1/reddit/posts?limit=10&subreddit=a b&c=d"
    ("/api/v1/reddit/posts?limit=10&subreddit=" ++ UrlEncoding.url_encode "a b&c=d")
    = false.
Proof. repeat split. Qed.

(** *** The summary route *)

(** C7 at the code's failing input.  When the lookup returns [None], the
    404 that [get_summary] raises is caught by the handler's own
    [except Exception] clause, and the route answers with status 500. *)
Theorem get_summary_absent_answers_500
    (W : Type) (lambda_invoke : string -> string -> W -> reply * W)
    (utcnow : W -> datetime) (pydantic_datetime : json -> option datetime)
    (post_id : Z) (w : W) :
  fst (get_story_summary_by_post_id W lambda_invoke utcnow pydantic_datetime
         post_id w) = Return None ->
  SummarizerApi.response_status
    (fst (SummarizerApi.get_summary W lambda_invoke utcnow pydantic_datetime
            post_id w)) = 500.
Proof.
  intros Hnone.
  unfold SummarizerApi.get_summary, SummarizerApi.get_summary_try, mbind.
  destruct (get_story_summary_by_post_id W lambda_invoke utcnow
              pydantic_datetime post_id w) as [res w'].
  cbn [fst] in Hnone. subst res. reflexivity.
Qed.

(** [GET /summary/42] when the data service answers 404. *)
Lemma get_summary_absent_witness :
  Stub.run (Stub.responds_status 404) (GetStorySummaryByPostId 42) = Return None /\
  SummarizerApi.response_status
    (fst (SummarizerApi.get_summary unit (Stub.always (Stub.responds_status 404))
            Stub.clock Stub.datetime_of_json 42 tt)) = 500.
Proof.
  assert (H : Stub.run (Stub.responds_status 404) (GetStorySummaryByPostId 42)
              = Return None) by (vm_compute; reflexivity).
  split; [exact H |].
  exact (get_summary_absent_answers_500 unit
           (Stub.always (Stub.responds_status 404)) Stub.clock
           Stub.datetime_of_json 42 tt H).
Defined.

(** *** Creating a summary *)

(** A body with the fields of [stored] validates to [stored]. *)
Lemma init_of_fields pydantic_datetime now (stored : StorySummary.t) (fields : dict) :
  (forall k, dict_get k fields = dict_get k (StorySummary.fields stored)) ->
  pydantic_datetime (JStr (isoformat (StorySummary.created_at stored)))
    = Some (StorySummary.created_at stored) ->
  StorySummary.init pydantic_datetime now (JDict fields) = Return stored.
Proof.
  intros Hf Hd.
  unfold StorySummary.init, StorySummary.int_field, StorySummary.str_field,
    StorySummary.optional_dict_field, StorySummary.datetime_field_default.
  rewrite !Hf.
  destruct stored as [p ti su gs mu [gm |] i ca];
    cbn -[isoformat] in *; rewrite Hd; reflexivity.
Qed.

(** C8.  When [create_story_summary] gets, in time, a statusCode 200
    whose body is the JSON text of a record [stored], it returns [stored]:
    every field of the returned [StorySummary] is the echoed record's
    field, its [id] included. *)
Theorem create_returns_echoed_record
    (W : Type) (lambda_invoke : string -> string -> W -> reply * W)
    (utcnow : W -> datetime) (pydantic_datetime : json -> option datetime)
    (summary : StorySummaryCreate.t) (w : W)
    (stored : StorySummary.t) (body_text : string) (fields : dict) :
  let r := reply_to W lambda_invoke (CreateStorySummary summary) w in
  latency r < timeout_seconds ->
  answers r 200 (Some (JStr body_text)) ->
  Json.loads body_text = Return (JDict fields) ->
  (forall k, dict_get k fields = dict_get k (StorySummary.fields stored)) ->
  pydantic_datetime (JStr (isoformat (StorySummary.created_at stored)))
    = Some (StorySummary.created_at stored) ->
  fst (create_story_summary W lambda_invoke utcnow pydantic_datetime summary w)
  = Return stored.
Proof.
  intros r Hin Ha Hl Hf Hd. subst r.
  unfold reply_to, request, build_envelope in *.
  unfold create_story_summary.
  change SummarizerLambdaClient.data_service_function_name with function_name.
  destruct (lambda_invoke function_name
              (Json.dumps (create_story_summary_payload summary)) w) as [r w'].
  cbn [fst snd] in *.
  rewrite (wait_for_in_time r Hin).
  unfold create_story_summary_try. read_reply Ha.
  cbn. rewrite Hbody. cbn. rewrite Hl. cbn [obind].
  rewrite (init_of_fields _ _ stored fields Hf Hd). reflexivity.
Qed.

(** The scenario: [create_story_summary({post_id: 7, title: "t", ...})]
    against a 200 stub echoing the created record with [id = 101]. *)
Lemma create_echo_witness :
  StorySummary.id Stub.stored7 = 101 /\
  StorySummary.post_id Stub.stored7 = StorySummaryCreate.post_id Stub.summary7 /\
  StorySummary.title Stub.stored7 = StorySummaryCreate.title Stub.summary7 /\
  StorySummary.summary Stub.stored7 = StorySummaryCreate.summary Stub.summary7 /\
  StorySummary.generated_story Stub.stored7
    = StorySummaryCreate.generated_story Stub.summary7 /\
  StorySummary.model_used Stub.stored7 = StorySummaryCreate.model_used Stub.summary7 /\
  StorySummary.generation_metadata Stub.stored7
    = StorySummaryCreate.generation_metadata Stub.summary7 /\
  Stub.run (Stub.responds 200 (StorySummary.to_json Stub.stored7))
    (CreateStorySummary Stub.summary7) = Return Stub.stored7.
Proof.
  repeat (split; [reflexivity |]).
  refine (create_returns_echoed_record unit
            (Stub.always (Stub.responds 200 (StorySummary.to_json Stub.stored7)))
            Stub.clock Stub.datetime_of_json Stub.summary7 tt Stub.stored7
            (Json.dumps (StorySummary.to_json Stub.stored7))
            (StorySummary.fields Stub.stored7) _ _ _ _ _).
  - reflexivity.
  - eexists. eexists. repeat split; vm_compute; reflexivity.
  - vm_compute. reflexivity.
  - intros k. reflexivity.
  - vm_compute. reflexivity.
Defined.

(** *** The summarizer service *)

Section CheckThenCreate.

Variable W : Type.
Variable get_story_summary_by_post_id : Z -> M W (option StorySummary.t).
Variable create_story_summary : StorySummaryCreate.t -> M W StorySummary.t.
Variable generate_text : string -> option string -> json -> M W string.
Variable utcnow : W -> datetime.

Import SummarizerService.

(** C10.  [generate_summary_by_id] and [generate_summary] call
    [get_story_summary_by_post_id] first; when it returns a summary they
    return that summary, having called nothing else; and
    [create_story_summary] appears among their calls only when the lookup
    returned [None]. *)
Theorem generation_checks_before_creating
    (post_id : Z) (title content : string) (comments : list json)
    (model_id : option string) (w : W) :
  let lookup := fst (get_story_summary_by_post_id post_id w) in
  let by_id :=
    observed_generate_summary_by_id W get_story_summary_by_post_id
      create_story_summary generate_text utcnow post_id (w, []) in
  let full :=
    observed_generate_summary W get_story_summary_by_post_id
      post_id title content comments model_id (w, []) in
  (hd_error (snd (snd by_id)) = Some (CallGetByPostId post_id) /\
   hd_error (snd (snd full)) = Some (CallGetByPostId post_id)) /\
  (forall s, lookup = Return (Some s) ->
     fst by_id = Return s /\ snd (snd by_id) = [CallGetByPostId post_id] /\
     fst full = Return s /\ snd (snd full) = [CallGetByPostId post_id]) /\
  (forall c, In (CallCreate c) (snd (snd by_id)) \/ In (CallCreate c) (snd (snd full)) ->
     lookup = Return None).
Proof.
  cbv zeta.
  unfold observed_generate_summary_by_id, observed_generate_summary,
    generate_summary_by_id, generate_summary, mbind, spy, mret, mraise, now, lift.
  cbn [fst snd app].
  destruct (get_story_summary_by_post_id post_id w) as [[[s |] | e] w1];
    cbn [fst snd app hd_error].
  - (* the lookup found a summary *)
    split; [split; reflexivity |]. split.
    + intros s' Hs'. injection Hs' as <-. repeat split.
    + intros c [[Hc | []] | [Hc | []]]; discriminate Hc.
  - (* the lookup returned None *)
    split; [| split; [intros s Hs; discriminate Hs | intros c _; reflexivity]].
    split.
    + cbn -[story_prompt summary_prompt isoformat mock_title].
      destruct (generate_text _ None story_parameters w1) as [[gs | e1] w2];
        cbn -[story_prompt summary_prompt isoformat mock_title]; [| reflexivity].
      destruct (generate_text summary_prompt None summary_parameters w2)
        as [[st | e2] w3];
        cbn -[story_prompt summary_prompt isoformat mock_title]; [| reflexivity].
      destruct (create_story_summary _ w3) as [[saved | e3] w4]; reflexivity.
    + destruct (_prepare_comments_text comments); reflexivity.
  - (* the lookup raised *)
    split; [split; reflexivity |]. split.
    + intros s' Hs'. discriminate Hs'.
    + intros c [[Hc | []] | [Hc | []]]; discriminate Hc.
Qed.

End CheckThenCreate.

(** The service over the real client: the data service already holds a
    summary for post 42. *)
Lemma check_then_create_witness :
  fst (get_story_summary_by_post_id (list reply) Stub.scripted Stub.clock
         Stub.datetime_of_json 42 [Stub.found42]) = Return (Some Stub.stored42) /\
  fst (Stub.service_by_id 42 [Stub.found42]) = Return Stub.stored42 /\
  snd (snd (Stub.service_by_id 42 [Stub.found42]))
    = [SummarizerService.CallGetByPostId 42] /\
  fst (Stub.service_full 42 [Stub.found42]) = Return Stub.stored42 /\
  snd (snd (Stub.service_full 42 [Stub.found42]))
    = [SummarizerService.CallGetByPostId 42].
Proof.
  assert (H : fst (get_story_summary_by_post_id (list reply) Stub.scripted
                     Stub.clock Stub.datetime_of_json 42 [Stub.found42])
              = Return (Some Stub.stored42)) by (vm_compute; reflexivity).
  split; [exact H |].
  exact (proj1 (proj2
           (generation_checks_before_creating (list reply)
              (get_story_summary_by_post_id (list reply) Stub.scripted Stub.clock
                 Stub.datetime_of_json)
              (create_story_summary (list reply) Stub.scripted Stub.clock
                 Stub.datetime_of_json)
              Stub.canned_text Stub.clock 42 "title" "content" [] None
              [Stub.found42]))
           Stub.stored42 H).
Defined.

Section WhenAbsent.

Variable W : Type.
Variable get_story_summary_by_post_id : Z -> M W (option StorySummary.t).
Variable create_story_summary : StorySummaryCreate.t -> M W StorySummary.t.
Variable generate_text : string -> option string -> json -> M W string.
Variable utcnow : W -> datetime.

Import SummarizerService.


(** [generate_summary] never gets as far as creating: when the lookup
    finds nothing it raises [AttributeError], the lookup being its only
    call. *)
Theorem generate_summary_stops_at_config
    (post_id : Z) (title content : string) (comments : list json)
    (model_id : option string) (w w1 : W) :
  get_story_summary_by_post_id post_id w = (Return None, w1) ->
  exists msg,
    observed_generate_summary W get_story_summary_by_post_id
      post_id title content comments model_id (w, [])
    = (Raise (PyExc AttributeError msg), (w1, [CallGetByPostId post_id])).
Proof.
  intros Hget.
  unfold observed_generate_summary, generate_summary, mbind, spy, mraise, lift.
  cbn [fst snd app]. rewrite Hget. cbn [fst snd].
  destruct comments as [| top rest]; cbn [_prepare_comments_text].
  - eexists. reflexivity.
  - destruct top; cbn; eexists; reflexivity.
Qed.

End WhenAbsent.


Lemma generate_summary_stops_witness :
  get_story_summary_by_post_id (list reply) Stub.scripted Stub.clock
    Stub.datetime_of_json 42 [Stub.responds_status 404] = (Return None, []) /\
  exists msg,
    Stub.service_full 42 [Stub.responds_status 404]
    = (Raise (PyExc AttributeError msg), ([], [SummarizerService.CallGetByPostId 42])).
Proof.
  assert (H : get_story_summary_by_post_id (list reply) Stub.scripted Stub.clock
                Stub.datetime_of_json 42 [Stub.responds_status 404]
              = (Return None, [])) by (vm_compute; reflexivity).
  split; [exact H |].
  exact (generate_summary_stops_at_config (list reply)
           (get_story_summary_by_post_id (list reply) Stub.scripted Stub.clock
              Stub.datetime_of_json)
           42 "title" "content" [] None [Stub.responds_status 404] [] H).
Defined.

(* ================================================================== *)
(** ** [json.loads] undoes [json.dumps]                                 *)
(* ================================================================== *)


Lemma scan_number_stages (s : string) :
  Json.scan_number s =
  let (neg, s1) := sign_stage s in
  let (ip, s2) := int_stage s1 in
  match ip with
  | EmptyString => None
  | _ =>
      let (frac, s3) := frac_stage s2 in
      let (ex, s4) := exp_stage s3 in
      Some (number_of_stages neg ip frac ex, s4)
  end.
Proof.
  unfold Json.scan_number, sign_stage, int_stage, frac_stage, exp_stage, number_of_stages.
  destruct (match s with String c r => if Ascii.eqb c "-" then (true, r) else (false, s) | EmptyString => (false, s) end) as [neg s1].
  destruct (match span_digits s1 with
            | (String c (String c' r'), rest) =>
                if Ascii.eqb c "0" then (chr c, String c' r' ++ rest)
                else (String c (String c' r'), rest)
            | other => other end) as [ip s2].
  destruct ip; [reflexivity |].
  destruct (match s2 with
    | String c r => if Ascii.eqb c "." then let (fp, r') := span_digits r in match fp with EmptyString => (EmptyString, s2) | _ => (String c fp, r') end else (EmptyString, s2)
    | EmptyString => (EmptyString, s2) end) as [frac s3].
  match goal with |- (let (_, _) := ?e in _) = _ => destruct e as [ex s4] end.
  destruct frac, ex; reflexivity.
Qed.

Lemma append_assoc (a b c : string) : (a ++ b) ++ c = a ++ (b ++ c).
Proof. induction a as [| x a IH]; simpl; [reflexivity | now rewrite IH]. Qed.

Lemma append_nil_r (a : string) : a ++ EmptyString = a.
Proof. induction a as [| x a IH]; simpl; [reflexivity | now rewrite IH]. Qed.

Lemma ends_number_not_digit c r :
  ends_number (String c r) = true -> is_digit c = false.
Proof.
  unfold ends_number. intros H. apply negb_true_iff in H.
  repeat (apply orb_false_iff in H; destruct H as [H ?]). exact H.
Qed.

Lemma span_digits_rest (rest : string) :
  ends_number rest = true -> span_digits rest = (EmptyString, rest).
Proof.
  destruct rest as [| c r]; [reflexivity |].
  intros H. simpl. now rewrite (ends_number_not_digit c r H).
Qed.

Lemma span_digits_app (a rest : string) :
  ends_number rest = true ->
  span_digits (a ++ rest) = (fst (span_digits a), snd (span_digits a) ++ rest).
Proof.
  intros H. induction a as [| c a IH].
  - simpl. now rewrite (span_digits_rest rest H).
  - simpl. destruct (is_digit c).
    + rewrite IH. destruct (span_digits a). reflexivity.
    + reflexivity.
Qed.

Lemma sign_stage_app (s rest : string) :
  ends_number rest = true ->
  sign_stage (s ++ rest) = (fst (sign_stage s), snd (sign_stage s) ++ rest).
Proof.
  intros H. destruct s as [| c s]; simpl.
  - destruct rest as [| c r]; [reflexivity |]. simpl.
    unfold ends_number in H. apply negb_true_iff in H.
    repeat (apply orb_false_iff in H; destruct H as [H ?]).
    match goal with Hm : Ascii.eqb c "-" = false |- _ => rewrite Hm end.
    reflexivity.
  - destruct (Ascii.eqb c "-"); reflexivity.
Qed.

Lemma int_stage_app (s rest : string) :
  ends_number rest = true ->
  int_stage (s ++ rest) = (fst (int_stage s), snd (int_stage s) ++ rest).
Proof.
  intros H. unfold int_stage. rewrite (span_digits_app s rest H).
  destruct (span_digits s) as [ds r]. simpl.
  destruct ds as [| c [| c' r']]; try reflexivity.
  destruct (Ascii.eqb c "0"); simpl; [| reflexivity].
  now rewrite append_assoc.
Qed.

Lemma frac_stage_app (s rest : string) :
  ends_number rest = true ->
  frac_stage (s ++ rest) = (fst (frac_stage s), snd (frac_stage s) ++ rest).
Proof.
  intros H. destruct s as [| c s].
  - simpl. destruct rest as [| c r]; [reflexivity |]. simpl.
    pose proof H as H'. unfold ends_number in H'. apply negb_true_iff in H'.
    repeat (apply orb_false_iff in H'; destruct H' as [H' ?]).
    match goal with Hm : Ascii.eqb c "." = false |- _ => rewrite Hm end.
    reflexivity.
  - simpl. destruct (Ascii.eqb c "."); [| reflexivity].
    rewrite (span_digits_app s rest H). destruct (span_digits s) as [fp r'].
    simpl. destruct fp; reflexivity.
Qed.

Lemma exp_stage_app (s rest : string) :
  ends_number rest = true ->
  exp_stage (s ++ rest) = (fst (exp_stage s), snd (exp_stage s) ++ rest).
Proof.
  intros H.
  assert (Hc : forall c r, rest = String c r ->
            is_digit c = false /\ Ascii.eqb c "e" = false /\ Ascii.eqb c "E" = false
            /\ Ascii.eqb c "-" = false /\ Ascii.eqb c "+" = false).
  { intros c r ->. unfold ends_number in H. apply negb_true_iff in H.
    repeat (apply orb_false_iff in H; destruct H as [H ?]). repeat split; assumption. }
  destruct s as [| c s].
  - simpl. destruct rest as [| c r]; [reflexivity |]. simpl.
    destruct (Hc c r eq_refl) as (_ & He & HE & _ & _). rewrite He, HE. reflexivity.
  - simpl. destruct (Ascii.eqb c "e" || Ascii.eqb c "E"); [| reflexivity].
    destruct s as [| g s0].
    + simpl. destruct rest as [| g r]; [reflexivity |].
      destruct (Hc g r eq_refl) as (Hd & _ & _ & Hm & Hp). rewrite Hp, Hm. simpl.
      rewrite Hd. reflexivity.
    + simpl. destruct (Ascii.eqb g "+" || Ascii.eqb g "-").
      * rewrite (span_digits_app s0 rest H). destruct (span_digits s0) as [ep r2].
        simpl. destruct ep; reflexivity.
      * change (String g (s0 ++ rest)) with (String g s0 ++ rest).
        rewrite (span_digits_app (String g s0) rest H).
        destruct (span_digits (String g s0)) as [ep r2].
        simpl. destruct ep; reflexivity.
Qed.

(** A number token followed by something that ends it scans to the same
    value, with that something left over. *)
Lemma scan_number_app (s rest : string) (v : json) (r : string) :
  ends_number rest = true ->
  Json.scan_number s = Some (v, r) ->
  Json.scan_number (s ++ rest) = Some (v, r ++ rest).
Proof.
  intros H. rewrite !scan_number_stages.
  rewrite (sign_stage_app s rest H). destruct (sign_stage s) as [neg s1]. simpl.
  rewrite (int_stage_app s1 rest H). destruct (int_stage s1) as [ip s2]. simpl.
  destruct ip as [| c ip]; [discriminate |].
  rewrite (frac_stage_app s2 rest H). destruct (frac_stage s2) as [frac s3]. simpl.
  rewrite (exp_stage_app s3 rest H). destruct (exp_stage s3) as [ex s4]. simpl.
  intros E. injection E as <- <-. reflexivity.
Qed.

(** *** Printing and scanning an int *)


Lemma uint_all_digits (d : Decimal.uint) :
  span_digits (NilEmpty.string_of_uint d) = (NilEmpty.string_of_uint d, EmptyString).
Proof. induction d; simpl; try rewrite IHd; reflexivity. Qed.

Ltac eval_digit :=
  match goal with
  | |- context [Z.of_N ?e] =>
      let v := eval vm_compute in (Z.of_N e) in change (Z.of_N e) with v
  end.

Lemma digits_value_from_uint (d : Decimal.uint) (acc : positive) :
  digits_value_from (Z.pos acc) (NilEmpty.string_of_uint d)
  = Z.pos (Pos.of_uint_acc d acc).
Proof.
  revert acc. induction d; intros acc;
    cbn [NilEmpty.string_of_uint digits_value_from Pos.of_uint_acc];
    try reflexivity;
    rewrite <- IHd; f_equal; eval_digit; lia.
Qed.

Lemma digits_value_uint (d : Decimal.uint) :
  digits_value (NilEmpty.string_of_uint d) = Z.of_N (Pos.of_uint d).
Proof.
  unfold digits_value. induction d;
    cbn [NilEmpty.string_of_uint digits_value_from Pos.of_uint Z.of_N];
    try reflexivity;
    try (eval_digit; exact IHd);
    rewrite <- digits_value_from_uint; f_equal.
Qed.

Lemma to_uint_no_leading_zero (p : positive) (l : Decimal.uint) :
  Pos.to_uint p <> Decimal.D0 l.
Proof.
  intros E.
  assert (Hn : Decimal.unorm (Pos.to_uint p) = Pos.to_uint p).
  { rewrite <- DecimalPos.Unsigned.to_of, DecimalPos.Unsigned.of_to. reflexivity. }
  rewrite E in Hn. unfold Decimal.unorm in Hn. simpl in Hn.
  destruct (Decimal.nzhead l) eqn:Hz; try discriminate Hn.
  - injection Hn as <-. exact (DecimalPos.Unsigned.to_uint_nonzero p E).
  - exact (DecimalFacts.nzhead_nonzero l _ Hz).
Qed.

Lemma scan_number_pos (p : positive) :
  Json.scan_number (NilEmpty.string_of_uint (Pos.to_uint p))
  = Some (JInt (Z.pos p), EmptyString)
  /\ exists c r, NilEmpty.string_of_uint (Pos.to_uint p) = String c r
                 /\ is_digit c = true.
Proof.
  pose proof (to_uint_no_leading_zero p) as Hz.
  pose proof (DecimalPos.Unsigned.to_uint_nonnil p) as Hnil.
  pose proof (DecimalPos.Unsigned.of_to p) as Hof.
  pose proof (digits_value_uint (Pos.to_uint p)) as Hv.
  pose proof (uint_all_digits (Pos.to_uint p)) as Hd.
  rewrite Hof in Hv.
  destruct (Pos.to_uint p) as [| l | l | l | l | l | l | l | l | l | l];
    try (exfalso; apply Hnil; reflexivity);
    try (exfalso; apply (Hz l); reflexivity).
  all: split; [| eexists; eexists; split; [reflexivity | reflexivity]].
  all: cbn [NilEmpty.string_of_uint] in *.
  all: rewrite scan_number_stages; cbn [sign_stage Ascii.eqb Bool.eqb].
  all: unfold int_stage; rewrite Hd.
  all: destruct (NilEmpty.string_of_uint l) eqn:El;
       cbn [Ascii.eqb Bool.eqb frac_stage exp_stage number_of_stages];
       rewrite Hv; reflexivity.
Qed.

Lemma string_of_uint_pos (p : positive) :
  NilZero.string_of_uint (Pos.to_uint p) = NilEmpty.string_of_uint (Pos.to_uint p).
Proof.
  destruct (Pos.to_uint p) eqn:E;
    try (exfalso; exact (DecimalPos.Unsigned.to_uint_nonnil p E)); reflexivity.
Qed.

Lemma scan_number_int (n : Z) :
  Json.scan_number (str_of_int n) = Some (JInt n, EmptyString).
Proof.
  destruct n as [| p | p]; unfold str_of_int; simpl.
  - reflexivity.
  - rewrite string_of_uint_pos. apply scan_number_pos.
  - rewrite string_of_uint_pos.
    destruct (scan_number_pos p) as [Hs (c & r & Hc & Hd)].
    rewrite scan_number_stages in *. rewrite Hc in *.
    cbn [sign_stage Ascii.eqb Bool.eqb].
    assert (Hm : Ascii.eqb c "-" = false).
    { destruct c as [[] [] [] [] [] [] [] []]; try reflexivity; discriminate Hd. }
    cbn [sign_stage] in Hs. rewrite Hm in Hs.
    destruct (int_stage (String c r)) as [ip s2].
    destruct ip; [discriminate |].
    destruct (frac_stage s2) as [frac s3]. destruct (exp_stage s3) as [ex s4].
    injection Hs as Hv <-.
    unfold number_of_stages in *. destruct frac, ex; try discriminate Hv.
    injection Hv as ->. reflexivity.
Qed.


Lemma span_digits_head (s ds r : string) :
  span_digits s = (ds, r) -> ds <> EmptyString ->
  match s with String c _ => is_digit c = true | EmptyString => False end.
Proof.
  destruct s as [| c s]; simpl.
  - intros E. injection E as <- <-. intros H. now apply H.
  - destruct (is_digit c); [reflexivity |].
    intros E. injection E as <- <-. intros H. now exfalso.
Qed.

Lemma scan_number_head (s : string) (v : json) (r : string) :
  Json.scan_number s = Some (v, r) -> number_head s = true.
Proof.
  rewrite scan_number_stages.
  assert (Hint : forall s1 ip s2, int_stage s1 = (ip, s2) -> ip <> EmptyString ->
            match s1 with String c _ => is_digit c = true | EmptyString => False end).
  { intros s1 ip s2. unfold int_stage. destruct (span_digits s1) as [ds rr] eqn:E.
    intros Hi Hne. apply (span_digits_head s1 ds rr E).
    destruct ds as [| c [| c' r']]; try discriminate.
    - injection Hi as <- <-. exact Hne. }
  destruct s as [| c s]; [discriminate |].
  cbn [sign_stage]. destruct (Ascii.eqb c "-") eqn:Em.
  - destruct (int_stage s) as [ip s2] eqn:Ei.
    destruct ip as [| x ip]; [discriminate |]. intros _.
    pose proof (Hint s _ _ Ei ltac:(discriminate)) as H.
    destruct s as [| c' s']; [contradiction |].
    cbn [number_head]. rewrite Em, H. apply orb_true_r.
  - destruct (int_stage (String c s)) as [ip s2] eqn:Ei.
    destruct ip as [| x ip]; [discriminate |]. intros _.
    pose proof (Hint _ _ _ Ei ltac:(discriminate)) as H.
    cbn [number_head]. now rewrite H.
Qed.

Lemma scan_value_number (f : nat) (s : string) :
  number_head s = true -> Json.scan_value (S f) s = Json.scan_number s.
Proof.
  destruct s as [| c r]; [discriminate |].
  destruct c as [[] [] [] [] [] [] [] []]; try discriminate;
    try (intros _; reflexivity).
  cbn [number_head is_digit code N_of_ascii N_of_digits]. 
  destruct r as [| c' r']; [discriminate |].
  destruct c' as [[] [] [] [] [] [] [] []]; try discriminate;
    intros _; reflexivity.
Qed.

(** *** Printing and scanning a string *)

Lemma scan_string_escape_char (c : ascii) (tail : string) :
  Json.scan_string (Json.escape_char c ++ tail)
  = match Json.scan_string tail with
    | Some (t, rest) => Some (String c t, rest)
    | None => None
    end.
Proof.
  destruct c as [[] [] [] [] [] [] [] []]; reflexivity.
Qed.

Lemma scan_string_escape (s rest : string) :
  Json.scan_string (Json.escape s ++ String dquote rest) = Some (s, rest).
Proof.
  induction s as [| c s IH].
  - reflexivity.
  - cbn [Json.escape]. rewrite append_assoc, scan_string_escape_char, IH.
    reflexivity.
Qed.

Lemma scan_value_string (f : nat) (s rest : string) :
  Json.scan_value (S f) (Json.quote s ++ rest) = Some (JStr s, rest).
Proof.
  unfold Json.quote. rewrite !append_assoc.
  change (chr dquote ++ ?x) with (String dquote x).
  cbn -[Json.scan_string Json.escape]. 
  change (chr dquote ++ rest) with (String dquote rest).
  rewrite scan_string_escape. reflexivity.
Qed.

(** *** Induction over nested values *)

Lemma json_induction (P : json -> Prop)
    (Hnull : P JNull) (Hbool : forall b, P (JBool b)) (Hint : forall n, P (JInt n))
    (Hfloat : forall lit, P (JFloat lit)) (Hstr : forall s, P (JStr s))
    (Hlist : forall l, Forall P l -> P (JList l))
    (Hdict : forall d, Forall (fun kv => P (snd kv)) d -> P (JDict d)) :
  forall v, P v.
Proof.
  refine (fix IH (v : json) : P v :=
    match v with
    | JNull => Hnull
    | JBool b => Hbool b
    | JInt n => Hint n
    | JFloat lit => Hfloat lit
    | JStr s => Hstr s
    | JList l =>
        Hlist l ((fix go (l : list json) : Forall P l :=
                    match l with
                    | [] => Forall_nil _
                    | x :: r => Forall_cons _ (IH x) (go r)
                    end) l)
    | JDict d =>
        Hdict d ((fix go (d : list (string * json)) : Forall (fun kv => P (snd kv)) d :=
                    match d with
                    | [] => Forall_nil _
                    | kv :: r => Forall_cons _ (IH (snd kv)) (go r)
                    end) d)
    end).
Qed.




Lemma number_head_value_head (s : string) :
  number_head s = true -> value_head s.
Proof.
  destruct s as [| c r]; [discriminate |]. intros H.
  exists c, r. split; [reflexivity |].
  destruct c as [[] [] [] [] [] [] [] []]; try discriminate H; repeat split.
Qed.

Lemma scan_value_space (f : nat) (s : string) :
  Json.scan_value f (String " " s) = Json.scan_value f s.
Proof. destruct f; reflexivity. Qed.

Lemma scan_elements_space (f : nat) (s : string) :
  Json.scan_elements f (String " " s) = Json.scan_elements f s.
Proof.
  destruct f; [reflexivity |].
  cbn [Json.scan_elements]. rewrite scan_value_space. reflexivity.
Qed.

Lemma scan_members_space (f : nat) (acc : dict) (s : string) :
  Json.scan_members f acc (String " " s) = Json.scan_members f acc s.
Proof. destruct f; reflexivity. Qed.

(** *** Arrays *)

Lemma scan_elements_text (l : list json) :
  l <> [] -> Forall scans l ->
  forall (f : nat) (rest : string),
    (fold_right (fun x n => S (cost x + n)) O l <= f)%nat ->
    Json.scan_elements f (join ", " (map Json.dumps l) ++ String "]" rest)
    = Some (l, rest).
Proof.
  induction l as [| x l IH]; [contradiction |].
  intros _ Hall f rest Hf. inversion Hall as [| ? ? Hx Hl]; subst.
  destruct f as [| f]; [cbn in Hf; lia |].
  cbn [fold_right] in Hf.
  destruct l as [| y l'].
  - cbn [map join Json.scan_elements].
    rewrite (Hx f (String "]" rest)); [| cbn in Hf; lia | reflexivity].
    reflexivity.
  - change (join ", " (map Json.dumps (x :: y :: l')))
      with (Json.dumps x ++ String "," (String " " (join ", " (map Json.dumps (y :: l'))))).
    rewrite append_assoc.
    cbn [Json.scan_elements].
    change (String "," (String " " (join ", " (map Json.dumps (y :: l')))) ++ String "]" rest)
      with (String "," (String " " (join ", " (map Json.dumps (y :: l')) ++ String "]" rest))).
    rewrite (Hx f _); [| lia | reflexivity].
    cbn [Json.skip_ws Json.is_ws]. 
    change (Json.is_ws ",") with false. cbn iota.
    change (Ascii.eqb "," ",") with true. cbn iota.
    rewrite scan_elements_space.
    rewrite (IH ltac:(discriminate) Hl f rest); [reflexivity |].
    cbn [fold_right] in *. lia.
Qed.

(** *** Objects *)


Lemma scan_members_step (f : nat) (acc : dict) (k s : string) :
  Json.scan_members (S f) acc
    (String dquote (Json.escape k ++ String dquote (String ":" s)))
  = match Json.scan_value f s with
    | Some (v, r3) =>
        match Json.skip_ws r3 with
        | String c' r4 =>
            if Ascii.eqb c' "," then Json.scan_members f (dict_set k v acc) r4
            else if Ascii.eqb c' "}" then Some (dict_set k v acc, r4)
            else None
        | EmptyString => None
        end
    | None => None
    end.
Proof.
  cbn -[Json.scan_string Json.scan_value Json.escape].
  rewrite scan_string_escape.
  cbn -[Json.scan_string Json.scan_value Json.escape].
  reflexivity.
Qed.

Lemma member_text_shape (kv : string * json) (tail : string) :
  member_text kv ++ tail
  = String dquote (Json.escape (fst kv)
      ++ String dquote (String ":" (String " " (Json.dumps (snd kv) ++ tail)))).
Proof.
  unfold member_text, Json.quote. rewrite !append_assoc. reflexivity.
Qed.


Lemma scan_members_text (d : dict) :
  d <> [] -> Forall (fun kv => scans (snd kv)) d ->
  forall (f : nat) (acc : dict) (rest : string),
    (fold_right (fun kv n => S (cost (snd kv) + n)) O d <= f)%nat ->
    Json.scan_members f acc (join ", " (map member_text d) ++ String "}" rest)
    = Some (set_all d acc, rest).
Proof.
  induction d as [| kv d IH]; [contradiction |].
  intros _ Hall f acc rest Hf. inversion Hall as [| ? ? Hx Hl]; subst.
  destruct f as [| f]; [cbn in Hf; lia |].
  cbn [fold_right] in Hf.
  destruct d as [| kv' d'].
  - cbn [map join]. rewrite member_text_shape, scan_members_step, scan_value_space.
    rewrite (Hx f (String "}" rest)); [| cbn in Hf; lia | reflexivity].
    reflexivity.
  - change (join ", " (map member_text (kv :: kv' :: d')))
      with (member_text kv ++ String "," (String " " (join ", " (map member_text (kv' :: d'))))).
    rewrite append_assoc, member_text_shape, scan_members_step, scan_value_space.
    change (String "," (String " " (join ", " (map member_text (kv' :: d')))) ++ String "}" rest)
      with (String "," (String " " (join ", " (map member_text (kv' :: d')) ++ String "}" rest))).
    rewrite (Hx f _); [| lia | reflexivity].
    cbn [Json.skip_ws]. change (Json.is_ws ",") with false. cbn iota.
    change (Ascii.eqb "," ",") with true. cbn iota.
    rewrite scan_members_space.
    rewrite (IH ltac:(discriminate) Hl f _ rest); [reflexivity |].
    cbn [fold_right] in *. lia.
Qed.

Lemma dict_set_fresh (k : string) (v : json) (acc : dict) :
  existsb (String.eqb k) (map fst acc) = false ->
  dict_set k v acc = (acc ++ [(k, v)])%list.
Proof.
  induction acc as [| [k' v'] acc IH]; [reflexivity |].
  cbn. intros H. apply orb_false_iff in H. destruct H as [H1 H2].
  rewrite H1. now rewrite IH.
Qed.

Lemma unique_keys_app_cons (ks : list string) (k : string) (r : list string) :
  unique_keys (ks ++ k :: r) = true ->
  existsb (String.eqb k) ks = false /\ unique_keys ((ks ++ [k]) ++ r) = true.
Proof.
  intros H. rewrite <- List.app_assoc. split; [| exact H].
  induction ks as [| x ks IH]; [reflexivity |].
  cbn in H. apply andb_true_iff in H. destruct H as [Hx Hr].
  cbn. rewrite (IH Hr), orb_false_r.
  apply negb_true_iff in Hx. rewrite existsb_app in Hx.
  apply orb_false_iff in Hx. destruct Hx as [_ Hx]. cbn in Hx.
  apply orb_false_iff in Hx. destruct Hx as [Hx _].
  rewrite String.eqb_sym. exact Hx.
Qed.

Lemma set_all_unique (d acc : dict) :
  unique_keys (map fst (acc ++ d)) = true -> set_all d acc = (acc ++ d)%list.
Proof.
  revert acc. induction d as [| [k v] d IH]; intros acc H.
  - cbn. now rewrite List.app_nil_r.
  - cbn [set_all fold_left fst snd].
    pose proof H as H'.
    rewrite List.map_app in H'. cbn [map fst] in H'.
    destruct (unique_keys_app_cons _ _ _ H') as [Hk _].
    rewrite (dict_set_fresh k v acc Hk).
    change (fold_left _ d ?a) with (set_all d a).
    rewrite IH.
    + now rewrite <- List.app_assoc.
    + rewrite <- List.app_assoc. exact H.
Qed.

(** *** Values *)

Lemma is_float_token_cases (lit : string) :
  is_float_token lit = true ->
  lit = "nan" \/ lit = "inf" \/ lit = "-inf"
  \/ (Json.scan_number lit = Some (JFloat lit, EmptyString)
      /\ Json.dumps_float lit = lit).
Proof.
  unfold is_float_token, Json.dumps_float.
  destruct (String.eqb_spec lit "nan"); [auto |].
  destruct (String.eqb_spec lit "inf"); [auto |].
  destruct (String.eqb_spec lit "-inf"); [auto |].
  cbn [orb]. destruct (Json.scan_number lit) as [[[] r] |]; try discriminate.
  destruct r; try discriminate.
  destruct (String.eqb_spec lit0 lit); [| discriminate]. subst. auto.
Qed.

Lemma scan_value_list_open (f : nat) (c : ascii) (r : string) :
  Json.is_ws c = false -> Ascii.eqb c "]" = false ->
  Json.scan_value (S f) (String "[" (String c r))
  = match Json.scan_elements f (String c r) with
    | Some (l, rest) => Some (JList l, rest)
    | None => None
    end.
Proof.
  intros Hws Hc.
  cbn -[Json.scan_elements]. rewrite Hws, Hc. reflexivity.
Qed.

Lemma scan_value_dict_open (f : nat) (r : string) :
  Json.scan_value (S f) (String "{" (String dquote r))
  = match Json.scan_members f [] (String dquote r) with
    | Some (d, rest) => Some (JDict d, rest)
    | None => None
    end.
Proof. reflexivity. Qed.

Lemma value_head_app (s t : string) : value_head s -> value_head (s ++ t).
Proof.
  intros (c & r & -> & H). exists c, (r ++ t). split; [reflexivity | exact H].
Qed.

Lemma dumps_head (v : json) :
  well_formed v = true -> value_head (Json.dumps v).
Proof.
  destruct v as [| [] | n | lit | s | l | d]; intros Hwf;
    try (eexists; eexists; split; [reflexivity | repeat split]).
  - apply number_head_value_head.
    exact (scan_number_head _ _ _ (scan_number_int n)).
  - cbn [well_formed] in Hwf. cbn [Json.dumps].
    destruct (is_float_token_cases lit Hwf) as [-> | [-> | [-> | [Hs ->]]]];
      try (eexists; eexists; split; [reflexivity | repeat split]).
    apply number_head_value_head. exact (scan_number_head _ _ _ Hs).
Qed.

Lemma forallb_Forall {A : Type} (p : A -> bool) (P : A -> Prop) (l : list A) :
  Forall (fun x => p x = true -> P x) l -> forallb p l = true -> Forall P l.
Proof.
  induction 1 as [| x l Hx Hl IH]; [constructor |].
  cbn. intros H. apply andb_true_iff in H. destruct H as [H1 H2].
  constructor; auto.
Qed.

(** The text of a well-formed value, followed by anything that ends a
    number, scans back to the value. *)
Lemma scan_value_dumps (v : json) :
  well_formed v = true -> scans v.
Proof.
  induction v as [| b | n | lit | s | l IH | d IH] using json_induction;
    intros Hwf f rest Hf Hrest;
    (destruct f as [| f]; [cbn in Hf; lia |]).
  - reflexivity.
  - destruct b; reflexivity.
  - cbn [Json.dumps].
    pose proof (scan_number_app _ rest _ _ Hrest (scan_number_int n)) as Hs.
    rewrite scan_value_number; [exact Hs | exact (scan_number_head _ _ _ Hs)].
  - cbn [well_formed] in Hwf. cbn [Json.dumps].
    destruct (is_float_token_cases lit Hwf) as [-> | [-> | [-> | [Hs ->]]]];
      try reflexivity.
    pose proof (scan_number_app _ rest _ _ Hrest Hs) as Hs'.
    rewrite scan_value_number; [exact Hs' | exact (scan_number_head _ _ _ Hs')].
  - apply scan_value_string.
  - cbn [well_formed] in Hwf.
    pose proof (forallb_Forall _ _ _ IH Hwf) as Hall.
    destruct l as [| x l']; [reflexivity |].
    cbn [Json.dumps]. rewrite !append_assoc.
    change ("[" ++ ?t) with (String "[" t). change ("]" ++ rest) with (String "]" rest).
    assert (Hx : well_formed x = true).
    { cbn in Hwf. apply andb_true_iff in Hwf. tauto. }
    destruct (value_head_app (join ", " (map Json.dumps (x :: l'))) (String "]" rest))
      as (c & r & E & Hws & Hb & _).
    { destruct l' as [| y l''].
      - apply dumps_head; exact Hx.
      - change (join ", " (map Json.dumps (x :: y :: l'')))
          with (Json.dumps x ++ String "," (String " " (join ", " (map Json.dumps (y :: l'')))))%string.
        apply value_head_app, dumps_head; exact Hx. }
    rewrite E, (scan_value_list_open f c r Hws Hb), <- E.
    rewrite (scan_elements_text (x :: l') ltac:(discriminate) Hall f rest);
      [reflexivity |].
    cbn [cost] in Hf. lia.
  - cbn [well_formed] in Hwf. apply andb_true_iff in Hwf.
    destruct Hwf as [Hkeys Hwf].
    assert (Hall : Forall (fun kv => scans (snd kv)) d).
    { clear Hkeys Hf. induction IH as [| kv d Hx Hl IHd]; [constructor |].
      cbn in Hwf. apply andb_true_iff in Hwf. destruct Hwf as [H1 H2].
      constructor; auto. }
    destruct d as [| kv d']; [reflexivity |].
    cbn [Json.dumps]. rewrite !append_assoc.
    change ("{" ++ ?t) with (String "{" t). change ("}" ++ rest) with (String "}" rest).
    change (fun kv0 : string * json => Json.quote (fst kv0) ++ ": " ++ Json.dumps (snd kv0))
      with member_text.
    assert (E : exists r, join ", " (map member_text (kv :: d')) ++ String "}" rest
                          = String dquote r).
    { destruct d' as [| kv' d''].
      - cbn [map join]. rewrite member_text_shape. eexists. reflexivity.
      - change (join ", " (map member_text (kv :: kv' :: d'')))
          with (member_text kv ++ String "," (String " " (join ", " (map member_text (kv' :: d'')))))%string.
        rewrite append_assoc, member_text_shape. eexists. reflexivity. }
    destruct E as [r E]. rewrite E, scan_value_dict_open, <- E.
    rewrite (scan_members_text (kv :: d') ltac:(discriminate) Hall f [] rest).
    + rewrite (set_all_unique (kv :: d') [] Hkeys). reflexivity.
    + cbn [cost] in Hf. lia.
Qed.

(** *** Enough fuel *)

Lemma length_append (a b : string) :
  String.length (a ++ b) = (String.length a + String.length b)%nat.
Proof. induction a as [| c a IH]; simpl; [reflexivity | now rewrite IH]. Qed.

Lemma cost_of_join {A : Type} (text : A -> string) (weight : A -> nat) (l : list A) :
  Forall (fun x => (weight x <= 2 * String.length (text x) + 2)%nat) l ->
  (fold_right (fun x n => S (weight x + n)) O l
   <= 2 * String.length (join ", " (map text l)) + 3)%nat.
Proof.
  induction 1 as [| x l Hx Hl IH]; [cbn; lia |].
  cbn [fold_right]. destruct l as [| y l'].
  - cbn [map join fold_right]. lia.
  - change (join ", " (map text (x :: y :: l')))
      with (text x ++ String "," (String " " (join ", " (map text (y :: l'))))).
    rewrite length_append. cbn [String.length]. lia.
Qed.

Lemma cost_bound (v : json) :
  (cost v <= 2 * String.length (Json.dumps v) + 2)%nat.
Proof.
  induction v as [| b | n | lit | s | l IH | d IH] using json_induction;
    try (cbn [cost]; lia).
  - cbn [cost Json.dumps]. pose proof (cost_of_join Json.dumps cost l IH) as H.
    rewrite !length_append. cbn [String.length]. lia.
  - cbn [cost Json.dumps].
    change (fun kv0 : string * json => Json.quote (fst kv0) ++ ": " ++ Json.dumps (snd kv0))
      with member_text.
    assert (H : Forall (fun kv => (cost (snd kv) <= 2 * String.length (member_text kv) + 2)%nat) d).
    { induction IH as [| kv d Hx Hl IHd]; constructor; [| exact IHd].
      unfold member_text. rewrite !length_append. lia. }
    pose proof (cost_of_join member_text (fun kv => cost (snd kv)) d H) as H'.
    rewrite !length_append. cbn [String.length]. lia.
Qed.

(** [json.loads(json.dumps(v)) == v] for every well-formed value. *)
Lemma loads_dumps (v : json) :
  well_formed v = true -> Json.loads (Json.dumps v) = Return v.
Proof.
  intros Hwf. unfold Json.loads.
  pose proof (scan_value_dumps v Hwf (2 * String.length (Json.dumps v) + 2)%nat
                EmptyString (cost_bound v) eq_refl) as H.
  rewrite append_nil_r in H. rewrite H. reflexivity.
Qed.


(** *** Requests decode to what was built *)

Lemma envelope_well_formed (op : operation) :
  well_formed (build_envelope op) = true.
Proof.
  destruct op as [s | i | p | | ps | l sub]; try reflexivity.
  unfold build_envelope, get_reddit_posts_payload.
  destruct (given sub); reflexivity.
Qed.

(** The [Payload] a method hands to [invoke] is a JSON document, and
    decoding it gives back the payload dict the method built, field for
    field. *)
Theorem request_decodes_to_envelope (op : operation) :
  Json.loads (request op) = Return (build_envelope op).
Proof. unfold request. apply loads_dumps, envelope_well_formed. Qed.

(** The envelope's [body] is JSON text inside JSON text: decoding it a
    second time gives back the summary fields or the batch of posts that
    went in, and a method without data sends [null]. *)
Theorem body_decodes_to_data (op : operation) :
  match body_data op with
  | Some data =>
      well_formed data = true ->
      exists text,
        body_of (build_envelope op) = Some (JStr text) /\
        json_loads (JStr text) = Return data
  | None => body_of (build_envelope op) = Some JNull
  end.
Proof.
  destruct op as [s | i | p | | ps | l sub]; cbn [body_data];
    try reflexivity.
  - intros Hwf. eexists. split; [reflexivity |].
    cbn [json_loads]. apply loads_dumps, Hwf.
  - intros Hwf. eexists. split; [reflexivity |].
    cbn [json_loads]. apply loads_dumps, Hwf.
Qed.

Lemma body_decodes_witness :
  well_formed (JDict [("posts", JList (map post_dict [Stub.post1]))]) = true /\
  exists text,
    body_of (build_envelope (SaveRedditPosts [Stub.post1])) = Some (JStr text) /\
    json_loads (JStr text)
    = Return (JDict [("posts", JList (map post_dict [Stub.post1]))]).
Proof.
  assert (H : well_formed (JDict [("posts", JList (map post_dict [Stub.post1]))]) = true)
    by (vm_compute; reflexivity).
  split; [exact H |].
  exact (body_decodes_to_data (SaveRedditPosts [Stub.post1]) H).
Defined.


(* ================================================================== *)
(** ** Queued jobs                                                     *)
(* ================================================================== *)

Lemma run_each_app {W A : Type} (body : A -> M W unit) (l l' : list A) (w : W) :
  run_each body (l ++ l') w
  = match run_each body l w with
    | (Return _, w') => run_each body l' w'
    | (Raise e, w') => (Raise e, w')
    end.
Proof.
  revert w. induction l as [| x l IH]; intros w.
  - reflexivity.
  - cbn [app run_each]. unfold mbind.
    destruct (body x w) as [[[] | e] w1]; [apply IH | reflexivity].
Qed.

Lemma substring_length (n : nat) (s : string) :
  String.length (String.substring 0 n s) = Nat.min n (String.length s).
Proof.
  revert s. induction n as [| n IH]; intros [| c s]; cbn; try reflexivity.
  now rewrite IH.
Qed.

Lemma substring_prefix (n : nat) (s : string) :
  String.prefix (String.substring 0 n s) s = true.
Proof.
  revert s. induction n as [| n IH]; intros [| c s]; cbn; try reflexivity.
  rewrite IH. destruct (ascii_dec c c); [reflexivity | contradiction].
Qed.

Section Jobs.

Variable W : Type.
Variable lambda_invoke : string -> string -> W -> reply * W.
Variable utcnow : W -> datetime.
Variable pydantic_datetime : json -> option datetime.
Variable HUGGINGFACE_API_TOKEN : option string.
Variable pydantic_int : json -> option Z.

Import BackgroundProcessor SummarizerJobs.

Let handler : json -> W -> json * W :=
  lambda_handler W lambda_invoke utcnow pydantic_datetime HUGGINGFACE_API_TOKEN
    pydantic_int.

Let create (s : StorySummaryCreate.t) : M W StorySummary.t :=
  create_story_summary W lambda_invoke utcnow pydantic_datetime s.

(** A record whose body is a queued job message makes the handler build
    the summary of that job and post and hand it to
    [create_story_summary]. *)
Lemma process_queued_record
    (record : dict) (job_id : string) (post_id : Z) (timestamp : string)
    (token : string) (w : W) :
  given HUGGINGFACE_API_TOKEN = Some token ->
  dict_get "body" record
    = Some (JStr (Json.dumps (job_message job_id post_id timestamp))) ->
  process_record W lambda_invoke utcnow pydantic_datetime HUGGINGFACE_API_TOKEN
    pydantic_int (JDict record) w
  = match create (job_summary (JStr job_id) post_id) w with
    | (Return _, w') => (Return tt, w')
    | (Raise e, w') => (Raise e, w')
    end.
Proof.
  subst create. intros Htoken Hbody.
  unfold process_record, process_summary, store_summary_in_database,
    call_huggingface_api, mbind, mlift, mret.
  cbn [py_getitem]. rewrite Hbody. cbn [json_loads].
  rewrite (loads_dumps (job_message job_id post_id timestamp) eq_refl).
  cbn [job_message py_getitem dict_get String.eqb Ascii.eqb Bool.eqb].
  rewrite Htoken. cbn [StorySummaryCreate_init].
  change (StorySummaryCreate.mk post_id _ _ _ _ _)
    with (job_summary (JStr job_id) post_id).
  destruct (create_story_summary W lambda_invoke utcnow pydantic_datetime
              (job_summary (JStr job_id) post_id) w) as [[stored | e] w'];
    reflexivity.
Qed.

(** From the endpoint to the data service.  [POST /generate/from-post]
    answers "pending" with the job id it put on the queue; and when the
    queued message reaches [lambda_handler], the handler makes one
    [create_story_summary] call, for that post and that job id, and reports
    200 or 500 as the call returns or raises. *)
Theorem queued_job_reaches_data_service
    (job_id : string) (post_id : Z) (clock : list string -> datetime)
    (token : string) (w : W) :
  given HUGGINGFACE_API_TOKEN = Some token ->
  let queued :=
    generate_summary_from_post (list string)
      (fun sent => (job_id, sent))
      (fun _ body sent => (Return tt, (sent ++ [body])%list))
      clock post_id [] in
  fst queued
  = Return (JDict [("job_id", JStr job_id);
                   ("status", JStr "pending");
                   ("message", JStr "Summary generation started");
                   ("post_id", JInt post_id)]) /\
  handler (sqs_event (snd queued)) w
  = match create (job_summary (JStr job_id) post_id) w with
    | (Return _, w') => (completed, w')
    | (Raise e, w') => (errored e, w')
    end.
Proof.
  subst handler. intros Htoken. cbv zeta. split; [reflexivity |].
  cbn [generate_summary_from_post snd app].
  unfold lambda_handler, sqs_event.
  cbn [map py_get dict_get String.eqb Ascii.eqb Bool.eqb obind py_iter run_each].
  unfold mbind at 1.
  rewrite (process_queued_record
             [("body", JStr (Json.dumps (job_message job_id post_id
                                           (isoformat (clock [])))))]
             job_id post_id (isoformat (clock [])) token w Htoken eq_refl).
  destruct (create (job_summary (JStr job_id) post_id) w) as [[stored | e] w'];
    reflexivity.
Qed.

(** Records are processed in order and the batch stops at the first one
    that fails: when the handler reports an error for some records, it
    reports the same error, in the same world, however many records follow
    them; when it reports completion, the records that follow are processed
    from where it stopped. *)
Theorem batch_stops_at_first_failure (rs rs' : list json) (w : W) :
  let event (l : list json) := JDict [("Records", JList l)] in
  handler (event (rs ++ rs')%list) w
  = if succeeded (fst (handler (event rs) w))
    then handler (event rs') (snd (handler (event rs) w))
    else handler (event rs) w.
Proof.
  subst handler. cbv zeta. unfold lambda_handler.
  cbn [py_get dict_get String.eqb Ascii.eqb Bool.eqb obind py_iter].
  rewrite run_each_app.
  destruct (run_each _ rs w) as [[[] | e] w1]; reflexivity.
Qed.

(** Without the API token no record reaches the data service: the
    handler leaves the world as it found it, whatever the event, and a
    batch that starts with a queued job is reported as an error. *)
Theorem no_token_no_invocation
    (event : json) (job_id : string) (post_id : Z) (timestamp : string)
    (bodies : list string) (w : W) :
  given HUGGINGFACE_API_TOKEN = None ->
  snd (handler event w) = w /\
  fst (handler
         (sqs_event (Json.dumps (job_message job_id post_id timestamp) :: bodies)) w)
  = errored (PyExc Exception_ "HUGGINGFACE_API_TOKEN not found").
Proof.
  subst handler. intros Htoken.
  assert (Hrec : forall r w0,
            exists e,
              process_record W lambda_invoke utcnow pydantic_datetime
                HUGGINGFACE_API_TOKEN pydantic_int r w0 = (Raise e, w0)).
  { intros r w0.
    unfold process_record, process_summary, call_huggingface_api, mbind, mlift.
    rewrite Htoken.
    destruct (py_getitem r "body") as [b | e]; [| eauto].
    destruct (json_loads b) as [body | e]; [| eauto].
    destruct (py_getitem body "job_id") as [j | e]; [| eauto].
    destruct (py_getitem body "post_id") as [p | e]; eauto. }
  split.
  - unfold lambda_handler.
    destruct (records <- py_get event "Records" (JList []);; py_iter records)
      as [items | e]; [| reflexivity].
    destruct items as [| r items]; [reflexivity |].
    cbn [run_each]. unfold mbind at 1.
    destruct (Hrec r w) as [e ->]. reflexivity.
  - unfold lambda_handler, sqs_event.
    cbn [map py_get dict_get String.eqb Ascii.eqb Bool.eqb obind
           py_iter run_each].
    unfold mbind at 1.
    unfold process_record, process_summary, call_huggingface_api, mbind, mlift.
    cbn [py_getitem dict_get String.eqb Ascii.eqb Bool.eqb json_loads].
    rewrite (loads_dumps (job_message job_id post_id timestamp) eq_refl).
    cbn [job_message py_getitem dict_get String.eqb Ascii.eqb Bool.eqb].
    rewrite Htoken. reflexivity.
Qed.

End Jobs.

(** The summary stored for a job is the beginning of the generated
    story, cut at 500 characters.  The story is 110 characters longer than
    the post id and the job id together, so the cut shortens it exactly when
    those two take more than 390 characters. *)
Theorem job_summary_is_truncated_story (job_id : string) (post_id : Z) :
  let s := BackgroundProcessor.job_summary (JStr job_id) post_id in
  String.length (StorySummaryCreate.generated_story s)
  = (110 + String.length (str_of_int post_id) + String.length job_id)%nat /\
  String.length (StorySummaryCreate.summary s)
  = Nat.min 500 (String.length (StorySummaryCreate.generated_story s)) /\
  String.prefix (StorySummaryCreate.summary s)
    (StorySummaryCreate.generated_story s) = true.
Proof.
  cbv zeta. cbn [BackgroundProcessor.job_summary StorySummaryCreate.summary
                   StorySummaryCreate.generated_story].
  split; [| split].
  - unfold BackgroundProcessor.generated_text.
    change (py_str (JInt post_id)) with (str_of_int post_id).
    cbn [py_str]. rewrite !length_append. cbn [String.length]. lia.
  - apply substring_length.
  - apply substring_prefix.
Qed.

(** *** Concrete runs of the queue *)

Lemma queued_job_witness :
  BackgroundProcessor.lambda_handler unit (Stub.always Stub.found42) Stub.clock
    Stub.datetime_of_json (Some "hf_token") (fun _ => None)
    (SummarizerJobs.sqs_event
       (snd (SummarizerJobs.generate_summary_from_post (list string)
               (fun sent => ("job-1", sent))
               (fun _ body sent => (Return tt, (sent ++ [body])%list))
               Stub.clock 42 [])))
    tt
  = (BackgroundProcessor.completed, tt).
Proof.
  rewrite (proj2 (queued_job_reaches_data_service unit (Stub.always Stub.found42)
                    Stub.clock Stub.datetime_of_json (Some "hf_token")
                    (fun _ => None) "job-1" 42 Stub.clock "hf_token" tt eq_refl)).
  vm_compute. reflexivity.
Defined.

Lemma no_token_witness :
  snd (BackgroundProcessor.lambda_handler (list string)
         (Stub.recording Stub.found42) Stub.clock Stub.datetime_of_json None
         (fun _ => None)
         (JDict [("Records", JList [JDict [("body", JStr "{}")]])]) [])
  = [] /\
  fst (BackgroundProcessor.lambda_handler (list string)
         (Stub.recording Stub.found42) Stub.clock Stub.datetime_of_json None
         (fun _ => None)
         (SummarizerJobs.sqs_event
            [Json.dumps
               (SummarizerJobs.job_message "job-1" 42 "2024-01-01T00:00:00")])
         [])
  = BackgroundProcessor.errored
      (PyExc Exception_ "HUGGINGFACE_API_TOKEN not found").
Proof.
  exact (no_token_no_invocation (list string) (Stub.recording Stub.found42)
           Stub.clock Stub.datetime_of_json None (fun _ => None)
           (JDict [("Records", JList [JDict [("body", JStr "{}")]])])
           "job-1" 42 "2024-01-01T00:00:00" [] [] eq_refl).
Defined.


(* ================================================================== *)
(** ** The summarizer's repository                                      *)
(* ================================================================== *)

(** [SummaryRepository] adds nothing to the client it calls: [create]
    gives or raises what [create_story_summary] gives or raises, and the two
    readers give what the client's readers give.  Their [except] clause,
    which would answer None, is never entered, because the client's readers
    have already turned every failure into None. *)
Theorem summary_repository_adds_nothing
    (W : Type) (lambda_invoke : string -> string -> W -> reply * W)
    (utcnow : W -> datetime) (pydantic_datetime : json -> option datetime)
    (summary : StorySummaryCreate.t) (n : Z) (w : W) :
  SummaryRepository.create W lambda_invoke utcnow pydantic_datetime summary w
  = create_story_summary W lambda_invoke utcnow pydantic_datetime summary w /\
  SummaryRepository.get_by_id W lambda_invoke utcnow pydantic_datetime n w
  = get_story_summary_by_id W lambda_invoke utcnow pydantic_datetime n w /\
  SummaryRepository.get_by_post_id W lambda_invoke utcnow pydantic_datetime n w
  = get_story_summary_by_post_id W lambda_invoke utcnow pydantic_datetime n w.
Proof.
  split; [| split].
  - unfold SummaryRepository.create.
    destruct (create_story_summary _ _ _ _ summary w) as [[r | e] w'];
      reflexivity.
  - unfold SummaryRepository.get_by_id, get_story_summary_by_id.
    destruct (lambda_invoke _ _ w) as [r w'].
    destruct (get_summary_never_raises pydantic_datetime (utcnow w')
                (wait_for SummarizerLambdaClient.timeout_seconds r)) as [v ->].
    reflexivity.
  - unfold SummaryRepository.get_by_post_id, get_story_summary_by_post_id.
    destruct (lambda_invoke _ _ w) as [r w'].
    destruct (get_summary_never_raises pydantic_datetime (utcnow w')
                (wait_for SummarizerLambdaClient.timeout_seconds r)) as [v ->].
    reflexivity.
Qed.


(* ================================================================== *)
(** ** The reddit service above its client                             *)
(* ================================================================== *)

Lemma dict_set_keys (k : string) (v : json) (d : dict) (s : string) :
  In s (map fst (dict_set k v d)) <-> s = k \/ In s (map fst d).
Proof.
  induction d as [| [k' v'] d IH]; cbn [dict_set map fst In].
  - intuition congruence.
  - destruct (String.eqb_spec k k') as [-> | Hne]; cbn [map fst In].
    + intuition congruence.
    + rewrite IH. intuition congruence.
Qed.

Lemma dict_set_NoDup (k : string) (v : json) (d : dict) :
  NoDup (map fst d) -> NoDup (map fst (dict_set k v d)).
Proof.
  induction d as [| [k' v'] d IH]; cbn [dict_set map fst]; intros Hd.
  - constructor; [intros [] | constructor].
  - inversion Hd as [| ? ? Hnot Hrest]; subst.
    destruct (String.eqb_spec k k') as [-> | Hne]; cbn [map fst].
    + constructor; assumption.
    + constructor; [| apply IH; exact Hrest].
      rewrite dict_set_keys. intros [Heq | Hin]; [congruence | contradiction].
Qed.

Section Reddit.

Variable W : Type.
Variable lambda_invoke : string -> string -> W -> reply * W.
Variable fromisoformat : string -> option datetime.
Variable RedditComment_init : json -> datetime -> outcome RedditComment.t.
Variable FilteredPost_init :
  json -> datetime -> option (list RedditComment.t) -> outcome FilteredPost.t.
Variable RedditPost : Type.
Variable check_subreddit_exists : string -> Svc W bool.
Variable repository_fetch_posts :
  string -> Z -> string -> option datetime -> Svc W (list RedditPost).
Variable from_reddit_post : RedditPost -> W -> outcome FilteredPost.t.
Variable is_valid_post : FilteredPost.t -> bool.

Let save_posts := PostRepository.save_posts W lambda_invoke.
Let fetch_posts :=
  FetcherService.fetch_posts W RedditPost check_subreddit_exists
    repository_fetch_posts.
Let passing :=
  PostProcessorService.convert_and_filter W RedditPost from_reddit_post
    is_valid_post.
Let route :=
  FetcherApi.fetch_and_process_posts W lambda_invoke RedditPost
    check_subreddit_exists repository_fetch_posts from_reddit_post is_valid_post.

(** [save_posts] in terms of the reply to its one request. *)
Lemma save_posts_of_reply (posts : list FilteredPost.t) (w : W) :
  save_posts posts w
  = let (r, w') := lambda_invoke function_name (request (SaveRedditPosts posts)) w in
    (match PostRepository.save_posts_try
             (save_reddit_posts_except (save_reddit_posts_try (blocking r))) with
     | Gave a => Gave a
     | Threw e => Threw (Service DatabaseError ("Failed to save posts: " ++ str_of_raised e))
     end, w').
Proof.
  subst save_posts.
  unfold PostRepository.save_posts, rewrap, save_reddit_posts, request.
  cbn [build_envelope].
  change RedditLambdaClient.data_service_function_name with function_name.
  destruct (lambda_invoke function_name _ w) as [r w'].
  destruct (PostRepository.save_posts_try _); reflexivity.
Qed.

(** The client's result is always one of its two dicts. *)
Lemma save_result_shape (response : outcome string) :
  exists (ok : bool) (key : string) (v : json),
    save_reddit_posts_except (save_reddit_posts_try response)
    = Return (JDict [("success", JBool ok); (key, v)]) /\
    (ok = false -> key = "error").
Proof.
  unfold save_reddit_posts_try, save_reddit_posts_except.
  destruct response as [raw | e]; cbn [obind]; [| eauto 6].
  destruct (Json.loads raw) as [p | e]; cbn [obind]; [| eauto 6].
  destruct (py_get p "statusCode" JNull) as [status | e]; cbn [obind]; [| eauto 6].
  destruct (py_eq_int status 200).
  - destruct (py_get p "body" (JStr EmptyString)) as [b | e]; cbn [obind];
      [exists true | exists false]; eauto.
    exists "message", b. split; [reflexivity | discriminate].
  - destruct (py_get p "body" (JStr "Unknown error")) as [b | e]; cbn [obind];
      eauto 6.
Qed.

(** [save_posts] raises nothing but a [DatabaseError]. *)
Lemma save_posts_cases (posts : list FilteredPost.t) (w : W) :
  fst (save_posts posts w) = Gave tt \/
  exists detail,
    fst (save_posts posts w)
    = Threw (Service DatabaseError ("Failed to save posts: "
             ++ "Failed to save posts via Data Service Lambda: " ++ detail)).
Proof.
  rewrite save_posts_of_reply.
  destruct (lambda_invoke function_name _ w) as [r w']. cbn [fst].
  destruct (save_result_shape (blocking r)) as (ok & key & v & -> & Hkey).
  unfold PostRepository.save_posts_try.
  cbn [obind py_get dict_get String.eqb Ascii.eqb Bool.eqb py_truthy].
  destruct ok; [left; reflexivity | right].
  rewrite (Hkey eq_refl).
  cbn [dict_get String.eqb Ascii.eqb Bool.eqb str_of_raised].
  eexists. reflexivity.
Qed.

(** When the data service answers with a status other than 200, or the
    invocation itself raises, [save_posts] raises a
    [DatabaseError] whose message carries the prefix of the repository,
    then the prefix of its [try] block, then the client's error text: the
    exception raised inside the [try] is caught by the [except] of the same
    method and wrapped a second time. *)
Theorem save_failure_is_database_error (posts : list FilteredPost.t) (w : W) :
  failed (SaveRedditPosts posts)
    (reply_to W lambda_invoke (SaveRedditPosts posts) w) ->
  exists detail,
    save_posts posts w
    = (Threw (Service DatabaseError
                ("Failed to save posts: "
                 ++ "Failed to save posts via Data Service Lambda: " ++ detail)),
       snd (lambda_invoke function_name (request (SaveRedditPosts posts)) w)).
Proof.
  intros Hf. rewrite save_posts_of_reply. unfold reply_to in Hf.
  destruct (lambda_invoke function_name _ w) as [r w']. cbn [fst snd] in *.
  unfold blocking.
  destruct Hf as [n b Ha Hn | e He | Hw _].
  - rewrite (save_try_not_200 _ _ _ Ha Hn).
    exists (py_str (or_default b (JStr "Unknown error"))). reflexivity.
  - rewrite He. exists (str_of_exn e). reflexivity.
  - discriminate Hw.
Qed.

(** Reading stored posts never fails: whatever the data service does,
    [get_processed_posts] returns the list the client returned, after the
    client's one invocation, and [min_score] has no part in it.  None of the
    three [DatabaseError] handlers on the way can be reached. *)
Theorem processed_posts_never_fail
    (subreddit : option string) (min_score : option string) (limit : Z) (w : W) :
  exists posts,
    get_reddit_posts W lambda_invoke fromisoformat RedditComment_init
      FilteredPost_init limit subreddit w
    = (Return posts,
       snd (lambda_invoke function_name (request (GetRedditPosts limit subreddit)) w))
    /\
    PostProcessorService.get_processed_posts W lambda_invoke fromisoformat
      RedditComment_init FilteredPost_init subreddit min_score limit w
    = (Gave posts,
       snd (lambda_invoke function_name (request (GetRedditPosts limit subreddit)) w)).
Proof.
  unfold PostProcessorService.get_processed_posts, PostRepository.search_posts,
    PostRepository.get_recent_posts, rewrap, get_reddit_posts, request.
  cbn [build_envelope].
  change RedditLambdaClient.data_service_function_name with function_name.
  destruct (lambda_invoke function_name _ w) as [r w']. cbn [snd].
  destruct (posts_never_raises fromisoformat RedditComment_init FilteredPost_init
              (blocking r)) as [posts ->].
  exists posts. split; reflexivity.
Qed.

(** [fetch_posts] raises nothing but a [RedditFetchError]. *)
Lemma fetch_posts_cases subreddit limit mode before (w : W) :
  (exists posts, fst (fetch_posts subreddit limit mode before w) = Gave posts) \/
  (exists msg,
     fst (fetch_posts subreddit limit mode before w)
     = Threw (Service RedditFetchError msg)).
Proof.
  subst fetch_posts. unfold FetcherService.fetch_posts.
  destruct (FetcherService.fetch_posts_try _ _ _ _ _ _ _ _ w)
    as [[posts | [e | [] msg]] w']; cbn [fst]; eauto.
Qed.

(** Arguments that [_validate_inputs] rejects never reach Reddit, and the
    [ValueError] it raises does not leave [fetch_posts]: the caller gets a
    [RedditFetchError] and the world is as it was. *)
Theorem invalid_input_is_fetch_error
    (subreddit : string) (limit : Z) (mode : string) (before : option datetime)
    (w : W) :
  subreddit = EmptyString \/ limit < 1 \/ 100 < limit
  \/ existsb (String.eqb mode) FetcherService.valid_modes = false ->
  exists msg,
    FetcherService._validate_inputs subreddit limit mode
    = Raise (PyExc ValueError msg) /\
    fetch_posts subreddit limit mode before w
    = (Threw (Service RedditFetchError ("Failed to fetch posts: " ++ msg)), w).
Proof.
  subst fetch_posts. intros Hbad.
  assert (Hv : exists msg,
             FetcherService._validate_inputs subreddit limit mode
             = Raise (PyExc ValueError msg)).
  { unfold FetcherService._validate_inputs.
    destruct (String.eqb_spec subreddit EmptyString) as [_ | Hs]; [eauto |].
    destruct ((limit <? 1) || (100 <? limit)) eqn:Hl; [eauto |].
    apply Bool.orb_false_elim in Hl. destruct Hl as [Hl1 Hl2].
    apply Z.ltb_ge in Hl1. apply Z.ltb_ge in Hl2.
    destruct Hbad as [Hs' | [Hl' | [Hl' | Hm]]];
      [contradiction | lia | lia | rewrite Hm; eauto]. }
  destruct Hv as [msg Hv]. exists msg. split; [exact Hv |].
  unfold FetcherService.fetch_posts, FetcherService.fetch_posts_try, sbind.
  rewrite Hv. reflexivity.
Qed.

Let process :=
  PostProcessorService.fetch_and_process_posts W lambda_invoke RedditPost
    check_subreddit_exists repository_fetch_posts from_reddit_post is_valid_post.

(** [fetch_and_process_posts] of the service once the posts are fetched. *)
Lemma process_after_fetch subreddit limit mode raw_posts (w w1 : W) :
  fetch_posts subreddit limit mode None w = (Gave raw_posts, w1) ->
  process subreddit limit mode w
  = match passing raw_posts w1 with
    | [] => (Gave [], w1)
    | p :: ps =>
        match save_posts (p :: ps) w1 with
        | (Gave _, w2) => (Gave (p :: ps), w2)
        | (Threw e, w2) => (Threw e, w2)
        end
    end.
Proof.
  subst process fetch_posts passing save_posts. intros Hfetch.
  unfold PostProcessorService.fetch_and_process_posts, sbind.
  rewrite Hfetch.
  destruct (PostProcessorService.convert_and_filter _ _ _ _ raw_posts w1);
    reflexivity.
Qed.

Lemma process_fetch_failed subreddit limit mode e (w w1 : W) :
  fetch_posts subreddit limit mode None w = (Threw e, w1) ->
  process subreddit limit mode w = (Threw e, w1).
Proof.
  subst process fetch_posts. intros Hfetch.
  unfold PostProcessorService.fetch_and_process_posts, sbind.
  rewrite Hfetch. reflexivity.
Qed.

Lemma route_of_process subreddit limit mode (w : W) :
  route subreddit limit mode w
  = (FetcherApi.fetch_and_process_posts_except (fst (process subreddit limit mode w)),
     snd (process subreddit limit mode w)).
Proof.
  subst route process. unfold FetcherApi.fetch_and_process_posts.
  destruct (PostProcessorService.fetch_and_process_posts _ _ _ _ _ _ _ _ _ _ w);
    reflexivity.
Qed.

(** What [GET /posts/{subreddit}] stores and answers once Reddit has
    given its posts: the data service is sent one request, holding exactly
    the posts that passed the filter, or none at all when no post passed;
    the answer is that list, or a 500 whose detail starts with the
    repository's prefix. *)
Theorem stores_exactly_what_passed
    (subreddit : string) (limit : Z) (mode : string)
    (raw_posts : list RedditPost) (w w1 : W) :
  fetch_posts subreddit limit mode None w = (Gave raw_posts, w1) ->
  snd (route subreddit limit mode w)
  = match passing raw_posts w1 with
    | [] => w1
    | _ :: _ =>
        snd (lambda_invoke function_name
               (request (SaveRedditPosts (passing raw_posts w1))) w1)
    end
  /\
  (fst (route subreddit limit mode w) = Return (passing raw_posts w1) \/
   exists detail,
     fst (route subreddit limit mode w)
     = Raise (HTTPException 500
                ("Failed to save posts: "
                 ++ "Failed to save posts via Data Service Lambda: " ++ detail))).
Proof.
  intros Hfetch. rewrite route_of_process.
  rewrite (process_after_fetch _ _ _ _ _ _ Hfetch). cbn [fst snd].
  destruct (passing raw_posts w1) as [| p ps].
  - split; [reflexivity | left; reflexivity].
  - pose proof (save_posts_cases (p :: ps) w1) as Hcases.
    pose proof (save_posts_of_reply (p :: ps) w1) as Hreply.
    destruct (lambda_invoke function_name _ w1) as [r w'].
    destruct (save_posts (p :: ps) w1) as [[[] | e] w2]; cbn [fst snd] in *.
    + split; [congruence | left; reflexivity].
    + split; [congruence |].
      destruct Hcases as [Hc | [detail Hc]]; [discriminate |].
      right. exists detail. injection Hc as ->. reflexivity.
Qed.

(** Called with a [limit] between 1 and 100 and a [mode] that is hot,
    new or top, as the [Query] constraints of the route let through, the
    handler function returns a list of posts or raises an [HTTPException]
    with status 502 or 500: nothing the service raises is a [FilterError],
    so the [except FilterError] clause and its 422 are never reached, and no
    exception other than an [HTTPException] leaves the handler.  The 422
    that FastAPI itself gives to a request outside the constraints, and the
    500 of a failed [get_post_processor], come before the handler is
    called. *)
Theorem route_answers_502_or_500
    (subreddit : string) (limit : Z) (mode : string) (w : W) :
  1 <= limit <= 100 ->
  existsb (String.eqb mode) FetcherService.valid_modes = true ->
  (exists posts, fst (route subreddit limit mode w) = Return posts) \/
  (exists msg,
     fst (route subreddit limit mode w)
     = Raise (HTTPException 502 ("Failed to fetch from Reddit: " ++ msg))) \/
  (exists msg,
     fst (route subreddit limit mode w)
     = Raise (HTTPException 500 ("Failed to save posts: " ++ msg))).
Proof.
  intros _ _. rewrite route_of_process.
  destruct (fetch_posts subreddit limit mode None w) as [fetched w1] eqn:Hfetch.
  pose proof (fetch_posts_cases subreddit limit mode None w) as Hcases.
  rewrite Hfetch in Hcases. cbn [fst] in Hcases.
  destruct Hcases as [[raw ->] | [msg ->]].
  - rewrite (process_after_fetch _ _ _ _ _ _ Hfetch).
    destruct (passing raw w1) as [| p ps]; [left; eexists; reflexivity |].
    pose proof (save_posts_cases (p :: ps) w1) as Hsave.
    destruct (save_posts (p :: ps) w1) as [[[] | e] w2]; cbn [fst] in *.
    + left. eexists. reflexivity.
    + destruct Hsave as [Hc | [detail Hc]]; [discriminate |].
      right. right.
      exists ("Failed to save posts via Data Service Lambda: " ++ detail).
      injection Hc as ->. reflexivity.
  - right. left. exists msg.
    rewrite (process_fetch_failed _ _ _ _ _ _ Hfetch). reflexivity.
Qed.

Variable fetch_subreddit_info : string -> Svc W json.

(** [check_subreddit_status] never shows why the lookup failed: an
    empty name and every failure of the repository, whatever its class and
    text, are reported as the same "not found or inaccessible" dict, because
    [get_subreddit_info] has already turned them into a [RedditFetchError]. *)
Theorem lookup_failure_is_not_found (subreddit : string) (w : W) :
  subreddit = EmptyString \/
  (exists e, fst (fetch_subreddit_info subreddit w) = Threw e) ->
  fst (FetcherService.check_subreddit_status W fetch_subreddit_info subreddit w)
  = FetcherService.not_found.
Proof.
  intros Hbad.
  unfold FetcherService.check_subreddit_status, FetcherService.get_subreddit_info,
    rewrap.
  destruct (String.eqb_spec subreddit EmptyString) as [_ | Hne]; [reflexivity |].
  destruct Hbad as [He | [e He]]; [contradiction |].
  destruct (fetch_subreddit_info subreddit w) as [r w']. cbn [fst] in He.
  rewrite He. reflexivity.
Qed.

(** [process_batch] reports every subreddit it was given exactly once,
    however often it is listed and whether or not its processing failed:
    a failure in one subreddit does not keep the others from their entry. *)
Theorem batch_reports_every_subreddit
    (subreddits : list string) (posts_per_subreddit : Z) (mode : string) (w : W) :
  let results :=
    fst (PostProcessorService.process_batch W lambda_invoke RedditPost
           check_subreddit_exists repository_fetch_posts from_reddit_post
           is_valid_post subreddits posts_per_subreddit mode w) in
  NoDup (map fst results) /\
  forall s, In s (map fst results) <-> In s subreddits.
Proof.
  cbv zeta. unfold PostProcessorService.process_batch.
  assert (Hgen : forall acc w0,
            NoDup (map fst acc) ->
            let results :=
              fst (PostProcessorService.process_batch_from W lambda_invoke
                     RedditPost check_subreddit_exists repository_fetch_posts
                     from_reddit_post is_valid_post acc subreddits
                     posts_per_subreddit mode w0) in
            NoDup (map fst results) /\
            forall s, In s (map fst results)
                      <-> In s (map fst acc) \/ In s subreddits).
  { induction subreddits as [| sub rest IH]; intros acc w0 Hacc; cbv zeta.
    - cbn [PostProcessorService.process_batch_from fst In].
      split; [exact Hacc | intuition].
    - cbn [PostProcessorService.process_batch_from].
      destruct (PostProcessorService.fetch_and_process_posts _ _ _ _ _ _ _
                  sub posts_per_subreddit mode w0) as [[posts | e] w1];
        match goal with
        | |- context [dict_set sub ?v acc] =>
            destruct (IH (dict_set sub v acc) w1 (dict_set_NoDup sub v acc Hacc))
              as [Hnd Hkeys];
            split; [exact Hnd |];
            intros s; rewrite Hkeys, dict_set_keys; cbn [In];
            intuition congruence
        end. }
  destruct (Hgen [] w (NoDup_nil _)) as [Hnd Hkeys].
  split; [exact Hnd |]. intros s. rewrite Hkeys. cbn [map In]. intuition.
Qed.

End Reddit.

(** *** Concrete runs of the reddit service *)

Lemma save_failure_witness :
  failed (SaveRedditPosts [Stub.post1])
    (reply_to unit (Stub.always Stub.boom) (SaveRedditPosts [Stub.post1]) tt) /\
  exists detail,
    PostRepository.save_posts unit (Stub.always Stub.boom) [Stub.post1] tt
    = (Threw (Service DatabaseError
                ("Failed to save posts: "
                 ++ "Failed to save posts via Data Service Lambda: " ++ detail)),
       tt).
Proof.
  assert (Ha : answers Stub.boom 500
                 (Some (JStr (Json.dumps (JDict [("error", JStr "boom")]))))).
  { eexists. eexists. repeat split; vm_compute; reflexivity. }
  assert (Hf : failed (SaveRedditPosts [Stub.post1])
                 (reply_to unit (Stub.always Stub.boom)
                    (SaveRedditPosts [Stub.post1]) tt)).
  { apply (failed_status _ _ 500 _ Ha). lia. }
  split; [exact Hf |].
  exact (save_failure_is_database_error unit (Stub.always Stub.boom)
           [Stub.post1] tt Hf).
Defined.

Lemma invalid_input_witness :
  exists msg,
    FetcherService._validate_inputs "python" 0 "top" = Raise (PyExc ValueError msg) /\
    FetcherService.fetch_posts (list string) FilteredPost.t
      RedditStub.subreddit_exists (RedditStub.listing [Stub.post1])
      "python" 0 "top" None []
    = (Threw (Service RedditFetchError ("Failed to fetch posts: " ++ msg)), []).
Proof.
  assert (H : "python" = EmptyString \/ 0 < 1 \/ 100 < 0
              \/ existsb (String.eqb "top") FetcherService.valid_modes = false).
  { right. left. lia. }
  exact (invalid_input_is_fetch_error (list string) FilteredPost.t
           RedditStub.subreddit_exists (RedditStub.listing [Stub.post1])
           "python" 0 "top" None [] H).
Defined.

Lemma stores_what_passed_witness :
  snd (FetcherApi.fetch_and_process_posts (list string)
         (Stub.recording (Stub.responds 200 (JDict [])))
         FilteredPost.t RedditStub.subreddit_exists
         (RedditStub.listing [Stub.post1]) RedditStub.as_it_is
         RedditStub.accept_all "python" 5 "top" [])
  = [request (SaveRedditPosts [Stub.post1])].
Proof.
  exact (proj1 (stores_exactly_what_passed (list string)
                  (Stub.recording (Stub.responds 200 (JDict [])))
                  FilteredPost.t RedditStub.subreddit_exists
                  (RedditStub.listing [Stub.post1]) RedditStub.as_it_is
                  RedditStub.accept_all "python" 5 "top" [Stub.post1] [] []
                  eq_refl)).
Defined.

(** The handler on a listing of one post, with a data service that
    answers 200. *)
Lemma route_answers_witness :
  (exists posts,
     fst (FetcherApi.fetch_and_process_posts (list string)
            (Stub.recording (Stub.responds 200 (JDict [])))
            FilteredPost.t RedditStub.subreddit_exists
            (RedditStub.listing [Stub.post1]) RedditStub.as_it_is
            RedditStub.accept_all "python" 5 "top" [])
     = Return posts) \/
  (exists msg,
     fst (FetcherApi.fetch_and_process_posts (list string)
            (Stub.recording (Stub.responds 200 (JDict [])))
            FilteredPost.t RedditStub.subreddit_exists
            (RedditStub.listing [Stub.post1]) RedditStub.as_it_is
            RedditStub.accept_all "python" 5 "top" [])
     = Raise (HTTPException 502 ("Failed to fetch from Reddit: " ++ msg))) \/
  (exists msg,
     fst (FetcherApi.fetch_and_process_posts (list string)
            (Stub.recording (Stub.responds 200 (JDict [])))
            FilteredPost.t RedditStub.subreddit_exists
            (RedditStub.listing [Stub.post1]) RedditStub.as_it_is
            RedditStub.accept_all "python" 5 "top" [])
     = Raise (HTTPException 500 ("Failed to save posts: " ++ msg))).
Proof.
  assert (Hlimit : 1 <= 5 <= 100) by lia.
  exact (route_answers_502_or_500 (list string)
           (Stub.recording (Stub.responds 200 (JDict [])))
           FilteredPost.t RedditStub.subreddit_exists
           (RedditStub.listing [Stub.post1]) RedditStub.as_it_is
           RedditStub.accept_all "python" 5 "top" [] Hlimit eq_refl).
Defined.

Lemma lookup_failure_witness :
  fst (FetcherService.check_subreddit_status unit RedditStub.offline "python" tt)
  = FetcherService.not_found.
Proof.
  apply (lookup_failure_is_not_found unit RedditStub.offline "python" tt).
  right. exists (Builtin Stub.unreachable). reflexivity.
Defined.


(* ================================================================== *)
(** ** Reading back posts that have comments                            *)
(* ================================================================== *)

Lemma for_each_raises {A B : Type} (f : A -> outcome B) (l : list A) (x : A) :
  In x l -> (exists e, f x = Raise e) -> exists e, for_each f l = Raise e.
Proof.
  induction l as [| a l IH]; intros Hin Hx; [destruct Hin |].
  cbn [for_each]. destruct Hin as [-> | Hin].
  - destruct Hx as [e ->]. cbn [obind]. eauto.
  - destruct (f a) as [y | e]; cbn [obind]; [| eauto].
    destruct (IH Hin Hx) as [e ->]. cbn [obind]. eauto.
Qed.

Section ReadBack.

Variable W : Type.
Variable lambda_invoke : string -> string -> W -> reply * W.
Variable fromisoformat : string -> option datetime.
Variable RedditComment_init : json -> datetime -> outcome RedditComment.t.
Variable FilteredPost_init :
  json -> datetime -> option (list RedditComment.t) -> outcome FilteredPost.t.

(** [RedditComment] declares [id: str] without a default, so the
    constructor refuses a dict that has no [id]. *)
Hypothesis id_required :
  forall (d : dict) (t : datetime),
    dict_get "id" d = None -> exists e, RedditComment_init (JDict d) t = Raise e.

Lemma comment_without_id_raises (cd : dict) :
  dict_get "id" cd = None ->
  exists e, hydrate_comment fromisoformat RedditComment_init (JDict cd) = Raise e.
Proof.
  intros Hid. unfold hydrate_comment.
  destruct (py_getitem (JDict cd) "created_at") as [c | e]; cbn [obind]; [| eauto].
  destruct (datetime_fromisoformat fromisoformat c) as [t | e]; cbn [obind];
    [| eauto].
  apply id_required, Hid.
Qed.

Lemma post_with_such_comment_raises (d : dict) (comments : list json) (cd : dict) :
  dict_get "top_comments" d = Some (JList comments) ->
  In (JDict cd) comments ->
  dict_get "id" cd = None ->
  exists e,
    hydrate_post fromisoformat RedditComment_init FilteredPost_init (JDict d)
    = Raise e.
Proof.
  intros Htc Hin Hid. unfold hydrate_post.
  destruct (py_getitem (JDict d) "created_at") as [c | e]; cbn [obind]; [| eauto].
  destruct (datetime_fromisoformat fromisoformat c) as [t | e]; cbn [obind];
    [| eauto].
  cbn [py_get]. rewrite Htc. cbn [obind py_truthy].
  destruct comments as [| c0 rest]; [destruct Hin |].
  cbn [py_iter obind].
  destruct (for_each_raises (hydrate_comment fromisoformat RedditComment_init)
              (c0 :: rest) (JDict cd) Hin (comment_without_id_raises cd Hid))
    as [e ->].
  cbn [obind]. eauto.
Qed.

(** One comment without an [id] empties the whole read.  What
    [save_reddit_posts] sends for a comment is [author], [body], [score] and
    [created_at], without the [id] that [RedditComment] requires; when a 200
    answer lists a post that carries such a comment, the constructor raises
    inside the decoding loop, the [except] clause of [get_reddit_posts]
    catches it, and the caller gets the empty list, whatever else was
    listed. *)
Theorem comment_without_id_empties_read
    (limit : Z) (subreddit : option string) (w : W)
    (text : string) (items : list json) (d : dict) (comments : list json)
    (cd : dict) :
  answers (reply_to W lambda_invoke (GetRedditPosts limit subreddit) w) 200
    (Some (JStr text)) ->
  Json.loads text = Return (JList items) ->
  In (JDict d) items ->
  dict_get "top_comments" d = Some (JList comments) ->
  In (JDict cd) comments ->
  dict_get "id" cd = None ->
  get_reddit_posts W lambda_invoke fromisoformat RedditComment_init
    FilteredPost_init limit subreddit w
  = (Return [],
     snd (lambda_invoke function_name (request (GetRedditPosts limit subreddit)) w)).
Proof.
  intros Ha Hl Hpost Htc Hc Hid.
  unfold reply_to in Ha. unfold get_reddit_posts, request. cbn [build_envelope].
  change RedditLambdaClient.data_service_function_name with function_name.
  unfold request in Ha. cbn [build_envelope] in Ha.
  destruct (lambda_invoke function_name _ w) as [r w']. cbn [fst snd] in *.
  unfold blocking, get_reddit_posts_try. read_reply Ha.
  rewrite Hbody. cbn [obind json_loads Z.eqb Pos.eqb]. rewrite Hl.
  cbn [obind py_iter].
  destruct (for_each_raises
              (hydrate_post fromisoformat RedditComment_init FilteredPost_init)
              items (JDict d) Hpost
              (post_with_such_comment_raises d comments cd Htc Hc Hid))
    as [e ->].
  reflexivity.
Qed.

End ReadBack.

Lemma comment_init_requires_id (d : dict) (t : datetime) :
  dict_get "id" d = None -> exists e, RedditStub.comment_init (JDict d) t = Raise e.
Proof.
  intros Hid. unfold RedditStub.comment_init. rewrite Hid. eauto.
Qed.

(** The batch [save_reddit_posts] sends for [Stub.post1], which has one
    comment, answered back as it was sent. *)
Lemma read_back_witness :
  get_reddit_posts unit
    (Stub.always (Stub.responds 200 (JList (map post_dict [Stub.post1]))))
    Stub.iso_parse RedditStub.comment_init Stub.no_post 10 None tt
  = (Return [], tt).
Proof.
  eapply (comment_without_id_empties_read unit
            (Stub.always (Stub.responds 200 (JList (map post_dict [Stub.post1]))))
            Stub.iso_parse RedditStub.comment_init Stub.no_post
            comment_init_requires_id 10 None tt
            (Json.dumps (JList (map post_dict [Stub.post1])))
            (map post_dict [Stub.post1])).
  - eexists. eexists. repeat split; vm_compute; reflexivity.
  - vm_compute. reflexivity.
  - left. reflexivity.
  - vm_compute. reflexivity.
  - left. reflexivity.
  - reflexivity.
Defined.
